(** * pickfinder-scraper: the defense-strength reconciliation core

    A shallow embedding of the reconciliation pipeline of the scraper:

    - the rank filter and the rank-text normalisation of
      [scrape-today-players.ts] ([isRankInRange], the table strategy of
      [extractDefenseDataFromPage], the control flow of [scrapeDefenseData]);
    - the canonicalizers of [src/props/collectProps.ts]
      ([normalizeStatType], [normalizeTeamName]) and of the merge module
      ([normalizeTeamForMatching], [normalizeStatForMatching]);
    - the join of the merge module ([findDefenseStrength],
      [mergePrizePicksProps], [mergeUnderdogProps]);
    - around them: the text strategy of the extraction and
      [formatGameTimeForSheets], the teams of the day of [main] and the
      rows of [uploadDefenseDataToSheets] ([scrape-today-players.ts]);
      the row mapping of [readDefenseDataFromSheets]
      ([src/props/readDefenseData.ts]); the canonicalizers and the
      normalize, filter and duplicate-removal steps of the Underdog
      scraper; the schedule lookup ([getTodayNhlSchedule],
      [getOpponentFromSchedule]).

    Strings.  A JavaScript string is modelled by a [string] of the Standard
    Library whose characters are ASCII code units.  [toUpperCase] and
    [toLowerCase] act on the letters a-z / A-Z, white space is TAB, LF, VT,
    FF, CR and SPACE, a word character is a letter, a digit or the
    underscore.  Code units from 128 on are kept as opaque characters that
    are neither cased, nor white space, nor word characters; the statements
    below are meant for ASCII inputs. *)

From Stdlib Require Import String Ascii List Bool Arith NArith Lia Floats
  DecimalString.
Import ListNotations.
Open Scope string_scope.
Open Scope bool_scope.

(** ** JavaScript string primitives *)

Module Js.

Definition code (c : ascii) : nat := nat_of_ascii c.

Definition between (lo hi : nat) (c : ascii) : bool :=
  Nat.leb lo (code c) && Nat.leb (code c) hi.

Definition isUpper : ascii -> bool := between 65 90.
Definition isLower : ascii -> bool := between 97 122.
Definition isDigit : ascii -> bool := between 48 57.

(** The regular-expression class [\s] and the characters removed by
    [String.prototype.trim], restricted to ASCII. *)
Definition isSpace (c : ascii) : bool :=
  between 9 13 c || Nat.eqb (code c) 32.

(** The regular-expression class [\w]. *)
Definition isWord (c : ascii) : bool :=
  isUpper c || isLower c || isDigit c || Nat.eqb (code c) 95.

Definition toUpperChar (c : ascii) : ascii :=
  if isLower c then ascii_of_nat (code c - 32) else c.

Definition toLowerChar (c : ascii) : ascii :=
  if isUpper c then ascii_of_nat (code c + 32) else c.

Fixpoint mapChars (f : ascii -> ascii) (s : string) : string :=
  match s with
  | EmptyString => EmptyString
  | String c r => String (f c) (mapChars f r)
  end.

Definition toUpperCase : string -> string := mapChars toUpperChar.
Definition toLowerCase : string -> string := mapChars toLowerChar.

Fixpoint trimStart (s : string) : string :=
  match s with
  | EmptyString => EmptyString
  | String c r => if isSpace c then trimStart r else s
  end.

Fixpoint trimEnd (s : string) : string :=
  match s with
  | EmptyString => EmptyString
  | String c r =>
      match trimEnd r with
      | EmptyString => if isSpace c then EmptyString else String c EmptyString
      | r' => String c r'
      end
  end.

Definition trim (s : string) : string := trimEnd (trimStart s).

Definition noLeadingSpace (s : string) : Prop :=
  match s with
  | EmptyString => True
  | String c _ => isSpace c = false
  end.

(** [s.includes(sub)] *)
Fixpoint includes (s sub : string) : bool :=
  prefix sub s ||
  match s with
  | EmptyString => false
  | String _ r => includes r sub
  end.

Fixpoint existsChar (p : ascii -> bool) (s : string) : bool :=
  match s with
  | EmptyString => false
  | String c r => p c || existsChar p r
  end.

Fixpoint allChars (p : ascii -> bool) (s : string) : bool :=
  match s with
  | EmptyString => true
  | String c r => p c && allChars p r
  end.

Definition startsWith (p : ascii -> bool) (s : string) : bool :=
  match s with
  | EmptyString => false
  | String c _ => p c
  end.

Fixpoint filterChars (p : ascii -> bool) (s : string) : string :=
  match s with
  | EmptyString => EmptyString
  | String c r => if p c then String c (filterChars p r) else filterChars p r
  end.

(** [s.replace(/\s+/g, ' ')]: every maximal run of white space becomes one
    space.  [inRun] tells that the previous character was white space, so
    that the current run has already been replaced. *)
Fixpoint collapseFrom (inRun : bool) (s : string) : string :=
  match s with
  | EmptyString => EmptyString
  | String c r =>
      if isSpace c
      then if inRun then collapseFrom true r
           else String " "%char (collapseFrom true r)
      else String c (collapseFrom false r)
  end.

Definition collapseSpaces : string -> string := collapseFrom false.

(** The longest prefix of digits, and what follows it. *)
Fixpoint spanDigits (s : string) : string * string :=
  match s with
  | EmptyString => (EmptyString, EmptyString)
  | String c r =>
      if isDigit c
      then let (d, rest) := spanDigits r in (String c d, rest)
      else (EmptyString, s)
  end.

(** [s.match(/(\d+)/)]: the text before the leftmost digit, the maximal
    run of digits that starts there, and the text after it; [None] when
    [s] has no digit. *)
Fixpoint matchDigits (s : string) : option (string * string * string) :=
  match s with
  | EmptyString => None
  | String c r =>
      if isDigit c
      then let (d, rest) := spanDigits s in Some (EmptyString, d, rest)
      else match matchDigits r with
           | Some (pre, d, rest) => Some (String c pre, d, rest)
           | None => None
           end
  end.

(** [parseInt(d, 10)] on a string of decimal digits.  The result is kept
    exact; a double rounds only above 2^53, far from the constants the
    program compares it with. *)
Definition digitValue (c : ascii) : N := N.of_nat (code c - 48).

Fixpoint parseDigitsFrom (acc : N) (d : string) : N :=
  match d with
  | EmptyString => acc
  | String c r => parseDigitsFrom (N.add (N.mul 10 acc) (digitValue c)) r
  end.

Definition parseInt (d : string) : N := parseDigitsFrom 0 d.

(** [/th|st|nd|rd/i.test(s)] *)
Definition hasOrdinalSuffix (s : string) : bool :=
  let l := toLowerCase s in
  includes l "th" || includes l "st" || includes l "nd" || includes l "rd".

(** [/rank|th|st|nd|rd/i.test(s)] *)
Definition hasRankWord (s : string) : bool :=
  includes (toLowerCase s) "rank" || hasOrdinalSuffix s.

(** [/\d/.test(s)] and [/\d+/.test(s)] *)
Definition hasDigit (s : string) : bool := existsChar isDigit s.

End Js.

(** ** The extraction engine ([scrape-today-players.ts]) *)

Module Scraper.

Module Row.
(** An element of [Array<{ position: string; rank: string }>]. *)
Record t := mk { position : string; rank : string }.
End Row.

Module DefenseData.
(** [interface DefenseData] of [scrape-today-players.ts]. *)
Record t := mk {
  team : string;
  opponent : string;
  gameTime : string;
  stat : string;
  rank : string
}.
End DefenseData.

(** [isRankInRange]: the first run of digits of the rank text, read in
    base ten, lies between 24 and 32. *)
Definition isRankInRange (rank : string) : bool :=
  match Js.matchDigits rank with
  | Some (_, digits, _) =>
      let num := Js.parseInt digits in
      N.leb 24 num && N.leb num 32
  | None => false
  end.

(** The rank normalisation of the table strategy (the spec's
    [normalizeRank]):
    [if (!/th|st|nd|rd/i.test(rank) && /\d+/.test(rank))
       rank = rank.replace(/\d+/, (m) => m + 'th')]. *)
Definition normalizeRank (rankText : string) : string :=
  if negb (Js.hasOrdinalSuffix rankText) && Js.hasDigit rankText
  then match Js.matchDigits rankText with
       | Some (pre, m, post) => pre ++ m ++ "th" ++ post
       | None => rankText
       end
  else rankText.

Definition statCategories : list string :=
  [ "Shots on Goal"; "Shots"; "SOG";
    "Faceoffs Won"; "FOW"; "Face Off Wins";
    "Hits";
    "Points"; "Pts";
    "Goals Allowed"; "GA";
    "Goalie Saves"; "Saves"; "SV";
    "Blocked Shots"; "Blocks";
    "Time On Ice"; "TOI";
    "Faceoffs Lost"; "FOL";
    "Faceoffs"; "FO" ].

(** [statCategories.find(s => statName.toLowerCase().includes(s.toLowerCase())
    || s.toLowerCase().includes(statName.toLowerCase()))] *)
Definition matchedStat (statName : string) : option string :=
  find (fun s =>
          Js.includes (Js.toLowerCase statName) (Js.toLowerCase s)
          || Js.includes (Js.toLowerCase s) (Js.toLowerCase statName))
       statCategories.

(** [/^(RW|LW|C|D|G|Center|Left|Right|Defense|Wing|Goalie)$/i.test(statName)] *)
Definition isPosition (statName : string) : bool :=
  existsb (String.eqb (Js.toLowerCase statName))
    [ "rw"; "lw"; "c"; "d"; "g"; "center"; "left"; "right"; "defense";
      "wing"; "goalie" ].

Definition nonEmpty (s : string) : bool :=
  match s with EmptyString => false | _ => true end.

(** One [tr] of the table strategy; [cells] are the texts of its [td] and
    [th] elements.  [withPositions] is set in the inline copy of the
    strategy in [scrapeDefenseData], which also accepts a position
    abbreviation as a stat name. *)
Definition tableRow (withPositions : bool) (cells : list string)
  : option Row.t :=
  match cells with
  | cell0 :: cell1 :: _ =>
      let statName := Js.trim cell0 in
      let rankText := Js.trim cell1 in
      let isValidStat :=
        match matchedStat statName with
        | Some s => nonEmpty s
        | None => false
        end
        || (withPositions && isPosition statName)
        || nonEmpty statName in
      let isValidRank :=
        nonEmpty rankText && (Js.hasDigit rankText || Js.hasRankWord rankText) in
      if isValidStat && isValidRank
      then
        let position :=
          match matchedStat statName with
          | Some s => if nonEmpty s then s else statName
          | None => statName
          end in
        Some (Row.mk position (normalizeRank rankText))
      else None
  | _ => None
  end.

Fixpoint tableRows (withPositions : bool) (trs : list (list string))
  : list Row.t :=
  match trs with
  | [] => []
  | tr :: rest =>
      match tableRow withPositions tr with
      | Some r => r :: tableRows withPositions rest
      | None => tableRows withPositions rest
      end
  end.

(** "Remove duplicates": a [Map] keyed by [`${position}-${rank}`] that
    keeps the first row of every key, in insertion order. *)
Definition rowKey (r : Row.t) : string :=
  Row.position r ++ "-" ++ Row.rank r.

Fixpoint uniqueFrom (seen : list string) (results : list Row.t)
  : list Row.t :=
  match results with
  | [] => []
  | r :: rest =>
      if existsb (String.eqb (rowKey r)) seen
      then uniqueFrom seen rest
      else r :: uniqueFrom (rowKey r :: seen) rest
  end.

Definition uniqueResults : list Row.t -> list Row.t := uniqueFrom [].

Definition orElse (results later : list Row.t) : list Row.t :=
  match results with [] => later | _ => results end.

(** The outcome of a call on the page handle: a value, or a rejected
    promise. *)
Inductive outcome (A : Type) : Type :=
| Ok (a : A)
| Throws.
Arguments Ok {A} a.
Arguments Throws {A}.

(** The extraction calls issued against the page, in order: one per
    position pass that reaches it (line 898), the pass without position
    filter (line 924) and the inline fallback extraction (line 982). *)
Inductive Event : Type :=
| PositionExtract (position : string)
| UnfilteredExtract
| FallbackExtract.

Section Engine.

(** The browser page and the DOM are collaborators of the engine: the
    page is a state that every call may change, a located container is
    known by what the extraction strategies read from it. *)
Variable Page : Type.
Variable Container : Type.

(** Lines 552-797: navigation, layout fixes, click on the Defense tab. *)
Variable prepare : Page -> Page * outcome unit.
(** Lines 835-895: the locator chain that selects a position, the waits
    and the scroll; the value is [positionSelected]. *)
Variable activatePosition : string -> Page -> Page * outcome bool.
(** Lines 353-429: the container search of [extractDefenseDataFromPage]. *)
Variable locateContainer : Page -> Page * outcome (option Container).
(** Lines 936-971: waits and the second click on the Defense tab. *)
Variable settle : Page -> Page * outcome unit.
(** Line 974: [page.isClosed()]. *)
Variable isClosed : Page -> bool.
(** Lines 985-1149: the container search of the inline fallback. *)
Variable locateFallbackContainer : Page -> Page * outcome (option Container).
(** Lines 1318-1383: the debugging probe of an empty run. *)
Variable debugProbe : Page -> Page * outcome unit.

(** [container.tagName === 'TABLE' ? container :
    container.querySelector('table')], as the rows of the table, each
    with the texts of its cells. *)
Variable tableOf : Container -> option (list (list string)).
(** Lines 480-494 and 1205-1222: the regular-expression scan of the
    container text. *)
Variable textStrategy : Container -> list Row.t.
(** Lines 1224-1261 and 1263-1297: the scans of the card and grid
    elements of the container. *)
Variable cardStrategy : Container -> list Row.t.
Variable divStrategy : Container -> list Row.t.

(** A computation on the page that may throw, with the trace of the
    extraction calls made so far. *)
Definition M (A : Type) : Type :=
  Page * list Event -> (Page * list Event) * outcome A.

Definition ret {A} (a : A) : M A := fun w => (w, Ok a).

Definition bind {A B} (m : M A) (k : A -> M B) : M B :=
  fun w =>
    match m w with
    | (w', Ok a) => k a w'
    | (w', Throws) => (w', Throws)
    end.

(** [try { m } catch { h }] *)
Definition tryCatch {A} (m : M A) (h : M A) : M A :=
  fun w =>
    match m w with
    | (w', Throws) => h w'
    | r => r
    end.

Definition call {A} (op : Page -> Page * outcome A) : M A :=
  fun w =>
    let (p', r) := op (fst w) in ((p', snd w), r).

Definition emit (e : Event) : M unit :=
  fun w => ((fst w, (snd w ++ [e])%list), Ok tt).

Definition pageClosed : M bool :=
  fun w => (w, Ok (isClosed (fst w))).

Notation "x <- m ;; k" := (bind m (fun x => k))
  (at level 61, m at next level, right associativity).
Notation "m ;;; k" := (bind m (fun _ => k))
  (at level 61, right associativity).

(** The body of [extractDefenseDataFromPage] once the container is
    known: table strategy, then the text scan if it gave nothing, then
    the removal of duplicates. *)
Definition extractFromContainer (c : Container) : list Row.t :=
  let results :=
    match tableOf c with
    | Some trs => tableRows false trs
    | None => []
    end in
  uniqueResults (orElse results (textStrategy c)).

Definition extractDefenseDataFromPage : M (list Row.t) :=
  container <- call locateContainer ;;
  match container with
  | None => ret []
  | Some c => ret (extractFromContainer c)
  end.

(** The inline extraction of lines 982-1309. *)
Definition fallbackFromContainer (c : Container) : list Row.t :=
  let results :=
    match tableOf c with
    | Some trs => tableRows true trs
    | None => []
    end in
  let results := orElse results (textStrategy c) in
  let results := orElse results (cardStrategy c) in
  let results := orElse results (divStrategy c) in
  uniqueResults results.

Definition fallbackExtract : M (list Row.t) :=
  container <- call locateFallbackContainer ;;
  match container with
  | None => ret []
  | Some c => ret (fallbackFromContainer c)
  end.

Definition positions : list string := [ "LW"; "RW"; "C"; "D"; "G" ].

(** One round of the loop over [positions] (lines 830-919): the rows it
    pushes on [allDefenseRows]; an exception skips the position. *)
Definition positionPass (position : string) : M (list Row.t) :=
  tryCatch
    (call (activatePosition position) ;;;
     emit (PositionExtract position) ;;;
     positionDefenseRows <- extractDefenseDataFromPage ;;
     let filteredRows :=
       filter (fun row => isRankInRange (Row.rank row)) positionDefenseRows in
     ret (map (fun row =>
                 Row.mk (position ++ " - " ++ Row.position row) (Row.rank row))
              filteredRows))
    (ret []).

Fixpoint positionPasses (ps : list string) (allDefenseRows : list Row.t)
  : M (list Row.t) :=
  match ps with
  | [] => ret allDefenseRows
  | position :: rest =>
      pushed <- positionPass position ;;
      positionPasses rest (allDefenseRows ++ pushed)%list
  end.

(** Lines 921-934: the pass without position filter. *)
Definition unfilteredPass (allDefenseRows : list Row.t) : M (list Row.t) :=
  match allDefenseRows with
  | [] =>
      emit UnfilteredExtract ;;;
      allRows <- extractDefenseDataFromPage ;;
      let filteredRows :=
        filter (fun row => isRankInRange (Row.rank row)) allRows in
      ret (map (fun row => Row.mk (Row.position row) (Row.rank row))
               filteredRows)
  | _ => ret allDefenseRows
  end.

(** Lines 979-1312: "if we still don't have data, try the original
    extraction method"; its rows are pushed as they are. *)
Definition fallbackPass (allDefenseRows : list Row.t) : M (list Row.t) :=
  match allDefenseRows with
  | [] =>
      emit FallbackExtract ;;;
      fallbackRows <- fallbackExtract ;;
      ret fallbackRows
  | _ => ret allDefenseRows
  end.

Definition toDefenseData (team opponent gameTime : string) (row : Row.t)
  : DefenseData.t :=
  DefenseData.mk team opponent gameTime (Row.position row) (Row.rank row).

(** [scrapeDefenseData(page, playerUrl, team, opponent, gameTime)]; the
    URL is used by [prepare] only. *)
Definition scrapeDefenseData (team opponent gameTime : string)
  : M (list DefenseData.t) :=
  tryCatch
    (call prepare ;;;
     allDefenseRows <- positionPasses positions [] ;;
     allDefenseRows <- unfilteredPass allDefenseRows ;;
     call settle ;;;
     closed <- pageClosed ;;
     if closed then ret []
     else
       allDefenseRows <- fallbackPass allDefenseRows ;;
       match allDefenseRows with
       | [] => call debugProbe ;;; ret []
       | _ => ret (map (toDefenseData team opponent gameTime) allDefenseRows)
       end)
    (ret []).

(** What the caller sees: the list the promise resolves to, and the
    extraction calls the run has made. *)
Definition run {A} (m : M A) (page : Page) : (Page * list Event) * outcome A :=
  m (page, []).

Definition records (r : (Page * list Event) * outcome (list DefenseData.t))
  : list DefenseData.t :=
  match snd r with
  | Ok l => l
  | Throws => []
  end.

Definition trace {A} (r : (Page * list Event) * outcome A) : list Event :=
  snd (fst r).

(** Vocabulary of the statements: the extraction calls that follow the
    position passes, given the page and the trace [w2] they leave and
    the rows [rows] they have pushed. *)
Definition afterPasses (w2 : Page * list Event) (rows : list Row.t)
  : list Event :=
  match rows with
  | _ :: _ => []
  | [] =>
      UnfilteredExtract ::
      match unfilteredPass [] w2 with
      | (w3, Ok []) =>
          match call settle w3 with
          | (w4, Ok _) => if isClosed (fst w4) then [] else [FallbackExtract]
          | (_, Throws) => []
          end
      | _ => []
      end
  end.

End Engine.

End Scraper.

(** ** Objects used as lookup tables *)

Module Obj.

(** The values a table access [table[key]] can produce: [undefined], a
    string stored in the object literal, or a member that the literal
    inherits from [Object.prototype], known by its property name. *)
Inductive value : Type :=
| VUndefined
| VString (s : string)
| VInherited (name : string).

Definition objectPrototype : list string :=
  [ "constructor"; "__defineGetter__"; "__defineSetter__"; "hasOwnProperty";
    "__lookupGetter__"; "__lookupSetter__"; "isPrototypeOf";
    "propertyIsEnumerable"; "toString"; "valueOf"; "__proto__";
    "toLocaleString" ].

Fixpoint own (table : list (string * string)) (key : string) : option string :=
  match table with
  | [] => None
  | (k, v) :: rest => if String.eqb k key then Some v else own rest key
  end.

(** [table[key]] *)
Definition get (table : list (string * string)) (key : string) : value :=
  match own table key with
  | Some v => VString v
  | None =>
      if existsb (String.eqb key) objectPrototype
      then VInherited key
      else VUndefined
  end.

(** The property key a value is converted to when it indexes an object. *)
Definition toPropertyKey (v : value) : string :=
  match v with
  | VUndefined => "undefined"
  | VString s => s
  | VInherited name =>
      if String.eqb name "__proto__"
      then "[object Object]"
      else "function " ++ name ++ "() { [native code] }"
  end.

Definition truthy (v : value) : bool :=
  match v with
  | VUndefined => false
  | VString EmptyString => false
  | _ => true
  end.

(** [a || b] *)
Definition logicalOr (a b : value) : value := if truthy a then a else b.

(** [a === b] *)
Definition strictEq (a b : value) : bool :=
  match a, b with
  | VUndefined, VUndefined => true
  | VString s, VString t => String.eqb s t
  | VInherited n, VInherited m => String.eqb n m
  | _, _ => false
  end.

End Obj.

(** ** The canonicalizers *)

Module Canon.
Import Obj.

(** [normalizeStatType] of [src/props/collectProps.ts]. *)
Definition statMap : list (string * string) :=
  [ ("Points", "Points");
    ("Pts", "Points");
    ("Goals", "Goals");
    ("Assists", "Assists");
    ("Asts", "Assists");
    ("Shots on Goal", "Shots on Goal");
    ("SOG", "Shots on Goal");
    ("Shots", "Shots on Goal");
    ("Hits", "Hits");
    ("Blocked Shots", "Blocked Shots");
    ("Blocks", "Blocked Shots");
    ("Time On Ice", "Time On Ice");
    ("TOI", "Time On Ice");
    ("Faceoffs Won", "Faceoffs Won");
    ("FOW", "Faceoffs Won");
    ("Faceoffs Lost", "Faceoffs Lost");
    ("FOL", "Faceoffs Lost");
    ("Faceoffs", "Faceoffs");
    ("FO", "Faceoffs");
    ("Goals Allowed", "Goals Allowed");
    ("GA", "Goals Allowed");
    ("Saves", "Goalie Saves");
    ("SV", "Goalie Saves");
    ("Goalie Saves", "Goalie Saves") ].

(** [return statMap[statType] || statType] *)
Definition normalizeStatType (statType : value) : value :=
  logicalOr (get statMap (toPropertyKey statType)) statType.

(** [normalizeTeamName] of [src/props/collectProps.ts]. *)
Definition teamMap : list (string * string) :=
  [ ("ARI", "ARI"); ("ATL", "WPG"); ("BOS", "BOS"); ("BUF", "BUF");
    ("CGY", "CGY"); ("CAR", "CAR"); ("CHI", "CHI"); ("COL", "COL");
    ("CBJ", "CBJ"); ("DAL", "DAL"); ("DET", "DET"); ("EDM", "EDM");
    ("FLA", "FLA"); ("LAK", "LAK"); ("LA", "LAK"); ("MIN", "MIN");
    ("MTL", "MTL"); ("NSH", "NSH"); ("NJD", "NJD"); ("NYI", "NYI");
    ("NYR", "NYR"); ("OTT", "OTT"); ("PHI", "PHI"); ("PIT", "PIT");
    ("SJS", "SJS"); ("SEA", "SEA"); ("STL", "STL"); ("TBL", "TBL");
    ("TOR", "TOR"); ("UTA", "UTA"); ("VAN", "VAN"); ("VGK", "VGK");
    ("WSH", "WSH"); ("WPG", "WPG") ].

(** [const upper = teamName.toUpperCase().trim();
     return teamMap[upper] || upper] *)
Definition normalizeTeamName (teamName : string) : value :=
  let upper := Js.trim (Js.toUpperCase teamName) in
  logicalOr (get teamMap upper) (VString upper).

(** [normalizeTeamForMatching] of the merge module. *)
Definition teamVariations : list (string * string) :=
  [ ("LAK", "LAK"); ("LA", "LAK"); ("NJD", "NJD"); ("NJ", "NJD");
    ("NYI", "NYI"); ("NYR", "NYR"); ("SJS", "SJS"); ("SJ", "SJS");
    ("TBL", "TBL"); ("TB", "TBL"); ("VGK", "VGK"); ("VEG", "VGK");
    ("WSH", "WSH"); ("WAS", "WSH"); ("WPG", "WPG"); ("WIN", "WPG") ].

Definition normalizeTeamForMatching (team : string) : value :=
  let upper := Js.trim (Js.toUpperCase team) in
  logicalOr (get teamVariations upper) (VString upper).

(** The common shape of the two team canonicalizers, over any table. *)
Definition canonWith (table : list (string * string)) (team : string)
  : value :=
  let upper := Js.trim (Js.toUpperCase team) in
  logicalOr (get table upper) (VString upper).

(** [normalizeStatForMatching] of the merge module:
    [stat.toLowerCase().replace(/\s+/g, ' ').replace(/[^\w\s]/g, '').trim()] *)
Definition normalizeStatForMatching (stat : string) : string :=
  Js.trim
    (Js.filterChars (fun c => Js.isWord c || Js.isSpace c)
       (Js.collapseSpaces (Js.toLowerCase stat))).

End Canon.

(** ** The data of the props module ([src/props/types.ts]) *)

Module Props.

Module DefenseData.
Record t := mk {
  team : string;
  opponent : string;
  gameTime : string;
  position : string;  (* the stat category *)
  rank : string
}.
End DefenseData.

Module PrizePicksProp.
Record t := mk {
  playerName : string;
  team : string;
  opponent : string;
  statCategory : string;
  line : float;
  projectionId : string
}.
End PrizePicksProp.

Module UnderdogProp.
Record t := mk {
  playerName : string;
  team : string;
  opponent : string;
  position : option string;
  stat : string;
  line : float;
  gameTime : option string
}.
End UnderdogProp.

Module MergedProp.
Record t := mk {
  player : string;
  team : string;
  opponent : string;
  position : string;
  stat : string;
  line : float;
  defenseStrength : string;
  projectionId : option string;
  gameTime : option string
}.
End MergedProp.

End Props.

(** ** The join engine (the merge module) *)

Module Join.
Import Props.
Import Canon.

Definition statAliases : list (string * list string) :=
  [ ("points", ["pts"; "point"; "points"]);
    ("goals", ["goal"; "goals"]);
    ("assists", ["asts"; "assist"; "assists"]);
    ("shots on goal", ["sog"; "shots"; "shot"; "shots on goal"; "shot on goal"]);
    ("hits", ["hit"; "hits"]);
    ("blocked shots", ["blocks"; "blocked"; "blocked shots"; "block"]);
    ("time on ice", ["toi"; "time"; "time on ice"]);
    ("faceoffs won", ["fow"; "faceoff won"; "faceoffs won"; "face off won"]);
    ("faceoffs lost", ["fol"; "faceoff lost"; "faceoffs lost"; "face off lost"]);
    ("faceoffs", ["fo"; "faceoff"; "faceoffs"; "face off"]);
    ("goals allowed", ["ga"; "goals allowed"; "goal allowed"]);
    ("goalie saves", ["saves"; "sv"; "save"; "goalie saves"; "goalie save"]) ].

Definition defenseStatOf (d : DefenseData.t) : string :=
  normalizeStatForMatching (DefenseData.position d).

(** The predicate of [exactMatch]. *)
Definition isExact (normalizedStat : string) (d : DefenseData.t) : bool :=
  String.eqb (defenseStatOf d) normalizedStat.

(** The predicate of [partialMatch]. *)
Definition isPartial (normalizedStat : string) (d : DefenseData.t) : bool :=
  let defenseStat := defenseStatOf d in
  Js.includes defenseStat normalizedStat
  || Js.includes normalizedStat defenseStat
  || String.eqb defenseStat normalizedStat.

(** [aliases.some((alias) => normalizedStat === alias ||
    normalizedStat.includes(alias) || alias.includes(normalizedStat))] *)
Definition propMatchesAlias (normalizedStat : string) (aliases : list string)
  : bool :=
  existsb (fun alias =>
             String.eqb normalizedStat alias
             || Js.includes normalizedStat alias
             || Js.includes alias normalizedStat)
          aliases.

(** The predicate of [aliasMatch]. *)
Definition isAliasMatch (key : string) (aliases : list string)
    (d : DefenseData.t) : bool :=
  let defenseStat := defenseStatOf d in
  String.eqb defenseStat key
  || Js.includes defenseStat key
  || Js.includes key defenseStat
  || existsb (fun alias =>
                String.eqb defenseStat alias || Js.includes defenseStat alias)
             aliases.

(** The predicate of [defenseStatMatches]. *)
Definition isKeyMatch (key : string) (d : DefenseData.t) : bool :=
  let defenseStat := defenseStatOf d in
  String.eqb defenseStat key
  || Js.includes defenseStat key
  || Js.includes key defenseStat.

(** The first loop over [Object.entries(statAliases)]. *)
Fixpoint aliasLoop (normalizedStat : string)
    (opponentMatches : list DefenseData.t)
    (entries : list (string * list string)) : option string :=
  match entries with
  | [] => None
  | (key, aliases) :: rest =>
      if propMatchesAlias normalizedStat aliases
      then match find (isAliasMatch key aliases) opponentMatches with
           | Some aliasMatch => Some (DefenseData.rank aliasMatch)
           | None => aliasLoop normalizedStat opponentMatches rest
           end
      else aliasLoop normalizedStat opponentMatches rest
  end.

(** The second loop, the "reverse check". *)
Fixpoint reverseLoop (normalizedStat : string)
    (opponentMatches : list DefenseData.t)
    (entries : list (string * list string)) : option string :=
  match entries with
  | [] => None
  | (key, aliases) :: rest =>
      match find (isKeyMatch key) opponentMatches with
      | Some defenseStatMatches =>
          if propMatchesAlias normalizedStat aliases
          then Some (DefenseData.rank defenseStatMatches)
          else reverseLoop normalizedStat opponentMatches rest
      | None => reverseLoop normalizedStat opponentMatches rest
      end
  end.

Definition sameOpponent (normalizedOpponent : Obj.value) (d : DefenseData.t)
  : bool :=
  Obj.strictEq (normalizeTeamForMatching (DefenseData.opponent d))
               normalizedOpponent.

(** [findDefenseStrength]; [None] is [null]. *)
Definition findDefenseStrength (defenseData : list DefenseData.t)
    (team opponent statCategory : string) : option string :=
  if negb (Scraper.nonEmpty opponent) || negb (Scraper.nonEmpty statCategory)
  then None
  else
    let normalizedOpponent := normalizeTeamForMatching opponent in
    let normalizedStat := normalizeStatForMatching statCategory in
    let opponentMatches := filter (sameOpponent normalizedOpponent) defenseData in
    match opponentMatches with
    | [] => None
    | _ =>
        match find (isExact normalizedStat) opponentMatches with
        | Some exactMatch => Some (DefenseData.rank exactMatch)
        | None =>
            match find (isPartial normalizedStat) opponentMatches with
            | Some partialMatch => Some (DefenseData.rank partialMatch)
            | None =>
                match aliasLoop normalizedStat opponentMatches statAliases with
                | Some r => Some r
                | None => reverseLoop normalizedStat opponentMatches statAliases
                end
            end
        end
    end.

(** [defenseStrength || 'NA'] *)
Definition orNA (defenseStrength : option string) : string :=
  match defenseStrength with
  | Some r => if Scraper.nonEmpty r then r else "NA"
  | None => "NA"
  end.

(** The callback of [props.map] in [mergePrizePicksProps]. *)
Definition mergePrizePicksProp (defenseData : list DefenseData.t)
    (prop : PrizePicksProp.t) : MergedProp.t :=
  let defenseStrength :=
    findDefenseStrength defenseData (PrizePicksProp.team prop)
      (PrizePicksProp.opponent prop) (PrizePicksProp.statCategory prop) in
  MergedProp.mk
    (PrizePicksProp.playerName prop)
    (PrizePicksProp.team prop)
    (PrizePicksProp.opponent prop)
    (PrizePicksProp.statCategory prop)
    (PrizePicksProp.statCategory prop)
    (PrizePicksProp.line prop)
    (orNA defenseStrength)
    (Some (PrizePicksProp.projectionId prop))
    None.

(** [mergePrizePicksProps]; the console output is not modelled. *)
Definition mergePrizePicksProps (props : list PrizePicksProp.t)
    (defenseData : list DefenseData.t) : list MergedProp.t :=
  map (mergePrizePicksProp defenseData) props.

(** The callback of [props.map] in [mergeUnderdogProps]. *)
Definition mergeUnderdogProp (defenseData : list DefenseData.t)
    (prop : UnderdogProp.t) : MergedProp.t :=
  let defenseStrength :=
    findDefenseStrength defenseData (UnderdogProp.team prop)
      (UnderdogProp.opponent prop) (UnderdogProp.stat prop) in
  MergedProp.mk
    (UnderdogProp.playerName prop)
    (UnderdogProp.team prop)
    (UnderdogProp.opponent prop)
    (match UnderdogProp.position prop with
     | Some p => p
     | None => ""
     end)
    (UnderdogProp.stat prop)
    (UnderdogProp.line prop)
    (orNA defenseStrength)
    None
    (UnderdogProp.gameTime prop).

Definition mergeUnderdogProps (props : list UnderdogProp.t)
    (defenseData : list DefenseData.t) : list MergedProp.t :=
  map (mergeUnderdogProp defenseData) props.

End Join.


(** ** Vocabulary of the statements on the extraction engine *)

Module Attempts.
Import Scraper.

Definition isPositionExtract (e : Event) : bool :=
  match e with
  | PositionExtract _ => true
  | _ => false
  end.

(** The extraction attempts of a run that are made outside the position
    passes. *)
Definition extraAttempts (events : list Event) : nat :=
  List.length (filter (fun e => negb (isPositionExtract e)) events).

(** The rank of a row lies in the band 24-32. *)
Definition inBand (row : Row.t) : Prop :=
  isRankInRange (Row.rank row) = true.

End Attempts.

(** A page whose Defense panel always shows the same table, whatever
    position is selected: every call succeeds, the page is never closed and
    the panel has nothing but the table.  The page is the list of the rows
    of that table, each row the list of its cell texts. *)
Module StaticPage.
Import Scraper.

Definition Page : Type := list (list string).
Definition Container : Type := list (list string).

Definition succeed {A} (a : A) (p : Page) : Page * outcome A := (p, Ok a).
Definition locate (p : Page) : Page * outcome (option Container) :=
  (p, Ok (Some p)).

Section Strategies.
Variables textStrategy cardStrategy divStrategy : Container -> list Row.t.

Definition scrapeDefenseData (team opponent gameTime : string)
  : M Page (list DefenseData.t) :=
  Scraper.scrapeDefenseData Page Container
    (succeed tt) (fun _ => succeed true) locate (succeed tt)
    (fun _ => false) locate (succeed tt)
    (fun c => Some c) textStrategy cardStrategy divStrategy
    team opponent gameTime.

Definition positionPasses : M Page (list Row.t) :=
  Scraper.positionPasses Page Container
    (fun _ => succeed true) locate (fun c => Some c) textStrategy
    positions [].
End Strategies.

Definition none (c : Container) : list Row.t := [].

End StaticPage.

(** ** Vocabulary of the statements on the join engine *)

Module Tiers.
Import Props Canon Join.

Section Joined.
(** The opponent and the statistic of the prop that is joined. *)
Variables opponent statCategory : string.

Let normalizedOpponent := normalizeTeamForMatching opponent.
Let normalizedStat := normalizeStatForMatching statCategory.

(** Tier 1: same opponent and equal statistics. *)
Definition exact (d : DefenseData.t) : bool :=
  sameOpponent normalizedOpponent d && isExact normalizedStat d.

(** Tier 2: same opponent and one statistic contained in the other. *)
Definition partial (d : DefenseData.t) : bool :=
  sameOpponent normalizedOpponent d && isPartial normalizedStat d.

(** Tier 3 for one alias group: the prop's statistic matches an alias of
    the group, and the record belongs to the group. *)
Definition forwardIn (group : string * list string) (d : DefenseData.t)
  : bool :=
  propMatchesAlias normalizedStat (snd group)
  && (sameOpponent normalizedOpponent d
      && isAliasMatch (fst group) (snd group) d).

(** Tier 4 for one alias group: the record's statistic matches the name
    of the group, and the prop's statistic one of its aliases. *)
Definition reverseIn (group : string * list string) (d : DefenseData.t)
  : bool :=
  (sameOpponent normalizedOpponent d && isKeyMatch (fst group) d)
  && propMatchesAlias normalizedStat (snd group).

(** Tiers 3 and 4 as sets of candidates: some alias group relates the
    prop and the record. *)
Definition forward (d : DefenseData.t) : bool :=
  existsb (fun group => forwardIn group d) statAliases.

Definition reverse (d : DefenseData.t) : bool :=
  existsb (fun group => reverseIn group d) statAliases.

Definition firstCandidate (tier : DefenseData.t -> bool)
    (defenseData : list DefenseData.t) : option string :=
  option_map DefenseData.rank (find tier defenseData).

Definition firstOf (a b : option string) : option string :=
  match a with
  | Some r => Some r
  | None => b
  end.

(** The lookup in the words of the specification: the first tier with a
    candidate wins, with its first candidate in the order of the
    list. *)
Definition lookupByListOrder (defenseData : list DefenseData.t)
  : option string :=
  firstOf (firstCandidate exact defenseData)
    (firstOf (firstCandidate partial defenseData)
       (firstOf (firstCandidate forward defenseData)
          (firstCandidate reverse defenseData))).

(** Within an alias tier, the groups in the order of the table: the
    first group with a candidate wins, with its first candidate in the
    order of the list. *)
Fixpoint byGroup (tierIn : string * list string -> DefenseData.t -> bool)
    (groups : list (string * list string))
    (defenseData : list DefenseData.t) : option string :=
  match groups with
  | [] => None
  | group :: rest =>
      firstOf (firstCandidate (tierIn group) defenseData)
              (byGroup tierIn rest defenseData)
  end.

Definition lookupByGroupOrder (defenseData : list DefenseData.t)
  : option string :=
  firstOf (firstCandidate exact defenseData)
    (firstOf (firstCandidate partial defenseData)
       (firstOf (byGroup forwardIn statAliases defenseData)
          (byGroup reverseIn statAliases defenseData))).
End Joined.

End Tiers.

(** ** The inputs of the scenarios *)

Module Scenario.
Import Props.

(** The prop of the join scenario of the specification. *)
Definition prop : PrizePicksProp.t :=
  PrizePicksProp.mk "Player" "BOS" "TOR" "SOG" 2.5%float "p1".

(** The defense record as the scenario writes it: a record of team TOR
    about its opponent BOS. *)
Definition recordAsStated : DefenseData.t :=
  DefenseData.mk "TOR" "BOS" "7:00 PM" "Shots on Goal" "25th".

(** The record the scraper makes for that game: scraped for team BOS,
    about its opponent TOR. *)
Definition recordOfOpponent : DefenseData.t :=
  DefenseData.mk "BOS" "TOR" "7:00 PM" "Shots on Goal" "25th".

(** Two records of the opponent TOR whose statistics fall in two alias
    groups that the prop statistic "Shots" matches: "blocked shots" (by
    the alias "blocked shots", which contains "shots") and "shots on goal"
    (by the alias "shots"). *)
Definition blocks30 : DefenseData.t :=
  DefenseData.mk "BOS" "TOR" "7:00 PM" "Blocks" "30th".
Definition sog25 : DefenseData.t :=
  DefenseData.mk "BOS" "TOR" "7:00 PM" "SOG" "25th".

(** The fields a merged record shares with its prop. *)
Definition copied (m : MergedProp.t) : string * string * string * string * float :=
  (MergedProp.player m, MergedProp.team m, MergedProp.opponent m,
   MergedProp.stat m, MergedProp.line m).

Definition ofPrizePicks (p : PrizePicksProp.t)
  : string * string * string * string * float :=
  (PrizePicksProp.playerName p, PrizePicksProp.team p,
   PrizePicksProp.opponent p, PrizePicksProp.statCategory p,
   PrizePicksProp.line p).

Definition ofUnderdog (p : UnderdogProp.t)
  : string * string * string * string * float :=
  (UnderdogProp.playerName p, UnderdogProp.team p,
   UnderdogProp.opponent p, UnderdogProp.stat p, UnderdogProp.line p).

End Scenario.

(** * Further parts of the program *)

(** ** The canonicalizers of the Underdog scraper *)

Module Underdog.
Import Obj.

(** [normalizeTeamName] of the Underdog scraper. *)
Definition teamMap : list (string * string) :=
  [ ("ARI", "ARI"); ("ATL", "WPG"); ("BOS", "BOS"); ("BUF", "BUF");
    ("CGY", "CGY"); ("CAR", "CAR"); ("CHI", "CHI"); ("COL", "COL");
    ("CBJ", "CBJ"); ("DAL", "DAL"); ("DET", "DET"); ("EDM", "EDM");
    ("FLA", "FLA"); ("LAK", "LAK"); ("LA", "LAK"); ("MIN", "MIN");
    ("MTL", "MTL"); ("NSH", "NSH"); ("NJD", "NJD"); ("NJ", "NJD");
    ("NYI", "NYI"); ("NYR", "NYR"); ("OTT", "OTT"); ("PHI", "PHI");
    ("PIT", "PIT"); ("SJS", "SJS"); ("SJ", "SJS"); ("SEA", "SEA");
    ("STL", "STL"); ("TBL", "TBL"); ("TB", "TBL"); ("TOR", "TOR");
    ("UTA", "UTA"); ("VAN", "VAN"); ("VGK", "VGK"); ("VEG", "VGK");
    ("WSH", "WSH"); ("WAS", "WSH"); ("WPG", "WPG"); ("WIN", "WPG") ].

(** [const upper = teamName.toUpperCase().trim();
     return teamMap[upper] || upper] *)
Definition normalizeTeamName (teamName : string) : value :=
  let upper := Js.trim (Js.toUpperCase teamName) in
  logicalOr (get teamMap upper) (VString upper).

(** [normalizeStatType] of the Underdog scraper. *)
Definition statMap : list (string * string) :=
  [ ("Points", "Points");
    ("Pts", "Points");
    ("Goals", "Goals");
    ("Assists", "Assists");
    ("Asts", "Assists");
    ("Shots on Goal", "Shots on Goal");
    ("SOG", "Shots on Goal");
    ("Shots", "Shots on Goal");
    ("Hits", "Hits");
    ("Blocked Shots", "Blocked Shots");
    ("Blocks", "Blocked Shots");
    ("Time On Ice", "Time On Ice");
    ("TOI", "Time On Ice");
    ("Faceoffs Won", "Faceoffs Won");
    ("FOW", "Faceoffs Won");
    ("Faceoffs Lost", "Faceoffs Lost");
    ("FOL", "Faceoffs Lost");
    ("Faceoffs", "Faceoffs");
    ("FO", "Faceoffs");
    ("Goals Allowed", "Goals Allowed");
    ("GA", "Goals Allowed");
    ("Saves", "Goalie Saves");
    ("SV", "Goalie Saves");
    ("Goalie Saves", "Goalie Saves");
    ("Fantasy Score", "Points") ].

(** [const normalized = statType.trim();
     return statMap[normalized] || normalized] *)
Definition normalizeStatType (statType : string) : value :=
  let normalized := Js.trim statType in
  logicalOr (get statMap normalized) (VString normalized).

End Underdog.

(** ** A [Map] with its [get] and [set] *)

Module JsMap.
Section Map.
Variables K V : Type.
(** The comparison of keys (SameValueZero). *)
Variable sameKey : K -> K -> bool.

(** The entries in insertion order. *)
Definition t : Type := list (K * V).

Definition empty : t := [].

(** [map.set(k, v)]: the value of an existing key is replaced in place, a
    new key is appended. *)
Fixpoint set (k : K) (v : V) (m : t) : t :=
  match m with
  | [] => [(k, v)]
  | (k', v') :: rest =>
      if sameKey k' k then (k', v) :: rest else (k', v') :: set k v rest
  end.

(** [map.get(k)]; [None] is [undefined]. *)
Fixpoint get (k : K) (m : t) : option V :=
  match m with
  | [] => None
  | (k', v') :: rest => if sameKey k' k then Some v' else get k rest
  end.

(** [Array.from(map.keys())], and the elements of a [Set] kept as a map to
    [tt]. *)
Definition keys (m : t) : list K := map fst m.
End Map.
End JsMap.

(** ** The schedule of the day (the schedule module of the props) *)

Module Schedule.
Import Obj.

(** [interface GameMatchup] *)
Record GameMatchup := mkGame {
  teamA : string;
  teamB : string;
  gameTime : string
}.

Definition Matchups : Type := JsMap.t value value.

(** The loop of [getTodayNhlSchedule] over the games of the day. *)
Definition addGame (matchupMap : Matchups) (game : GameMatchup) : Matchups :=
  let teamA := Underdog.normalizeTeamName (teamA game) in
  let teamB := Underdog.normalizeTeamName (teamB game) in
  if truthy teamA && truthy teamB
  then JsMap.set _ _ strictEq teamB teamA
         (JsMap.set _ _ strictEq teamA teamB matchupMap)
  else matchupMap.

Definition matchupMap (games : list GameMatchup) : Matchups :=
  fold_left addGame games (JsMap.empty _ _).

(** [getOpponentFromSchedule(team, schedule)]; [None] is [null]. *)
Definition getOpponentFromSchedule (team : string) (schedule : Matchups)
  : option value :=
  if negb (Scraper.nonEmpty team) then None
  else
    let normalizedTeam := Underdog.normalizeTeamName team in
    match JsMap.get _ _ strictEq normalizedTeam schedule with
    | Some opponent => if truthy opponent then Some opponent else None
    | None => None
    end.

End Schedule.

(** ** The teams of the day in [main] of [scrape-today-players.ts] *)

Module Today.

Record Game := mkGame {
  teamA : string;
  teamB : string;
  gameTime : string
}.

Record GameInfo := mkInfo {
  opponent : string;
  infoTime : string
}.

(** [teamsToProcess] and [teamGameInfo] after the loop over [todayGames]. *)
Definition addGame
    (state : JsMap.t string unit * JsMap.t string GameInfo) (game : Game)
  : JsMap.t string unit * JsMap.t string GameInfo :=
  let (teamsToProcess, teamGameInfo) := state in
  let teamsToProcess :=
    JsMap.set _ _ String.eqb (teamB game) tt
      (JsMap.set _ _ String.eqb (teamA game) tt teamsToProcess) in
  let teamGameInfo :=
    JsMap.set _ _ String.eqb (teamB game)
      (mkInfo (teamA game) (gameTime game))
      (JsMap.set _ _ String.eqb (teamA game)
         (mkInfo (teamB game) (gameTime game)) teamGameInfo) in
  (teamsToProcess, teamGameInfo).

Definition collect (todayGames : list Game)
  : JsMap.t string unit * JsMap.t string GameInfo :=
  fold_left addGame todayGames (JsMap.empty _ _, JsMap.empty _ _).

(** [teamsArray = Array.from(teamsToProcess)] *)
Definition teamsArray (todayGames : list Game) : list string :=
  JsMap.keys _ _ (fst (collect todayGames)).

Definition teamGameInfo (todayGames : list Game) : JsMap.t string GameInfo :=
  snd (collect todayGames).

(** The loop over [teamsArray]: the team, opponent and game time of every
    round that passes [if (!gameInfo) continue], in order.  These are the
    arguments [scrapeDefenseData] gets when the page is open and a player
    page of the team is found. *)
Definition scrapeTargets (todayGames : list Game)
  : list (string * string * string) :=
  flat_map (fun team =>
              match JsMap.get _ _ String.eqb team (teamGameInfo todayGames) with
              | Some gameInfo => [(team, opponent gameInfo, infoTime gameInfo)]
              | None => []
              end)
           (teamsArray todayGames).

End Today.

(** ** The rows of [uploadDefenseDataToSheets] *)

Module Upload.
Import Scraper.

Definition header : list string :=
  [ "Team"; "Opponent"; "Game Time"; "Position"; "Rank" ].

Section Values.
(** [formatGameTimeForSheets], which reads the clock of the machine. *)
Variable formatGameTimeForSheets : string -> string.

(** The rows pushed on [values]. *)
Definition values (defenseData : list DefenseData.t) : list (list string) :=
  map (fun data =>
         [ DefenseData.team data;
           DefenseData.opponent data;
           formatGameTimeForSheets (DefenseData.gameTime data);
           DefenseData.stat data;
           DefenseData.rank data ])
      defenseData.
End Values.

End Upload.

(** ** Reading the defense sheet ([src/props/readDefenseData.ts]) *)

Module Reader.
Import Props.

(** [headers.findIndex(h => h && test(h.toLowerCase()))], [None] for -1. *)
Fixpoint findIndexFrom (i : nat) (test : string -> bool) (headers : list string)
  : option nat :=
  match headers with
  | [] => None
  | h :: rest =>
      if Scraper.nonEmpty h && test (Js.toLowerCase h)
      then Some i
      else findIndexFrom (S i) test rest
  end.

Definition findIndex : (string -> bool) -> list string -> option nat :=
  findIndexFrom 0.

Definition orDefault (col : option nat) (default : nat) : nat :=
  match col with
  | Some i => i
  | None => default
  end.

Record Columns := mkColumns {
  teamIdx : nat;
  opponentIdx : nat;
  gameTimeIdx : nat;
  positionIdx : nat;
  rankIdx : nat
}.

(** The column mapping found from the header row, with the fall back to the
    columns A to E. *)
Definition columns (headers : list string) : Columns :=
  let teamCol :=
    findIndex (fun h => Js.includes h "team" || String.eqb h "team") headers in
  let opponentCol :=
    findIndex (fun h => Js.includes h "opponent" || String.eqb h "opponent")
      headers in
  let positionCol :=
    findIndex (fun h => Js.includes h "position" || String.eqb h "position"
                        || Js.includes h "stat") headers in
  let rankCol :=
    findIndex (fun h => Js.includes h "rank" || String.eqb h "rank") headers in
  let gameTimeCol :=
    findIndex (fun h => Js.includes h "time" || Js.includes h "game") headers in
  mkColumns (orDefault teamCol 0) (orDefault opponentCol 1)
    (orDefault gameTimeCol 2) (orDefault positionCol 3) (orDefault rankCol 4).

(** [(row[i] || '').trim()] *)
Definition cell (row : list string) (i : nat) : string :=
  Js.trim (nth i row EmptyString).

(** The callback of [rows.map]; [None] is [null]. *)
Definition parseRow (c : Columns) (row : list string) : option DefenseData.t :=
  if Nat.leb (List.length row)
       (Nat.max (Nat.max (teamIdx c) (opponentIdx c))
                (Nat.max (positionIdx c) (rankIdx c)))
  then None
  else
    let team := cell row (teamIdx c) in
    let opponent := cell row (opponentIdx c) in
    let position := cell row (positionIdx c) in
    let rank := cell row (rankIdx c) in
    let gameTime := cell row (gameTimeIdx c) in
    if negb (Scraper.nonEmpty team) || negb (Scraper.nonEmpty opponent)
       || negb (Scraper.nonEmpty position) || negb (Scraper.nonEmpty rank)
    then None
    else Some (DefenseData.mk team opponent gameTime position rank).

Fixpoint parseRows (c : Columns) (rows : list (list string))
  : list DefenseData.t :=
  match rows with
  | [] => []
  | row :: rest =>
      match parseRow c row with
      | Some d => d :: parseRows c rest
      | None => parseRows c rest
      end
  end.

(** The data of [readDefenseDataFromSheets] from the header row and the
    rows below it. *)
Definition defenseData (headers : list string) (rows : list (list string))
  : list DefenseData.t :=
  parseRows (columns headers) rows.

End Reader.

(** ** The props of the Underdog scraper after extraction *)

Module UnderdogProps.
Import Obj Props Scraper.

(** The allow-list of both prop scrapers. *)
Definition allowedStats : list string :=
  [ "Shots on Goal"; "Faceoffs Won"; "Hits"; "Goals"; "Points"; "Assists";
    "Blocked Shots"; "Goals Allowed"; "Goalie Saves" ].

(** [allowedStats.some(allowed => statLower === allowed.toLowerCase() ||
    statLower.includes(allowed.toLowerCase()) ||
    allowed.toLowerCase().includes(statLower))] *)
Definition isAllowedStat (statLower : string) : bool :=
  existsb (fun allowed =>
             String.eqb statLower (Js.toLowerCase allowed)
             || Js.includes statLower (Js.toLowerCase allowed)
             || Js.includes (Js.toLowerCase allowed) statLower)
          allowedStats.

(** A prop after the [map] step: the team, the opponent and the statistic
    are what the canonicalizers return. *)
Record Normalized := mkNormalized {
  playerName : string;
  team : value;
  opponent : value;
  position : option string;
  stat : value;
  line : float;
  gameTime : option string
}.

(** The callback of [props.map]. *)
Definition normalize (prop : UnderdogProp.t) : Normalized :=
  mkNormalized
    (UnderdogProp.playerName prop)
    (Underdog.normalizeTeamName (UnderdogProp.team prop))
    (if nonEmpty (UnderdogProp.opponent prop)
     then Underdog.normalizeTeamName (UnderdogProp.opponent prop)
     else VString "")
    (UnderdogProp.position prop)
    (Underdog.normalizeStatType (UnderdogProp.stat prop))
    (UnderdogProp.line prop)
    (UnderdogProp.gameTime prop).

(** The callback of the [filter] step; [prop.stat.toLowerCase()] throws
    when the statistic is not a string. *)
Definition isValid (prop : Normalized) : outcome bool :=
  if negb (nonEmpty (playerName prop)) || negb (truthy (team prop))
     || negb (truthy (stat prop)) || PrimFloat.leb (line prop) 0%float
  then Ok false
  else
    match stat prop with
    | VString s =>
        if negb (isAllowedStat (Js.toLowerCase s)) then Ok false
        else if truthy (opponent prop) && strictEq (opponent prop) (team prop)
        then Ok false
        else Ok true
    | _ => Throws
    end.

(** [Array.prototype.filter] with a callback that may throw. *)
Fixpoint filterValid (props : list Normalized) : outcome (list Normalized) :=
  match props with
  | [] => Ok []
  | prop :: rest =>
      match isValid prop with
      | Throws => Throws
      | Ok keep =>
          match filterValid rest with
          | Throws => Throws
          | Ok kept => Ok (if keep then prop :: kept else kept)
          end
      end
  end.

(** The test of the [findIndex] of the duplicate removal. *)
Definition sameProp (prop p : Normalized) : bool :=
  String.eqb (playerName p) (playerName prop)
  && strictEq (team p) (team prop)
  && strictEq (stat p) (stat prop)
  && PrimFloat.ltb (PrimFloat.abs (PrimFloat.sub (line p) (line prop)))
       0x1.47ae147ae147bp-7%float.  (* 0.01 *)

Fixpoint findIndexFrom (i : nat) (test : Normalized -> bool)
    (self : list Normalized) : option nat :=
  match self with
  | [] => None
  | p :: rest => if test p then Some i else findIndexFrom (S i) test rest
  end.

(** [self.filter((prop, index) => index === self.findIndex(...))] *)
Fixpoint uniqueFrom (index : nat) (self rest : list Normalized)
  : list Normalized :=
  match rest with
  | [] => []
  | prop :: rest' =>
      match findIndexFrom 0 (sameProp prop) self with
      | Some i =>
          if Nat.eqb index i
          then prop :: uniqueFrom (S index) self rest'
          else uniqueFrom (S index) self rest'
      | None => uniqueFrom (S index) self rest'
      end
  end.

Definition uniqueProps (normalizedProps : list Normalized) : list Normalized :=
  uniqueFrom 0 normalizedProps normalizedProps.

(** The tail of [extractPropsFromPage]: normalize, filter, remove
    duplicates. *)
Definition normalizedProps (props : list UnderdogProp.t)
  : outcome (list Normalized) :=
  match filterValid (map normalize props) with
  | Ok kept => Ok (uniqueProps kept)
  | Throws => Throws
  end.

End UnderdogProps.

(** ** The text strategy of the extraction *)

Module TextScan.
Import Scraper.

(** The literal [pat] at the head of [s], letters compared without case:
    the matched text and what follows it. *)
Fixpoint stripLiteral (pat s : string) : option (string * string) :=
  match pat with
  | EmptyString => Some (EmptyString, s)
  | String p pat' =>
      match s with
      | EmptyString => None
      | String c s' =>
          if Ascii.eqb (Js.toLowerChar p) (Js.toLowerChar c)
          then match stripLiteral pat' s' with
               | Some (m, rest) => Some (String c m, rest)
               | None => None
               end
          else None
      end
  end.

(** [(?:th|st|nd|rd)] at the head of [s], without case. *)
Definition stripSuffix (s : string) : option (string * string) :=
  match s with
  | String a (String b rest) =>
      let two := Js.toLowerCase (String a (String b EmptyString)) in
      if existsb (String.eqb two) ["th"; "st"; "nd"; "rd"]
      then Some (String a (String b EmptyString), rest)
      else None
  | _ => None
  end.

(** [(stat)\s+(\d+(?:th|st|nd|rd))] at the head of [s]: the two groups
    and the length of the match.  Every quantifier is followed by a
    character it cannot take, so that the greedy choice is the only one. *)
Definition matchAt (stat s : string) : option (string * string * nat) :=
  match stripLiteral stat s with
  | Some (group1, afterStat) =>
      match afterStat with
      | String c _ =>
          if Js.isSpace c
          then
            let afterSpace := Js.trimStart afterStat in
            let (digits, afterDigits) := Js.spanDigits afterSpace in
            match digits, stripSuffix afterDigits with
            | String _ _, Some (suffix, rest) =>
                Some (group1, digits ++ suffix,
                      String.length s - String.length rest)
            | _, _ => None
            end
          else None
      | EmptyString => None
      end
  | None => None
  end.

(** The [while ((match = pattern.exec(containerText)) !== null)] loop of
    one statistic; [skip] characters are left of [lastIndex]. *)
Fixpoint scan (stat : string) (skip : nat) (s : string) : list Row.t :=
  match s with
  | EmptyString => []
  | String _ rest =>
      match skip with
      | S k => scan stat k rest
      | O =>
          match matchAt stat s with
          | Some (group1, group2, len) =>
              let position := Js.trim group1 in
              let rank := Js.trim group2 in
              if nonEmpty position && nonEmpty rank
              then Row.mk position rank :: scan stat (len - 1) rest
              else scan stat (len - 1) rest
          | None => scan stat 0 rest
          end
      end
  end.

(** The text strategy on the text of the container. *)
Definition textStrategy (containerText : string) : list Row.t :=
  flat_map (fun stat => scan stat 0 (Js.trim containerText)) statCategories.

End TextScan.

(** ** [formatGameTimeForSheets] *)

Module GameTime.

(** [String(n)] *)
Definition toString (n : nat) : string :=
  NilZero.string_of_uint (Nat.to_uint n).

(** [String(n).padStart(2, '0')] *)
Definition pad2 (n : nat) : string :=
  let s := toString n in
  if Nat.ltb (String.length s) 2 then "0" ++ s else s.

(** The groups of [/(\d{1,2}):?(\d{2})?\s*(AM|PM)?/i] at the head of a
    string that starts with a digit. *)
Definition takeDigit (s : string) : option (ascii * string) :=
  match s with
  | String c rest => if Js.isDigit c then Some (c, rest) else None
  | EmptyString => None
  end.

Definition takeTwoDigits (s : string) : option (string * string) :=
  match takeDigit s with
  | Some (a, s1) =>
      match takeDigit s1 with
      | Some (b, s2) => Some (String a (String b EmptyString), s2)
      | None => None
      end
  | None => None
  end.

Definition takePeriod (s : string) : option string :=
  match s with
  | String a (String b _) =>
      let two := Js.toUpperCase (String a (String b EmptyString)) in
      if String.eqb two "AM" || String.eqb two "PM" then Some two else None
  | _ => None
  end.

Definition groupsAt (s : string)
  : option (string * option string * option string) :=
  match takeDigit s with
  | Some (d1, s1) =>
      let (hours, s2) :=
        match takeDigit s1 with
        | Some (d2, s2) => (String d1 (String d2 EmptyString), s2)
        | None => (String d1 EmptyString, s1)
        end in
      let s3 :=
        match s2 with
        | String c rest => if Ascii.eqb c ":" then rest else s2
        | EmptyString => s2
        end in
      let (minutes, s4) :=
        match takeTwoDigits s3 with
        | Some (m, s4) => (Some m, s4)
        | None => (None, s3)
        end in
      Some (hours, minutes, takePeriod (Js.trimStart s4))
  | None => None
  end.

(** [timeStr.match(...)]: the leftmost match starts at the first digit. *)
Fixpoint timeMatch (s : string)
  : option (string * option string * option string) :=
  match s with
  | EmptyString => None
  | String c rest =>
      if Js.isDigit c then groupsAt s else timeMatch rest
  end.

Section Format.
(** [new Date(timeStr)]: the hours and minutes of the date in local time,
    [None] for an invalid date. *)
Variable parseDate : string -> option (nat * nat).

Definition formatGameTimeForSheets (gameTime : string) : string :=
  if negb (Scraper.nonEmpty gameTime) || negb (Scraper.nonEmpty (Js.trim gameTime))
  then EmptyString
  else
    let timeStr := Js.trim gameTime in
    let parsed :=
      if Js.includes timeStr "T" || Js.includes timeStr "-"
      then parseDate timeStr
      else None in
    match parsed with
    | Some (hours, minutes) =>
        let ampm := if Nat.leb 12 hours then "PM" else "AM" in
        let displayHours :=
          if Nat.eqb (Nat.modulo hours 12) 0 then 12 else Nat.modulo hours 12 in
        toString displayHours ++ ":" ++ pad2 minutes ++ " " ++ ampm
    | None =>
        match timeMatch timeStr with
        | Some (group1, group2, group3) =>
            let hours := N.to_nat (Js.parseInt group1) in
            let minutes :=
              match group2 with
              | Some m => N.to_nat (Js.parseInt m)
              | None => 0
              end in
            let hours :=
              match group3 with
              | Some period =>
                  if String.eqb period "PM" && negb (Nat.eqb hours 12)
                  then hours + 12
                  else if String.eqb period "AM" && Nat.eqb hours 12
                  then 0
                  else hours
              | None => hours
              end in
            pad2 hours ++ ":" ++ pad2 minutes ++ ":00"
        | None => timeStr
        end
    end.
End Format.

End GameTime.

(** * Vocabulary of the further properties *)

(** ** Records of a scrape *)

Module Records.
Import Scraper.

(** A record that carries the team, opponent and game time of the call. *)
Definition tagged (team opponent gameTime : string) (d : DefenseData.t) : Prop :=
  DefenseData.team d = team
  /\ DefenseData.opponent d = opponent
  /\ DefenseData.gameTime d = gameTime.

Definition rankInBand (d : DefenseData.t) : Prop :=
  isRankInRange (DefenseData.rank d) = true.

End Records.

(** ** Rows of the text strategy *)

Module Ordinal.
Import Js Scraper.

Definition ordinalSuffixes : list string := ["th"; "st"; "nd"; "rd"].

(** A run of digits followed by an ordinal suffix in any case. *)
Definition isOrdinal (rank : string) : Prop :=
  exists digits suffix,
    rank = digits ++ suffix /\ digits <> EmptyString /\
    allChars isDigit digits = true /\
    In (toLowerCase suffix) ordinalSuffixes.

(** A text that is a stat category up to the case of its letters. *)
Definition namesCategory (position : string) : Prop :=
  exists stat, In stat statCategories /\
    toLowerCase position = toLowerCase stat.

End Ordinal.

(** ** Times of the day *)

Module Clock.
Import GameTime.

(** ["HH:MM:00"] *)
Definition clock (h m : nat) : string := pad2 h ++ ":" ++ pad2 m ++ ":00".

(** ["H:MM AM"], ["H:MM PM"] *)
Definition twelveHour (period : string) (h m : nat) : string :=
  toString h ++ ":" ++ pad2 m ++ " " ++ period.

(** The hour of the day of the hour [h] of a 12-hour clock. *)
Definition hoursOf (period : string) (h : nat) : nat :=
  if String.eqb period "PM" then (if Nat.eqb h 12 then 12 else h + 12)
  else (if Nat.eqb h 12 then 0 else h).

Section Checks.
Variable parseDate : string -> option (nat * nat).

(** The 12-hour times of a day, written with the period as [shown], are
    formatted as the time of the day. *)
Definition checkTwelve (period shown : string) : bool :=
  forallb (fun h =>
    forallb (fun m =>
      String.eqb (formatGameTimeForSheets parseDate (twelveHour shown h m))
                 (clock (hoursOf period h) m))
      (seq 0 60))
    (seq 1 12).

(** The 24-hour times of a day, with and without a leading zero. *)
Definition checkTwentyFour : bool :=
  forallb (fun h =>
    forallb (fun m =>
      String.eqb (formatGameTimeForSheets parseDate (toString h ++ ":" ++ pad2 m))
                 (clock h m)
      && String.eqb (formatGameTimeForSheets parseDate (pad2 h ++ ":" ++ pad2 m))
                    (clock h m))
      (seq 0 60))
    (seq 0 24).
End Checks.

End Clock.

(** ** Normal forms of the join *)

Module NormalForm.
Import Js Props Canon.

(** The characters of a normalized statistic. *)
Definition isNormalChar (c : ascii) : bool :=
  isLower c || isDigit c || Nat.eqb (code c) 95 || Nat.eqb (code c) 32.

(** The characters left after lower-casing and collapsing white space. *)
Definition collapsedChar (c : ascii) : bool :=
  negb (isUpper c) && (negb (isSpace c) || Nat.eqb (code c) 32).

(** Two defense records that the join cannot tell apart. *)
Definition sameForJoin (d d' : DefenseData.t) : Prop :=
  normalizeTeamForMatching (DefenseData.opponent d)
  = normalizeTeamForMatching (DefenseData.opponent d')
  /\ normalizeStatForMatching (DefenseData.position d)
     = normalizeStatForMatching (DefenseData.position d')
  /\ DefenseData.rank d = DefenseData.rank d'.

End NormalForm.

(** ** The games of the day *)

Module Slate.

(** The two keys a game writes in the schedule. *)
Definition names (game : Schedule.GameMatchup) : list Obj.value :=
  [ Underdog.normalizeTeamName (Schedule.teamA game);
    Underdog.normalizeTeamName (Schedule.teamB game) ].

Definition teamsOf (game : Today.Game) : list string :=
  [Today.teamA game; Today.teamB game].

Definition infoOf (game : Today.Game) : list (string * Today.GameInfo) :=
  [ (Today.teamA game, Today.mkInfo (Today.teamB game) (Today.gameTime game));
    (Today.teamB game, Today.mkInfo (Today.teamA game) (Today.gameTime game)) ].

(** The two rounds of a game: each team with the other as its opponent. *)
Definition targetsOf (game : Today.Game) : list (string * string * string) :=
  [ (Today.teamA game, Today.teamB game, Today.gameTime game);
    (Today.teamB game, Today.teamA game, Today.gameTime game) ].

End Slate.

(** ** The defense sheet *)

Module Sheet.
Import Props.

(** A record with the four essential fields filled and every field
    trimmed. *)
Definition wellFormed (d : DefenseData.t) : Prop :=
  DefenseData.team d <> EmptyString
  /\ DefenseData.opponent d <> EmptyString
  /\ DefenseData.position d <> EmptyString
  /\ DefenseData.rank d <> EmptyString
  /\ Js.trim (DefenseData.team d) = DefenseData.team d
  /\ Js.trim (DefenseData.opponent d) = DefenseData.opponent d
  /\ Js.trim (DefenseData.gameTime d) = DefenseData.gameTime d
  /\ Js.trim (DefenseData.position d) = DefenseData.position d
  /\ Js.trim (DefenseData.rank d) = DefenseData.rank d.

Section RoundTrip.
Variable formatGameTimeForSheets : string -> string.

(** What the reader makes of an uploaded record. *)
Definition readBack (data : Scraper.DefenseData.t) : DefenseData.t :=
  DefenseData.mk
    (Js.trim (Scraper.DefenseData.team data))
    (Js.trim (Scraper.DefenseData.opponent data))
    (Js.trim (formatGameTimeForSheets (Scraper.DefenseData.gameTime data)))
    (Js.trim (Scraper.DefenseData.stat data))
    (Js.trim (Scraper.DefenseData.rank data)).
End RoundTrip.

(** The records the reader keeps. *)
Definition notBlank (data : Scraper.DefenseData.t) : bool :=
  Scraper.nonEmpty (Js.trim (Scraper.DefenseData.team data))
  && Scraper.nonEmpty (Js.trim (Scraper.DefenseData.opponent data))
  && Scraper.nonEmpty (Js.trim (Scraper.DefenseData.stat data))
  && Scraper.nonEmpty (Js.trim (Scraper.DefenseData.rank data)).

End Sheet.

(** ** The props the Underdog scraper keeps *)

Module KeptProp.
Import Obj UnderdogProps.

Definition valid (p : Normalized) : Prop :=
  playerName p <> EmptyString
  /\ (exists t, team p = VString t /\ t <> EmptyString)
  /\ (exists s, stat p = VString s
                /\ isAllowedStat (Js.toLowerCase s) = true)
  /\ (opponent p = VString EmptyString
      \/ (exists o, opponent p = VString o /\ o <> EmptyString
                    /\ opponent p <> team p))
  /\ PrimFloat.leb (line p) 0%float = false.

End KeptProp.
(** * Properties *)

(** ** Strings *)

Module JsFacts.
Import Js.

Ltac by_cases_on_char c :=
  destruct c as [[] [] [] [] [] [] [] []]; reflexivity.

Lemma toUpperChar_idem (c : ascii) : toUpperChar (toUpperChar c) = toUpperChar c.
Proof. by_cases_on_char c. Qed.

Lemma isSpace_toUpperChar (c : ascii) : isSpace (toUpperChar c) = isSpace c.
Proof. by_cases_on_char c. Qed.

Lemma isLower_toUpperChar (c : ascii) : isLower (toUpperChar c) = false.
Proof. by_cases_on_char c. Qed.

Lemma toLowerChar_digit (c : ascii) : isDigit c = true -> toLowerChar c = c.
Proof. destruct c as [[] [] [] [] [] [] [] []]; intro H; try reflexivity; discriminate H. Qed.

Lemma toUpperCase_idem (s : string) : toUpperCase (toUpperCase s) = toUpperCase s.
Proof.
  induction s as [|c r IH]; simpl; [reflexivity|].
  unfold toUpperCase in *; simpl. now rewrite toUpperChar_idem, IH.
Qed.

Lemma trimStart_toUpperCase (s : string) :
  trimStart (toUpperCase s) = toUpperCase (trimStart s).
Proof.
  induction s as [|c r IH]; [reflexivity|].
  unfold toUpperCase in *; simpl.
  rewrite isSpace_toUpperChar. destruct (isSpace c); [exact IH | reflexivity].
Qed.

Lemma trimEnd_toUpperCase (s : string) :
  trimEnd (toUpperCase s) = toUpperCase (trimEnd s).
Proof.
  induction s as [|c r IH]; [reflexivity|].
  unfold toUpperCase in *; simpl. rewrite IH.
  destruct (trimEnd r) as [|a b]; simpl.
  - rewrite isSpace_toUpperChar. now destruct (isSpace c).
  - reflexivity.
Qed.

Lemma trim_toUpperCase (s : string) : trim (toUpperCase s) = toUpperCase (trim s).
Proof. unfold trim. now rewrite trimStart_toUpperCase, trimEnd_toUpperCase. Qed.

Lemma trimStart_noLeadingSpace (s : string) : noLeadingSpace (trimStart s).
Proof.
  induction s as [|c r IH]; simpl; [exact I|].
  destruct (isSpace c) eqn:E; [exact IH | exact E].
Qed.

Lemma trimStart_fixed (s : string) : noLeadingSpace s -> trimStart s = s.
Proof. destruct s as [|c r]; simpl; [reflexivity|]. now intros ->. Qed.

Lemma trimEnd_noLeadingSpace (s : string) :
  noLeadingSpace s -> noLeadingSpace (trimEnd s).
Proof.
  destruct s as [|c r]; simpl; [exact (fun H => H)|].
  intro H. destruct (trimEnd r); [rewrite H|]; exact H.
Qed.

Lemma trimEnd_idem (s : string) : trimEnd (trimEnd s) = trimEnd s.
Proof.
  induction s as [|c r IH]; [reflexivity|]. simpl.
  destruct (trimEnd r) as [|a b] eqn:E.
  - destruct (isSpace c) eqn:Ec; simpl; [reflexivity | now rewrite Ec].
  - change (trimEnd (String c (String a b))) with
      (match trimEnd (String a b) with
       | EmptyString => if isSpace c then EmptyString else String c EmptyString
       | r' => String c r'
       end).
    now rewrite IH.
Qed.

Lemma trim_idem (s : string) : trim (trim s) = trim s.
Proof.
  unfold trim.
  rewrite (trimStart_fixed (trimEnd (trimStart s))).
  - apply trimEnd_idem.
  - apply trimEnd_noLeadingSpace, trimStart_noLeadingSpace.
Qed.

(** An upper-cased and trimmed string is a fixed point of both steps. *)
Lemma upper_trim_fixed (s : string) :
  trim (toUpperCase (trim (toUpperCase s))) = trim (toUpperCase s).
Proof. now rewrite <- trim_toUpperCase, toUpperCase_idem, trim_idem. Qed.

Lemma noLower_toUpperCase (s : string) : existsChar isLower (toUpperCase s) = false.
Proof.
  induction s as [|c r IH]; [reflexivity|].
  unfold toUpperCase in *; simpl. now rewrite isLower_toUpperChar, IH.
Qed.

Lemma noLower_trimStart (s : string) :
  existsChar isLower s = false -> existsChar isLower (trimStart s) = false.
Proof.
  induction s as [|c r IH]; simpl; [trivial|].
  intro H. apply orb_false_iff in H as [Hc Hr].
  destruct (isSpace c); [auto | simpl; now rewrite Hc, Hr].
Qed.

Lemma noLower_trimEnd (s : string) :
  existsChar isLower s = false -> existsChar isLower (trimEnd s) = false.
Proof.
  induction s as [|c r IH]; simpl; [trivial|].
  intro H. apply orb_false_iff in H as [Hc Hr]. specialize (IH Hr).
  destruct (trimEnd r) as [|a b].
  - destruct (isSpace c); simpl; [reflexivity | now rewrite Hc].
  - change (existsChar isLower (String c (String a b)))
      with (isLower c || existsChar isLower (String a b)).
    now rewrite Hc, IH.
Qed.

Lemma noLower_upper_trim (s : string) :
  existsChar isLower (trim (toUpperCase s)) = false.
Proof. apply noLower_trimEnd, noLower_trimStart, noLower_toUpperCase. Qed.

End JsFacts.

(** ** Lookup tables and canonicalizers *)

Module CanonFacts.
Import Obj Canon.

Lemma own_In (table : list (string * string)) (k v : string) :
  Obj.own table k = Some v -> In (k, v) table.
Proof.
  induction table as [|[k' v'] rest IH]; simpl; [discriminate|].
  destruct (String.eqb_spec k' k) as [->|_].
  - intros [= ->]. now left.
  - intro H. right. now apply IH.
Qed.

Lemma own_None (table : list (string * string)) (k : string) :
  ~ In k (map fst table) -> Obj.own table k = None.
Proof.
  induction table as [|[k' v'] rest IH]; simpl; [reflexivity|].
  intro H. destruct (String.eqb_spec k' k) as [->|_].
  - exfalso. apply H. now left.
  - apply IH. intro. apply H. now right.
Qed.

Lemma own_first (table : list (string * string)) (k v : string) :
  NoDup (map fst table) -> In (k, v) table -> Obj.own table k = Some v.
Proof.
  induction table as [|[k' v'] rest IH]; simpl; [contradiction|].
  intros Hnd [[= -> ->]|Hin].
  - now rewrite String.eqb_refl.
  - inversion Hnd as [|? ? Hnot Hrest]; subst.
    destruct (String.eqb_spec k' k) as [->|_].
    + exfalso. apply Hnot. now apply (in_map fst) in Hin.
    + now apply IH.
Qed.

Lemma inherited_In (k : string) :
  existsb (String.eqb k) objectPrototype = true -> In k objectPrototype.
Proof.
  intro H. apply existsb_exists in H as [n [Hin Heq]].
  apply String.eqb_eq in Heq. now subst.
Qed.

Lemma not_inherited (k : string) :
  ~ In k objectPrototype -> existsb (String.eqb k) objectPrototype = false.
Proof.
  intro H. destruct (existsb _ _) eqn:E; [|reflexivity].
  now apply inherited_In in E.
Qed.

(** Every member of [Object.prototype] has a lower-case letter in its
    name, so that an upper-cased key never reaches it. *)
Lemma upper_key_not_inherited (s : string) :
  existsb (String.eqb (Js.trim (Js.toUpperCase s))) objectPrototype = false.
Proof.
  pose proof (JsFacts.noLower_upper_trim s) as H.
  destruct (existsb _ _) eqn:E; [|reflexivity].
  apply inherited_In in E. simpl in E.
  repeat (destruct E as [E|E]; [rewrite <- E in H; discriminate H|]).
  contradiction.
Qed.

Lemma get_upper_key (table : list (string * string)) (s : string) :
  let upper := Js.trim (Js.toUpperCase s) in
  Obj.get table upper =
  match Obj.own table upper with
  | Some v => VString v
  | None => VUndefined
  end.
Proof.
  simpl. unfold Obj.get. destruct (Obj.own _ _); [reflexivity|].
  now rewrite upper_key_not_inherited.
Qed.

Section TeamTable.
(** A table of team codes whose values are non-empty and are themselves
    canonical: keys in upper case that map to themselves. *)
Variable table : list (string * string).
Hypothesis values_canonical :
  Forall (fun kv =>
            Scraper.nonEmpty (snd kv) = true
            /\ Js.trim (Js.toUpperCase (snd kv)) = snd kv
            /\ Obj.own table (snd kv) = Some (snd kv))
         table.

Lemma canonWith_idem (x : string) :
  exists y, canonWith table x = VString y /\ canonWith table y = VString y.
Proof.
  unfold Canon.canonWith. rewrite get_upper_key.
  destruct (Obj.own table (Js.trim (Js.toUpperCase x))) as [v|] eqn:E.
  - apply own_In in E.
    rewrite Forall_forall in values_canonical.
    destruct (values_canonical _ E) as (Hne & Hfix & Hown). simpl in *.
    exists v. split.
    + unfold Obj.logicalOr. simpl. destruct v; [discriminate Hne | reflexivity].
    + rewrite get_upper_key, Hfix, Hown.
      unfold Obj.logicalOr. simpl. destruct v; [discriminate Hne | reflexivity].
  - exists (Js.trim (Js.toUpperCase x)). split; [reflexivity|].
    rewrite get_upper_key, JsFacts.upper_trim_fixed, E. reflexivity.
Qed.
End TeamTable.

Lemma teamMap_canonical :
  Forall (fun kv =>
            Scraper.nonEmpty (snd kv) = true
            /\ Js.trim (Js.toUpperCase (snd kv)) = snd kv
            /\ Obj.own teamMap (snd kv) = Some (snd kv))
         teamMap.
Proof. repeat constructor. Qed.

Lemma teamVariations_canonical :
  Forall (fun kv =>
            Scraper.nonEmpty (snd kv) = true
            /\ Js.trim (Js.toUpperCase (snd kv)) = snd kv
            /\ Obj.own teamVariations (snd kv) = Some (snd kv))
         teamVariations.
Proof. repeat constructor. Qed.

Lemma normalizeTeamName_idem (x : string) :
  exists y, normalizeTeamName x = VString y /\ normalizeTeamName y = VString y.
Proof. exact (canonWith_idem teamMap teamMap_canonical x). Qed.

Lemma normalizeTeamForMatching_idem (x : string) :
  exists y, normalizeTeamForMatching x = VString y
            /\ normalizeTeamForMatching y = VString y.
Proof. exact (canonWith_idem teamVariations teamVariations_canonical x). Qed.

Lemma statMap_values :
  Forall (fun kv =>
            Scraper.nonEmpty (snd kv) = true
            /\ normalizeStatType (VString (snd kv)) = VString (snd kv))
         statMap.
Proof. repeat constructor. Qed.

Lemma statMap_keys_distinct : NoDup (map fst statMap).
Proof.
  repeat (constructor;
          [ simpl; intro H;
            repeat (destruct H as [H|H]; [discriminate H|]); exact H | ]).
  constructor.
Qed.

Lemma inherited_key_misses (k : string) :
  In k objectPrototype ->
  Obj.get statMap (toPropertyKey (VInherited k)) = VUndefined.
Proof.
  simpl. intro H.
  repeat (destruct H as [H|H]; [rewrite <- H; reflexivity|]).
  contradiction.
Qed.

Lemma normalizeStatType_idem (v : value) :
  normalizeStatType (normalizeStatType v) = normalizeStatType v.
Proof.
  unfold normalizeStatType at 2 3. unfold Obj.get.
  destruct (Obj.own statMap (toPropertyKey v)) as [s|] eqn:E.
  - apply own_In in E.
    pose proof statMap_values as Hv. rewrite Forall_forall in Hv.
    destruct (Hv _ E) as [Hne Hfix]. simpl in *.
    assert (Hor : Obj.logicalOr (VString s) v = VString s).
    { unfold Obj.logicalOr. simpl. destruct s; [discriminate Hne | reflexivity]. }
    rewrite Hor. exact Hfix.
  - destruct (existsb _ objectPrototype) eqn:Ei.
    + apply inherited_In in Ei.
      change (Obj.logicalOr (VInherited (toPropertyKey v)) v)
        with (VInherited (toPropertyKey v)).
      unfold normalizeStatType. now rewrite inherited_key_misses.
    + assert (Hor : Obj.logicalOr VUndefined v = v) by reflexivity.
      rewrite Hor. unfold normalizeStatType, Obj.get. now rewrite E, Ei.
Qed.

End CanonFacts.

(** ** The extraction engine *)

Module ScraperFacts.
Import Js Scraper Attempts.

(** *** Rank texts *)

Lemma spanDigits_spec (s d rest : string) :
  spanDigits s = (d, rest) ->
  s = d ++ rest /\ allChars isDigit d = true /\ startsWith isDigit rest = false.
Proof.
  revert d rest. induction s as [|c r IH]; simpl; intros d rest H.
  - injection H as <- <-. now repeat split.
  - destruct (isDigit c) eqn:Ec.
    + destruct (spanDigits r) as [d' rest'] eqn:E.
      injection H as <- <-.
      destruct (IH _ _ eq_refl) as (-> & Hd & Hr).
      simpl. rewrite Ec, Hd. now repeat split.
    + injection H as <- <-. simpl. now rewrite Ec.
Qed.

Lemma matchDigits_spec (s pre m post : string) :
  matchDigits s = Some (pre, m, post) ->
  s = pre ++ m ++ post
  /\ hasDigit pre = false
  /\ allChars isDigit m = true
  /\ m <> EmptyString
  /\ startsWith isDigit post = false.
Proof.
  revert pre. induction s as [|c r IH]; intros pre H; [discriminate H|].
  cbn [matchDigits] in H. destruct (isDigit c) eqn:Ec.
  - destruct (spanDigits (String c r)) as [d rest] eqn:E.
    injection H as <- <- <-.
    destruct (spanDigits_spec _ _ _ E) as (Hs & Hd & Hr).
    repeat split; try assumption.
    simpl in E. rewrite Ec in E. destruct (spanDigits r).
    injection E as <- <-. discriminate.
  - destruct (matchDigits r) as [[[pre' d] rest]|] eqn:E; [|discriminate H].
    injection H as <- <- <-.
    destruct (IH _ eq_refl) as (-> & Hp & Hd & Hne & Hr).
    unfold hasDigit in *. simpl. rewrite Ec, Hp. now repeat split.
Qed.

Lemma matchDigits_hasDigit (s : string) :
  hasDigit s = true -> exists pre m post, matchDigits s = Some (pre, m, post).
Proof.
  unfold hasDigit. induction s as [|c r IH]; [discriminate|].
  cbn [existsChar matchDigits]. destruct (isDigit c) eqn:Ec.
  - intros _. destruct (spanDigits (String c r)) as [d rest]. now eauto.
  - simpl. intro H. destruct (IH H) as (pre & m & post & ->). now eauto.
Qed.

(** *** The runs of the engine *)

Section Engine.
Variable Page : Type.
Variable Container : Type.
Variable prepare : Page -> Page * outcome unit.
Variable activatePosition : string -> Page -> Page * outcome bool.
Variable locateContainer : Page -> Page * outcome (option Container).
Variable settle : Page -> Page * outcome unit.
Variable isClosed : Page -> bool.
Variable locateFallbackContainer : Page -> Page * outcome (option Container).
Variable debugProbe : Page -> Page * outcome unit.
Variable tableOf : Container -> option (list (list string)).
Variables textStrategy cardStrategy divStrategy : Container -> list Row.t.

Let World : Type := (Page * list Event)%type.

Let extract : M Page (list Row.t) :=
  extractDefenseDataFromPage Page Container locateContainer tableOf textStrategy.
Let passes : list string -> list Row.t -> M Page (list Row.t) :=
  positionPasses Page Container activatePosition locateContainer tableOf
    textStrategy.
Let pass : string -> M Page (list Row.t) :=
  positionPass Page Container activatePosition locateContainer tableOf
    textStrategy.
Let unfiltered : list Row.t -> M Page (list Row.t) :=
  unfilteredPass Page Container locateContainer tableOf textStrategy.
Let fallback : list Row.t -> M Page (list Row.t) :=
  fallbackPass Page Container locateFallbackContainer tableOf textStrategy
    cardStrategy divStrategy.
Let scrape : string -> string -> string -> M Page (list DefenseData.t) :=
  scrapeDefenseData Page Container prepare activatePosition locateContainer
    settle isClosed locateFallbackContainer debugProbe tableOf textStrategy
    cardStrategy divStrategy.

Lemma call_trace {A} (op : Page -> Page * outcome A) (w w' : World) o :
  call Page op w = (w', o) -> snd w' = snd w.
Proof.
  unfold call. destruct (op (fst w)) as [p r]. now intros [= <- _].
Qed.

Lemma extract_trace (w w' : World) o :
  extract w = (w', o) -> snd w' = snd w.
Proof.
  unfold extract, extractDefenseDataFromPage, bind.
  destruct (call Page locateContainer w) as [w1 [c|]] eqn:E;
    apply call_trace in E.
  - destruct c; unfold ret; now intros [= <- _].
  - now intros [= <- _].
Qed.

Lemma filtered_inBand (rows : list Row.t) (f : Row.t -> string) :
  Forall inBand
    (map (fun row => Row.mk (f row) (Row.rank row))
       (filter (fun row => isRankInRange (Row.rank row)) rows)).
Proof.
  induction rows as [|r rs IH]; simpl; [constructor|].
  destruct (isRankInRange (Row.rank r)) eqn:E; [|exact IH].
  simpl. constructor; [exact E | exact IH].
Qed.

(** A position pass never throws, adds at most its own extraction call
    to the trace, and pushes rows of the band 24-32 only. *)
Lemma pass_spec (position : string) (w : World) :
  exists w' rows,
    pass position w = (w', Ok rows)
    /\ Forall inBand rows
    /\ (snd w' = snd w \/ snd w' = (snd w ++ [PositionExtract position])%list).
Proof.
  unfold pass, positionPass, tryCatch, bind.
  destruct (call Page (activatePosition position) w) as [w1 [b|]] eqn:E1;
    apply call_trace in E1.
  - unfold emit at 1. cbn [fst snd].
    fold extract.
    destruct (extract (fst w1, (snd w1 ++ [PositionExtract position])%list))
      as [w2 [rows|]] eqn:E2; apply extract_trace in E2; cbn [snd] in E2.
    + unfold ret. eexists _, _. split; [reflexivity|]. split.
      * apply filtered_inBand.
      * right. now rewrite E2, E1.
    + unfold ret. eexists _, _. split; [reflexivity|]. split; [constructor|].
      right. now rewrite E2, E1.
  - unfold ret. eexists _, _. split; [reflexivity|]. split; [constructor|].
    now left.
Qed.

Lemma passes_spec (ps : list string) (acc : list Row.t) (w : World) :
  Forall inBand acc ->
  Forall (fun e => isPositionExtract e = true) (snd w) ->
  exists w' rows,
    passes ps acc w = (w', Ok rows)
    /\ Forall inBand rows
    /\ Forall (fun e => isPositionExtract e = true) (snd w').
Proof.
  revert acc w. induction ps as [|p ps IH]; intros acc w Hacc Hw.
  - exists w, acc. now repeat split.
  - unfold passes in *. cbn [positionPasses]. unfold bind at 1.
    fold (pass p).
    destruct (pass_spec p w) as (w1 & rows1 & -> & Hrows & Ht).
    apply IH.
    + apply Forall_app. now split.
    + destruct Ht as [->| ->]; [exact Hw|].
      apply Forall_app. split; [exact Hw|]. now repeat constructor.
Qed.

Lemma passes_total (ps : list string) (w : World) :
  exists w' rows, passes ps [] w = (w', Ok rows).
Proof.
  revert w. generalize (@nil Row.t).
  induction ps as [|p ps IH]; intros acc w.
  - now exists w, acc.
  - unfold passes in *. cbn [positionPasses]. unfold bind at 1.
    fold (pass p).
    destruct (pass_spec p w) as (w1 & rows1 & -> & _). apply IH.
Qed.

Let after : World -> list Row.t -> list Event :=
  afterPasses Page Container locateContainer settle isClosed tableOf
    textStrategy.

Lemma unfiltered_trace (w w' : World) o :
  unfiltered [] w = (w', o) -> snd w' = (snd w ++ [UnfilteredExtract])%list.
Proof.
  unfold unfiltered, unfilteredPass, bind, emit. cbn [fst snd].
  fold extract.
  destruct (extract (fst w, (snd w ++ [UnfilteredExtract])%list))
    as [w1 [rows|]] eqn:E; apply extract_trace in E; cbn [snd] in E.
  - unfold ret. now intros [= <- _].
  - now intros [= <- _].
Qed.

(** The pass without position filter retains rows of the band only. *)
Lemma unfiltered_inBand (w w' : World) (rows : list Row.t) :
  unfiltered [] w = (w', Ok rows) -> Forall inBand rows.
Proof.
unfold unfiltered, unfilteredPass, bind, emit. cbn [fst snd].
fold extract.
destruct (extract (fst w, (snd w ++ [UnfilteredExtract])%list))
  as [w1 [allRows|]]; [|discriminate].
unfold ret. intros [= _ <-]. apply filtered_inBand.
Qed.

Lemma fallback_trace (w w' : World) o :
  fallback [] w = (w', o) -> snd w' = (snd w ++ [FallbackExtract])%list.
Proof.
  unfold fallback, fallbackPass, fallbackExtract, bind, emit. cbn [fst snd].
  destruct (call Page locateFallbackContainer
              (fst w, (snd w ++ [FallbackExtract])%list))
    as [w1 [c|]] eqn:E; apply call_trace in E; cbn [snd] in E.
  - destruct c; unfold ret; now intros [= <- _].
  - now intros [= <- _].
Qed.

Lemma scrape_trace (team opponent gameTime : string) (page p1 : Page)
    (w2 : World) (rows : list Row.t) :
  prepare page = (p1, Ok tt) ->
  passes positions [] (p1, []) = (w2, Ok rows) ->
  trace Page (run Page (scrape team opponent gameTime) page)
  = (snd w2 ++ after w2 rows)%list.
Proof.
  intros Hprep Hpass.
  unfold run, trace, scrape, scrapeDefenseData, tryCatch.
  unfold bind at 1. unfold call at 1. cbn [fst snd]. rewrite Hprep.
  unfold bind at 1. fold passes. rewrite Hpass.
  destruct rows as [|r0 rs].
  - (* nothing from the position passes *)
    unfold bind at 1. fold unfiltered. unfold after, afterPasses. fold unfiltered.
    destruct (unfiltered [] w2) as [w3 [rows3|]] eqn:E3;
      pose proof (unfiltered_trace _ _ _ E3) as T3.
    + unfold bind at 1.
      destruct (call Page settle w3) as [w4 [u|]] eqn:E4;
        pose proof (call_trace _ _ _ _ E4) as T4.
      * unfold bind at 1, pageClosed at 1.
        destruct (isClosed (fst w4)) eqn:Ec.
        -- unfold ret. cbn [fst snd]. rewrite T4, T3.
           now destruct rows3.
        -- destruct rows3 as [|r3 rs3].
           ++ unfold bind at 1. fold fallback.
              destruct (fallback [] w4) as [w5 [rows5|]] eqn:E5;
                pose proof (fallback_trace _ _ _ E5) as T5.
              ** destruct rows5.
                 --- unfold bind at 1.
                     destruct (call Page debugProbe w5) as [w6 [u6|]] eqn:E6;
                       pose proof (call_trace _ _ _ _ E6) as T6;
                       unfold ret; cbn [fst snd];
                       rewrite T6, T5, T4, T3, <- app_assoc; reflexivity.
                 --- unfold ret. cbn [fst snd].
                     rewrite T5, T4, T3, <- app_assoc. reflexivity.
              ** unfold ret. cbn [fst snd].
                 rewrite T5, T4, T3, <- app_assoc. reflexivity.
           ++ unfold bind at 1. unfold fallbackPass, ret. cbn [fst snd].
              now rewrite T4, T3.
      * unfold ret. cbn [fst snd]. rewrite T4, T3. now destruct rows3.
    + unfold ret. cbn [fst snd]. now rewrite T3.
  - (* the position passes have pushed a row *)
    unfold bind at 1. unfold unfilteredPass at 1, ret at 1.
    unfold after, afterPasses. rewrite app_nil_r.
    unfold bind at 1.
    destruct (call Page settle w2) as [w4 [u|]] eqn:E4;
      pose proof (call_trace _ _ _ _ E4) as T4.
    + unfold bind at 1, pageClosed at 1.
      destruct (isClosed (fst w4)); unfold ret; cbn [fst snd];
        [exact T4|].
      unfold bind, fallbackPass, ret. cbn [fst snd]. exact T4.
    + unfold ret. cbn [fst snd]. exact T4.
Qed.

End Engine.

End ScraperFacts.

(** ** The join engine *)

Module JoinFacts.
Import Props Canon Join Tiers.

Lemma find_filter {A} (p q : A -> bool) (l : list A) :
  find p (filter q l) = find (fun x => q x && p x) l.
Proof.
  induction l as [|x l IH]; [reflexivity|]. simpl.
  destruct (q x); simpl; [now rewrite IH | exact IH].
Qed.

Lemma find_false {A} (l : list A) : find (fun _ => false) l = None.
Proof. induction l; [reflexivity | assumption]. Qed.

Lemma find_ext {A} (p q : A -> bool) (l : list A) :
  (forall x, p x = q x) -> find p l = find q l.
Proof.
  intro H. induction l as [|x l IH]; [reflexivity|]. simpl.
  now rewrite H, IH.
Qed.

Lemma strictEq_eq (a b : Obj.value) : Obj.strictEq a b = true -> a = b.
Proof.
  destruct a, b; simpl; try discriminate; try reflexivity;
    intro H; apply String.eqb_eq in H; now subst.
Qed.

Lemma nonEmpty_true (s : string) : s <> EmptyString -> Scraper.nonEmpty s = true.
Proof. destruct s; [contradiction | reflexivity]. Qed.

Lemma aliasLoop_nil (s : string) (groups : list (string * list string)) :
  aliasLoop s [] groups = None.
Proof.
  induction groups as [|[key aliases] rest IH]; [reflexivity|].
  cbn [aliasLoop find]. now destruct (propMatchesAlias s aliases).
Qed.

Lemma reverseLoop_nil (s : string) (groups : list (string * list string)) :
  reverseLoop s [] groups = None.
Proof.
  induction groups as [|[key aliases] rest IH]; [reflexivity | exact IH].
Qed.

Section Lookup.
Variables opponent statCategory : string.
Variable defenseData : list DefenseData.t.

Abbreviation normalizedOpponent := (normalizeTeamForMatching opponent).
Abbreviation normalizedStat := (normalizeStatForMatching statCategory).
Abbreviation opponentMatches :=
  (filter (sameOpponent (normalizeTeamForMatching opponent)) defenseData).

Lemma aliasLoop_byGroup (groups : list (string * list string)) :
  aliasLoop normalizedStat opponentMatches groups
  = byGroup (forwardIn opponent statCategory) groups defenseData.
Proof.
  induction groups as [|[key aliases] rest IH]; [reflexivity|].
  cbn [aliasLoop byGroup]. unfold firstCandidate at 1.
  unfold forwardIn at 1. cbn [fst snd].
  destruct (propMatchesAlias normalizedStat aliases).
  - rewrite find_filter. cbn [andb].
    destruct (find _ defenseData); [reflexivity | exact IH].
  - cbn [andb]. rewrite find_false. exact IH.
Qed.

Lemma reverseLoop_byGroup (groups : list (string * list string)) :
  reverseLoop normalizedStat opponentMatches groups
  = byGroup (reverseIn opponent statCategory) groups defenseData.
Proof.
  induction groups as [|[key aliases] rest IH]; [reflexivity|].
  cbn [reverseLoop byGroup]. unfold firstCandidate at 1.
  rewrite find_filter.
  destruct (propMatchesAlias normalizedStat aliases) eqn:Ep.
  - rewrite (find_ext (reverseIn opponent statCategory (key, aliases))
               (fun x => sameOpponent normalizedOpponent x
                         && isKeyMatch key x)).
    + destruct (find _ defenseData); [reflexivity | exact IH].
    + intro x. unfold reverseIn. cbn [fst snd]. rewrite Ep.
      apply andb_true_r.
  - rewrite (find_ext (reverseIn opponent statCategory (key, aliases))
               (fun _ => false)).
    + rewrite find_false. destruct (find _ defenseData); exact IH.
    + intro x. unfold reverseIn. cbn [fst snd]. rewrite Ep.
      apply andb_false_r.
Qed.

Lemma aliasLoop_In (groups : list (string * list string))
    (l : list DefenseData.t) (r : string) :
  aliasLoop normalizedStat l groups = Some r ->
  exists d, In d l /\ DefenseData.rank d = r.
Proof.
  induction groups as [|[key aliases] rest IH]; [discriminate|].
  cbn [aliasLoop]. destruct (propMatchesAlias _ _); [|exact IH].
  destruct (find _ l) as [d|] eqn:E; [|exact IH].
  intros [= <-]. apply find_some in E as [Hin _]. now exists d.
Qed.

Lemma reverseLoop_In (groups : list (string * list string))
    (l : list DefenseData.t) (r : string) :
  reverseLoop normalizedStat l groups = Some r ->
  exists d, In d l /\ DefenseData.rank d = r.
Proof.
  induction groups as [|[key aliases] rest IH]; [discriminate|].
  cbn [reverseLoop]. destruct (find _ l) as [d|] eqn:E; [|exact IH].
  destruct (propMatchesAlias _ _); [|exact IH].
  intros [= <-]. apply find_some in E as [Hin _]. now exists d.
Qed.

(** Every rank the lookup returns is the rank of a record of the list
    with the opponent of the prop. *)
Lemma findDefenseStrength_In (team r : string) :
  findDefenseStrength defenseData team opponent statCategory = Some r ->
  exists d,
    In d defenseData
    /\ DefenseData.rank d = r
    /\ normalizeTeamForMatching (DefenseData.opponent d)
       = normalizeTeamForMatching opponent.
Proof.
  unfold findDefenseStrength.
  destruct (_ || _); [discriminate|].
  assert (Hom : forall d, In d opponentMatches ->
            In d defenseData
            /\ normalizeTeamForMatching (DefenseData.opponent d)
               = normalizedOpponent).
  { intros d Hd. apply filter_In in Hd as [Hin Hop].
    split; [exact Hin | now apply strictEq_eq]. }
  revert Hom. generalize opponentMatches as matches.
  intros [|d0 ds] Hom; [discriminate|].
  intro H.
  assert (exists d, In d (d0 :: ds) /\ DefenseData.rank d = r) as (d & Hd & Hr).
  { destruct (find (isExact normalizedStat) (d0 :: ds)) as [d|] eqn:E1.
    - injection H as <-. apply find_some in E1 as [Hin _]. now exists d.
    - destruct (find (isPartial normalizedStat) (d0 :: ds)) as [d|] eqn:E2.
      + injection H as <-. apply find_some in E2 as [Hin _]. now exists d.
      + destruct (aliasLoop normalizedStat (d0 :: ds) statAliases) as [r'|] eqn:E3.
        * injection H as <-. now apply aliasLoop_In in E3.
        * now apply reverseLoop_In in H. }
  destruct (Hom d Hd) as [Hin Hop].
  exists d. split; [exact Hin|]. split; [exact Hr | exact Hop].
Qed.

End Lookup.

(** The reverse check finds nothing that the first alias loop has not
    found before: a record that matches the name of a group is an alias
    match of that group. *)
Lemma reverseIn_forwardIn (opponent statCategory : string)
    (group : string * list string) (d : DefenseData.t) :
  reverseIn opponent statCategory group d = true ->
  forwardIn opponent statCategory group d = true.
Proof.
  unfold reverseIn, forwardIn, isKeyMatch, isAliasMatch.
  intro H. apply andb_true_iff in H as [H1 H2].
  apply andb_true_iff in H1 as [Ho Hk].
  rewrite H2, Ho, Hk. reflexivity.
Qed.

Lemma find_none_weaken {A} (p q : A -> bool) (l : list A) :
  (forall x, q x = true -> p x = true) -> find p l = None -> find q l = None.
Proof.
  intro H. induction l as [|x l IH]; [reflexivity|]. simpl.
  destruct (p x) eqn:Ep; [discriminate|].
  destruct (q x) eqn:Eq; [|exact IH].
  apply H in Eq. congruence.
Qed.

Lemma reverse_adds_nothing (opponent statCategory : string)
    (groups : list (string * list string)) (defenseData : list DefenseData.t) :
  byGroup (forwardIn opponent statCategory) groups defenseData = None ->
  byGroup (reverseIn opponent statCategory) groups defenseData = None.
Proof.
  induction groups as [|g rest IH]; [reflexivity|].
  cbn [byGroup]. unfold firstCandidate.
  destruct (find (forwardIn opponent statCategory g) defenseData) eqn:E;
    [discriminate|].
  rewrite (find_none_weaken _ (reverseIn opponent statCategory g) _
             (reverseIn_forwardIn opponent statCategory g) E).
  exact IH.
Qed.

Lemma orNA_rank (o : option string) :
  orNA o <> "NA" -> o = Some (orNA o).
Proof.
  destruct o as [r|]; simpl; [|intro H; now contradiction H].
  destruct r; simpl; [intro H; now contradiction H | reflexivity].
Qed.

End JoinFacts.

(** * Further properties *)

(** ** Strings, ranks and rows *)

Module StringFacts.
Import Js.

Lemma append_assoc (a b c : string) : (a ++ b) ++ c = a ++ (b ++ c).
Proof. induction a as [|x a IH]; simpl; [reflexivity | now rewrite IH]. Qed.

Lemma mapChars_app (f : ascii -> ascii) (a b : string) :
  mapChars f (a ++ b) = mapChars f a ++ mapChars f b.
Proof. induction a as [|x a IH]; simpl; [reflexivity | now rewrite IH]. Qed.

Lemma existsChar_app (p : ascii -> bool) (a b : string) :
  existsChar p (a ++ b) = existsChar p a || existsChar p b.
Proof.
induction a as [|x a IH]; simpl; [reflexivity|].
now rewrite IH, orb_assoc.
Qed.

Lemma includes_app (a b sub : string) :
  prefix sub b = true -> includes (a ++ b) sub = true.
Proof.
intro H. induction a as [|x a IH].
- destruct b; simpl in *; now rewrite H.
- simpl. cbn [append] in IH. rewrite IH. apply orb_true_r.
Qed.

Lemma toUpper_toLowerChar (c : ascii) : toUpperChar (toLowerChar c) = toUpperChar c.
Proof. JsFacts.by_cases_on_char c. Qed.

Lemma toLower_toUpperChar (c : ascii) : toLowerChar (toUpperChar c) = toLowerChar c.
Proof. JsFacts.by_cases_on_char c. Qed.

Lemma toUpperCase_toLowerCase (s : string) :
  toUpperCase (toLowerCase s) = toUpperCase s.
Proof.
unfold toUpperCase, toLowerCase.
induction s as [|c r IH]; simpl; [reflexivity|].
now rewrite toUpper_toLowerChar, IH.
Qed.

Lemma toLowerCase_toUpperCase (s : string) :
  toLowerCase (toUpperCase s) = toLowerCase s.
Proof.
unfold toUpperCase, toLowerCase.
induction s as [|c r IH]; simpl; [reflexivity|].
now rewrite toLower_toUpperChar, IH.
Qed.

Lemma spanDigits_app (m rest : string) :
  allChars isDigit m = true -> startsWith isDigit rest = false ->
  spanDigits (m ++ rest) = (m, rest).
Proof.
intros Hm Hr. induction m as [|c m IH]; simpl in *.
- destruct rest as [|x rest]; [reflexivity|]. simpl in *. now rewrite Hr.
- apply andb_true_iff in Hm as [Hc Hm]. rewrite Hc, (IH Hm). reflexivity.
Qed.

Lemma matchDigits_app (pre m rest : string) :
  hasDigit pre = false -> allChars isDigit m = true -> m <> EmptyString ->
  startsWith isDigit rest = false ->
  matchDigits (pre ++ m ++ rest) = Some (pre, m, rest).
Proof.
unfold hasDigit. intros Hp Hm Hne Hr. induction pre as [|c pre IH].
- destruct m as [|x m]; [contradiction|].
  pose proof (spanDigits_app (String x m) rest Hm Hr) as Hs.
  cbn [append] in *. cbn [matchDigits].
  simpl in Hm. apply andb_true_iff in Hm as [Hx _]. rewrite Hx.
  now rewrite Hs.
- simpl in Hp. apply orb_false_iff in Hp as [Hc Hp].
  cbn [append matchDigits]. rewrite Hc, (IH Hp). reflexivity.
Qed.

End StringFacts.

Module RankFacts.
Import Js Scraper StringFacts.

Lemma normalizeRank_cases (s : string) :
  normalizeRank s = s
  \/ exists pre m post,
       matchDigits s = Some (pre, m, post)
       /\ normalizeRank s = pre ++ m ++ "th" ++ post.
Proof.
unfold normalizeRank.
destruct (negb (hasOrdinalSuffix s) && hasDigit s); [|now left].
destruct (matchDigits s) as [[[pre m] post]|] eqn:E; [|now left].
right. now exists pre, m, post.
Qed.

Lemma hasOrdinalSuffix_th (a b : string) : hasOrdinalSuffix (a ++ "th" ++ b) = true.
Proof.
unfold hasOrdinalSuffix, toLowerCase. rewrite mapChars_app.
rewrite (includes_app _ _ "th"); [reflexivity|].
simpl. destruct (ascii_dec "t" "t"); [|congruence].
destruct (ascii_dec "h" "h"); [|congruence].
now destruct (mapChars toLowerChar b).
Qed.

Lemma normalizeRank_idem (s : string) : normalizeRank (normalizeRank s) = normalizeRank s.
Proof.
destruct (normalizeRank_cases s) as [E | (pre & m & post & _ & E)]; rewrite E.
- exact E.
- unfold normalizeRank. rewrite <- (append_assoc pre m).
  now rewrite hasOrdinalSuffix_th.
Qed.

Lemma isRankInRange_normalizeRank (s : string) :
  isRankInRange (normalizeRank s) = isRankInRange s.
Proof.
destruct (normalizeRank_cases s) as [E | (pre & m & post & Em & E)]; rewrite E.
- reflexivity.
- destruct (ScraperFacts.matchDigits_spec _ _ _ _ Em) as (_ & Hp & Hm & Hne & Hr).
  unfold isRankInRange. rewrite Em.
  now rewrite (matchDigits_app pre m ("th" ++ post) Hp Hm Hne eq_refl).
Qed.

End RankFacts.

Module RowFacts.
Import Js Scraper StringFacts.

Lemma seen_In (k : string) (seen : list string) :
  existsb (String.eqb k) seen = true <-> In k seen.
Proof.
rewrite existsb_exists. split.
- intros (x & Hin & Heq). apply String.eqb_eq in Heq. now subst.
- intro H. exists k. split; [exact H | apply String.eqb_refl].
Qed.

Lemma uniqueFrom_In (seen : list string) (rs : list Row.t) (r : Row.t) :
  In r (uniqueFrom seen rs) -> In r rs /\ ~ In (rowKey r) seen.
Proof.
revert seen. induction rs as [|x rs IH]; intros seen H; [contradiction|].
cbn [uniqueFrom] in H.
destruct (existsb (String.eqb (rowKey x)) seen) eqn:E.
- destruct (IH _ H) as [Hin Hs]. split; [now right | exact Hs].
- destruct H as [<- | H].
  + split; [now left|]. intro Hs. apply seen_In in Hs. congruence.
  + destruct (IH _ H) as [Hin Hs]. split; [now right|].
    intro Hk. apply Hs. now right.
Qed.

Lemma uniqueFrom_NoDup (seen : list string) (rs : list Row.t) :
  NoDup (map rowKey (uniqueFrom seen rs)).
Proof.
revert seen. induction rs as [|x rs IH]; intro seen; [constructor|].
cbn [uniqueFrom].
destruct (existsb (String.eqb (rowKey x)) seen); [apply IH|].
cbn [map]. constructor; [|apply IH].
intro H. apply in_map_iff in H as (y & Hk & Hy).
apply uniqueFrom_In in Hy as [_ Hs]. apply Hs. rewrite Hk. now left.
Qed.

Lemma uniqueFrom_complete (seen : list string) (rs : list Row.t) (r : Row.t) :
  In r rs ->
  In (rowKey r) seen \/ In (rowKey r) (map rowKey (uniqueFrom seen rs)).
Proof.
revert seen. induction rs as [|x rs IH]; intros seen H; [contradiction|].
cbn [uniqueFrom].
destruct (existsb (String.eqb (rowKey x)) seen) eqn:E.
- destruct H as [<- | H]; [left; now apply seen_In | now apply IH].
- destruct H as [<- | H]; [right; now left|].
  destruct (IH (rowKey x :: seen) H) as [[Hk | Hs] | Hu].
  + right. left. exact Hk.
  + now left.
  + right. now right.
Qed.

Lemma uniqueFrom_fixed (seen : list string) (rs : list Row.t) :
  NoDup (map rowKey rs) ->
  (forall r, In r rs -> ~ In (rowKey r) seen) ->
  uniqueFrom seen rs = rs.
Proof.
revert seen. induction rs as [|x rs IH]; intros seen Hnd Hs; [reflexivity|].
cbn [uniqueFrom]. inversion Hnd as [|? ? Hx Hrest]; subst.
destruct (existsb (String.eqb (rowKey x)) seen) eqn:E.
- apply seen_In in E. exfalso. apply (Hs x); [now left | exact E].
- f_equal. apply IH; [exact Hrest|].
  intros r Hr [Hk | Hk].
  + apply Hx. rewrite Hk. now apply in_map.
  + apply (Hs r); [now right | exact Hk].
Qed.

Lemma statCategories_nonEmpty (s : string) :
  In s statCategories -> nonEmpty s = true.
Proof.
simpl. intro H.
repeat (destruct H as [<- | H]; [reflexivity|]). contradiction.
Qed.

Lemma matchedStat_nonEmpty (statName s : string) :
  matchedStat statName = Some s -> nonEmpty s = true.
Proof.
unfold matchedStat. intro H. apply find_some in H as [Hin _].
now apply statCategories_nonEmpty.
Qed.

Lemma nonEmpty_app_r (a b : string) : nonEmpty b = true -> nonEmpty (a ++ b) = true.
Proof. destruct a; [trivial | reflexivity]. Qed.

Lemma normalizeRank_nonEmpty (s : string) :
  nonEmpty s = true -> nonEmpty (normalizeRank s) = true.
Proof.
intro H.
destruct (RankFacts.normalizeRank_cases s) as [E | (pre & m & post & _ & E)];
  rewrite E; [exact H|].
apply nonEmpty_app_r.
destruct (m ++ "th" ++ post) eqn:Em; [|reflexivity].
destruct m; discriminate Em.
Qed.

End RowFacts.

(** ** Records of a scrape *)

Module EngineFacts.
Import Js Scraper Attempts Records.

Lemma toDefenseData_tagged (team opponent gameTime : string) (rows : list Row.t) :
  Forall (tagged team opponent gameTime)
    (map (toDefenseData team opponent gameTime) rows).
Proof. induction rows; constructor; [now repeat split | assumption]. Qed.

Lemma toDefenseData_inBand (team opponent gameTime : string) (rows : list Row.t) :
  Forall inBand rows ->
  Forall rankInBand (map (toDefenseData team opponent gameTime) rows).
Proof. induction 1; constructor; assumption. Qed.

End EngineFacts.

(** ** The normal form of a statistic *)

Module NormFacts.
Import Js Obj Canon StringFacts NormalForm.

Lemma allChars_impl (p q : ascii -> bool) (s : string) :
  (forall c, p c = true -> q c = true) -> allChars p s = true -> allChars q s = true.
Proof.
intro H. induction s as [|c r IH]; simpl; [trivial|].
intro Hs. apply andb_true_iff in Hs as [Hc Hr]. now rewrite (H _ Hc), IH.
Qed.

Lemma allChars_trimStart (p : ascii -> bool) (s : string) :
  allChars p s = true -> allChars p (trimStart s) = true.
Proof.
induction s as [|c r IH]; simpl; [trivial|].
intro Hs. apply andb_true_iff in Hs as [Hc Hr].
destruct (isSpace c); [auto | simpl; now rewrite Hc, Hr].
Qed.

Lemma allChars_trimEnd (p : ascii -> bool) (s : string) :
  allChars p s = true -> allChars p (trimEnd s) = true.
Proof.
induction s as [|c r IH]; simpl; [trivial|].
intro Hs. apply andb_true_iff in Hs as [Hc Hr]. specialize (IH Hr).
destruct (trimEnd r) as [|a b].
- destruct (isSpace c); simpl; [reflexivity | now rewrite Hc].
- change (allChars p (String c (String a b)))
    with (p c && allChars p (String a b)).
  now rewrite Hc, IH.
Qed.

Lemma allChars_filter (p q : ascii -> bool) (s : string) :
  allChars (fun c => negb (q c) || p c) s = true ->
  allChars p (filterChars q s) = true.
Proof.
induction s as [|c r IH]; simpl; [trivial|].
intro Hs. apply andb_true_iff in Hs as [Hc Hr].
destruct (q c); [simpl in *; now rewrite Hc, IH | auto].
Qed.

Lemma isUpper_toLowerChar (c : ascii) : isUpper (toLowerChar c) = false.
Proof. JsFacts.by_cases_on_char c. Qed.

Lemma noUpper_toLowerCase (s : string) :
  allChars (fun c => negb (isUpper c)) (toLowerCase s) = true.
Proof.
unfold toLowerCase. induction s as [|c r IH]; simpl; [reflexivity|].
now rewrite isUpper_toLowerChar, IH.
Qed.

Lemma collapseFrom_chars (inRun : bool) (s : string) :
  allChars (fun c => negb (isUpper c)) s = true ->
  allChars collapsedChar (collapseFrom inRun s) = true.
Proof.
revert inRun. induction s as [|c r IH]; intros inRun; simpl; [trivial|].
intro Hs. apply andb_true_iff in Hs as [Hc Hr].
destruct (isSpace c) eqn:Es.
- destruct inRun; [now apply IH|]. simpl. now apply IH.
- simpl. unfold collapsedChar at 1. rewrite Hc, Es. simpl. now apply IH.
Qed.

Lemma kept_char_is_normal (c : ascii) :
  collapsedChar c = true ->
  negb (isWord c || isSpace c) || isNormalChar c = true.
Proof.
destruct c as [[] [] [] [] [] [] [] []]; intro H; try reflexivity; discriminate H.
Qed.

Lemma normalizeStatForMatching_chars (stat : string) :
  allChars isNormalChar (normalizeStatForMatching stat) = true.
Proof.
unfold normalizeStatForMatching, trim.
apply allChars_trimEnd, allChars_trimStart, allChars_filter.
apply (allChars_impl collapsedChar); [exact kept_char_is_normal|].
apply collapseFrom_chars, noUpper_toLowerCase.
Qed.

End NormFacts.

(** ** The join, up to normal forms *)

Module MoreJoinFacts.
Import Js Obj Props Canon Join StringFacts NormalForm.

Lemma filter_related {A} (R : A -> A -> Prop) (p : A -> bool) (l l' : list A) :
  (forall x y, R x y -> p x = p y) ->
  Forall2 R l l' -> Forall2 R (filter p l) (filter p l').
Proof.
intros Hp H. induction H as [|x y l l' Hxy _ IH]; [constructor|].
simpl. rewrite (Hp _ _ Hxy). destruct (p y); [now constructor | exact IH].
Qed.

Lemma find_related {A} (R : A -> A -> Prop) (p : A -> bool) (l l' : list A) :
  (forall x y, R x y -> p x = p y) ->
  Forall2 R l l' ->
  match find p l, find p l' with
  | Some a, Some b => R a b
  | None, None => True
  | _, _ => False
  end.
Proof.
intros Hp H. induction H as [|x y l l' Hxy _ IH]; [exact I|].
simpl. rewrite (Hp _ _ Hxy). destruct (p y); [exact Hxy | exact IH].
Qed.

Lemma sameForJoin_stat (d d' : DefenseData.t) :
  sameForJoin d d' -> defenseStatOf d = defenseStatOf d'.
Proof. now intros (_ & H & _). Qed.

Lemma sameForJoin_rank (d d' : DefenseData.t) :
  sameForJoin d d' -> DefenseData.rank d = DefenseData.rank d'.
Proof. now intros (_ & _ & H). Qed.

Lemma isExact_related (s : string) (x y : DefenseData.t) :
  sameForJoin x y -> isExact s x = isExact s y.
Proof. intro H. unfold isExact. now rewrite (sameForJoin_stat _ _ H). Qed.

Lemma isPartial_related (s : string) (x y : DefenseData.t) :
  sameForJoin x y -> isPartial s x = isPartial s y.
Proof. intro H. unfold isPartial. now rewrite (sameForJoin_stat _ _ H). Qed.

Lemma isAliasMatch_related (key : string) (aliases : list string)
    (x y : DefenseData.t) :
  sameForJoin x y -> isAliasMatch key aliases x = isAliasMatch key aliases y.
Proof. intro H. unfold isAliasMatch. now rewrite (sameForJoin_stat _ _ H). Qed.

Lemma isKeyMatch_related (key : string) (x y : DefenseData.t) :
  sameForJoin x y -> isKeyMatch key x = isKeyMatch key y.
Proof. intro H. unfold isKeyMatch. now rewrite (sameForJoin_stat _ _ H). Qed.

Lemma aliasLoop_related (s : string) (l l' : list DefenseData.t)
    (groups : list (string * list string)) :
  Forall2 sameForJoin l l' -> aliasLoop s l groups = aliasLoop s l' groups.
Proof.
intro H. induction groups as [|[key aliases] rest IH]; [reflexivity|].
cbn [aliasLoop]. destruct (propMatchesAlias s aliases); [|exact IH].
pose proof (find_related sameForJoin _ l l'
              (isAliasMatch_related key aliases) H) as Hf.
destruct (find (isAliasMatch key aliases) l),
         (find (isAliasMatch key aliases) l'); try contradiction.
- now rewrite (sameForJoin_rank _ _ Hf).
- exact IH.
Qed.

Lemma reverseLoop_related (s : string) (l l' : list DefenseData.t)
    (groups : list (string * list string)) :
  Forall2 sameForJoin l l' -> reverseLoop s l groups = reverseLoop s l' groups.
Proof.
intro H. induction groups as [|[key aliases] rest IH]; [reflexivity|].
cbn [reverseLoop].
pose proof (find_related sameForJoin _ l l' (isKeyMatch_related key) H) as Hf.
destruct (find (isKeyMatch key) l), (find (isKeyMatch key) l');
  try contradiction; [|exact IH].
destruct (propMatchesAlias s aliases); [|exact IH].
now rewrite (sameForJoin_rank _ _ Hf).
Qed.


Lemma filter_absorb {A} (p keep : A -> bool) (l : list A) :
  (forall x, p x = true -> keep x = true) ->
  filter p (filter keep l) = filter p l.
Proof.
intro H. induction l as [|x l IH]; [reflexivity|]. simpl.
destruct (keep x) eqn:Ek; simpl.
- destruct (p x); [now rewrite IH | exact IH].
- destruct (p x) eqn:Ep; [|exact IH]. apply H in Ep. congruence.
Qed.

(** Records about other opponents can be dropped. *)
Lemma findDefenseStrength_filter (keep : DefenseData.t -> bool)
    (ds : list DefenseData.t) (team o s : string) :
  (forall d, sameOpponent (normalizeTeamForMatching o) d = true -> keep d = true) ->
  findDefenseStrength (filter keep ds) team o s = findDefenseStrength ds team o s.
Proof.
intro H. unfold findDefenseStrength. now rewrite (filter_absorb _ keep ds H).
Qed.

Lemma includes_nil (s : string) : includes s EmptyString = true.
Proof. destruct s; reflexivity. Qed.

Lemma filter_head {A} (p : A -> bool) (l : list A) (d : A) :
  find p l = Some d -> exists rest, filter p l = d :: rest.
Proof.
induction l as [|x l IH]; [discriminate|]. simpl.
destruct (p x); [intros [= ->]; now eexists | exact IH].
Qed.


End MoreJoinFacts.

(** ** Trimming *)

Module TrimFacts.
Import Js.

Section CharMap.
Variable f : ascii -> ascii.
Hypothesis f_space : forall c, isSpace (f c) = isSpace c.

Lemma trimStart_mapChars (s : string) :
  trimStart (mapChars f s) = mapChars f (trimStart s).
Proof.
induction s as [|c r IH]; [reflexivity|]. simpl.
rewrite f_space. destruct (isSpace c); [exact IH | reflexivity].
Qed.

Lemma trimEnd_mapChars (s : string) :
  trimEnd (mapChars f s) = mapChars f (trimEnd s).
Proof.
induction s as [|c r IH]; [reflexivity|]. simpl. rewrite IH.
destruct (trimEnd r) as [|a b]; simpl.
- rewrite f_space. now destruct (isSpace c).
- reflexivity.
Qed.

Lemma trim_mapChars (s : string) : trim (mapChars f s) = mapChars f (trim s).
Proof. unfold trim. now rewrite trimStart_mapChars, trimEnd_mapChars. Qed.
End CharMap.

Lemma isSpace_toLowerChar (c : ascii) : isSpace (toLowerChar c) = isSpace c.
Proof. JsFacts.by_cases_on_char c. Qed.

Lemma trim_toLowerCase (s : string) : trim (toLowerCase s) = toLowerCase (trim s).
Proof. apply trim_mapChars, isSpace_toLowerChar. Qed.

Lemma trimEnd_snoc (a : string) (c : ascii) :
  isSpace c = false ->
  trimEnd (a ++ String c EmptyString) = a ++ String c EmptyString.
Proof.
intro Hc. induction a as [|x a IH]; simpl; [now rewrite Hc|].
rewrite IH. destruct (a ++ String c "") eqn:E; [|reflexivity].
destruct a; discriminate.
Qed.

End TrimFacts.

(** ** The team canonicalizers and the case of letters *)

Module CaseFacts.
Import Js Obj Canon StringFacts.

Lemma canonWith_insensitive (table : list (string * string)) (team : string) :
  canonWith table (toLowerCase team) = canonWith table team
  /\ canonWith table (toUpperCase team) = canonWith table team
  /\ canonWith table (trim team) = canonWith table team.
Proof.
unfold canonWith.
rewrite toUpperCase_toLowerCase, JsFacts.toUpperCase_idem.
rewrite (JsFacts.trim_toUpperCase (trim team)), JsFacts.trim_idem.
now rewrite <- JsFacts.trim_toUpperCase.
Qed.

Lemma toLowerChar_idem (c : ascii) : toLowerChar (toLowerChar c) = toLowerChar c.
Proof. JsFacts.by_cases_on_char c. Qed.

Lemma toLowerCase_idem (s : string) : toLowerCase (toLowerCase s) = toLowerCase s.
Proof.
unfold toLowerCase. induction s as [|c r IH]; simpl; [reflexivity|].
now rewrite toLowerChar_idem, IH.
Qed.

End CaseFacts.

(** ** The Underdog canonicalizers *)

Module UnderdogFacts.
Import Obj Canon.

Lemma underdogTeamMap_canonical :
  Forall (fun kv =>
            Scraper.nonEmpty (snd kv) = true
            /\ Js.trim (Js.toUpperCase (snd kv)) = snd kv
            /\ Obj.own Underdog.teamMap (snd kv) = Some (snd kv))
         Underdog.teamMap.
Proof. repeat constructor. Qed.

Lemma teamMap_values_match :
  Forall (fun kv => normalizeTeamForMatching (snd kv) = VString (snd kv))
         Underdog.teamMap.
Proof. repeat constructor. Qed.

(** Every key of the table of the join is a key of the table of the
    Underdog scraper. *)
Lemma teamVariations_keys (k v : string) :
  Obj.own teamVariations k = Some v -> Obj.own Underdog.teamMap k <> None.
Proof.
intro H. apply CanonFacts.own_In in H. simpl in H.
repeat (destruct H as [H|H]; [injection H as <- <-; discriminate|]).
contradiction.
Qed.

Lemma normalizeTeamName_string (x : string) :
  exists y, Underdog.normalizeTeamName x = VString y.
Proof.
destruct (CanonFacts.canonWith_idem Underdog.teamMap underdogTeamMap_canonical x)
  as (y & Hy & _).
now exists y.
Qed.

Lemma teamMap_agree (u : string) :
  ~ In u ["NJ"; "SJ"; "TB"; "VEG"; "WAS"; "WIN"] ->
  Obj.own Underdog.teamMap u = Obj.own Canon.teamMap u.
Proof.
intro Hu. destruct (Obj.own Canon.teamMap u) as [v|] eqn:E.
- apply CanonFacts.own_In in E. simpl in E.
  repeat (destruct E as [E|E]; [injection E as <- <-; reflexivity|]).
  contradiction.
- destruct (Obj.own Underdog.teamMap u) as [v|] eqn:Eu; [|reflexivity].
  apply CanonFacts.own_In in Eu. simpl in Eu.
  repeat (destruct Eu as [Eu|Eu];
          [injection Eu as <- <-;
           first [discriminate E | exfalso; apply Hu; simpl; tauto]|]).
  contradiction.
Qed.

Lemma own_app (a b : list (string * string)) (k : string) :
  Obj.own (a ++ b)%list k
  = match Obj.own a k with
    | Some v => Some v
    | None => Obj.own b k
    end.
Proof.
induction a as [|[k' v'] a IH]; [reflexivity|]. simpl.
destruct (String.eqb k' k); [reflexivity | exact IH].
Qed.

Lemma statMap_agree (k : string) :
  k <> "Fantasy Score" ->
  Obj.own Underdog.statMap k = Obj.own Canon.statMap k.
Proof.
intro Hk.
change Underdog.statMap with (Canon.statMap ++ [("Fantasy Score", "Points")])%list.
rewrite own_app. destruct (Obj.own Canon.statMap k); [reflexivity|].
cbn [Obj.own]. destruct (String.eqb_spec "Fantasy Score" k); [congruence | reflexivity].
Qed.

End UnderdogFacts.

(** ** Maps *)

Module MapFacts.
Section Map.
Variables K V : Type.
Variable sameKey : K -> K -> bool.
Hypothesis sameKey_spec : forall a b, sameKey a b = true <-> a = b.

Lemma sameKey_refl (a : K) : sameKey a a = true.
Proof. now apply sameKey_spec. Qed.

Lemma get_set (k k' : K) (v : V) (m : JsMap.t K V) :
  JsMap.get K V sameKey k (JsMap.set K V sameKey k' v m)
  = if sameKey k' k then Some v else JsMap.get K V sameKey k m.
Proof.
induction m as [|[k0 v0] rest IH]; [reflexivity|].
cbn [JsMap.set]. destruct (sameKey k0 k') eqn:E0.
- apply sameKey_spec in E0. subst k0. cbn [JsMap.get].
  now destruct (sameKey k' k).
- cbn [JsMap.get]. rewrite IH.
  destruct (sameKey k0 k) eqn:Ek; [|reflexivity].
  apply sameKey_spec in Ek. subst k0.
  destruct (sameKey k' k) eqn:E1; [|reflexivity].
  apply sameKey_spec in E1. subst k'. rewrite sameKey_refl in E0. discriminate.
Qed.

Lemma set_fresh (k : K) (v : V) (m : JsMap.t K V) :
  JsMap.get K V sameKey k m = None ->
  JsMap.set K V sameKey k v m = (m ++ [(k, v)])%list.
Proof.
induction m as [|[k0 v0] rest IH]; [reflexivity|].
cbn [JsMap.get JsMap.set]. destruct (sameKey k0 k); [discriminate|].
intro H. cbn [app]. now rewrite IH.
Qed.

Lemma get_app (k : K) (a b : JsMap.t K V) :
  JsMap.get K V sameKey k (a ++ b)%list
  = match JsMap.get K V sameKey k a with
    | Some v => Some v
    | None => JsMap.get K V sameKey k b
    end.
Proof.
induction a as [|[k0 v0] a IH]; [reflexivity|]. simpl.
destruct (sameKey k0 k); [reflexivity | exact IH].
Qed.

Lemma get_not_key (k : K) (m : JsMap.t K V) :
  ~ In k (JsMap.keys K V m) -> JsMap.get K V sameKey k m = None.
Proof.
induction m as [|[k0 v0] rest IH]; [reflexivity|].
cbn [JsMap.keys map fst JsMap.get]. intro H.
destruct (sameKey k0 k) eqn:E.
- apply sameKey_spec in E. exfalso. apply H. now left.
- apply IH. intro Hin. apply H. now right.
Qed.

End Map.
End MapFacts.

Module ListFacts.
Lemma NoDup_app_disjoint {A} (a b : list A) (x : A) :
  NoDup (a ++ b) -> In x a -> ~ In x b.
Proof.
induction a as [|y a IH]; [contradiction|]. cbn [app].
intros Hnd [<- | Hin] Hb.
- inversion Hnd as [|? ? Hy _]; subst. apply Hy. apply in_or_app. now right.
- inversion Hnd as [|? ? _ Hrest]; subst. now apply (IH Hrest Hin).
Qed.
End ListFacts.

(** ** The schedule *)

Module ScheduleFacts.
Import Obj Schedule Slate.

Lemma strictEq_spec (a b : value) : strictEq a b = true <-> a = b.
Proof.
split; [apply JoinFacts.strictEq_eq|]. intros <-.
destruct a; simpl; [reflexivity | apply String.eqb_refl | apply String.eqb_refl].
Qed.

Lemma addGame_other (k : value) (m : Matchups) (game : GameMatchup) :
  ~ In k (names game) -> JsMap.get value value strictEq k (addGame m game) = JsMap.get value value strictEq k m.
Proof.
unfold names, addGame. intro H.
destruct (truthy _ && truthy _); [|reflexivity].
rewrite !(MapFacts.get_set _ _ _ strictEq_spec).
destruct (strictEq (Underdog.normalizeTeamName (teamB game)) k) eqn:Eb.
- apply strictEq_spec in Eb. exfalso. apply H. right. now left.
- destruct (strictEq (Underdog.normalizeTeamName (teamA game)) k) eqn:Ea;
    [|reflexivity].
  apply strictEq_spec in Ea. exfalso. apply H. now left.
Qed.

Lemma fold_other (k : value) (games : list GameMatchup) (m : Matchups) :
  ~ In k (flat_map names games) ->
  JsMap.get value value strictEq k (fold_left addGame games m) = JsMap.get value value strictEq k m.
Proof.
revert m. induction games as [|g rest IH]; intros m H; [reflexivity|].
cbn [fold_left flat_map] in *. rewrite IH.
- apply addGame_other. intro Hin. apply H. apply in_or_app. now left.
- intro Hin. apply H. apply in_or_app. now right.
Qed.

Lemma fold_lookup (games : list GameMatchup) (m : Matchups) (game : GameMatchup) :
  NoDup (flat_map names games) ->
  In game games ->
  truthy (Underdog.normalizeTeamName (teamA game)) = true ->
  truthy (Underdog.normalizeTeamName (teamB game)) = true ->
  JsMap.get value value strictEq (Underdog.normalizeTeamName (teamA game)) (fold_left addGame games m)
  = Some (Underdog.normalizeTeamName (teamB game))
  /\ JsMap.get value value strictEq (Underdog.normalizeTeamName (teamB game)) (fold_left addGame games m)
     = Some (Underdog.normalizeTeamName (teamA game)).
Proof.
revert m. induction games as [|g rest IH]; intros m Hnd Hin Ha Hb; [contradiction|].
cbn [fold_left flat_map] in *.
destruct Hin as [-> | Hin].
- assert (Hab : Underdog.normalizeTeamName (teamA game)
                <> Underdog.normalizeTeamName (teamB game)).
  { apply NoDup_app_remove_r in Hnd. unfold names in Hnd.
    inversion Hnd as [|? ? Hx _]; subst. intro E. apply Hx. left. now symmetry. }
  rewrite !fold_other.
  + unfold addGame. rewrite Ha, Hb. cbn [andb].
    rewrite !(MapFacts.get_set _ _ _ strictEq_spec).
    rewrite !(MapFacts.sameKey_refl _ strictEq strictEq_spec).
    destruct (strictEq (Underdog.normalizeTeamName (teamB game))
                       (Underdog.normalizeTeamName (teamA game))) eqn:E.
    * apply strictEq_spec in E. now symmetry in E.
    * now split.
  + apply ListFacts.NoDup_app_disjoint with (a := names game); [exact Hnd|].
    right. now left.
  + apply ListFacts.NoDup_app_disjoint with (a := names game); [exact Hnd|].
    now left.
- apply IH; try assumption. now apply NoDup_app_remove_l in Hnd.
Qed.

End ScheduleFacts.

(** ** The teams of the day *)

Module TodayFacts.
Import Today Slate.

Lemma eqb_spec' (a b : string) : String.eqb a b = true <-> a = b.
Proof. apply String.eqb_eq. Qed.

Lemma keys_app {V} (a b : JsMap.t string V) :
  JsMap.keys _ _ (a ++ b)%list = (JsMap.keys _ _ a ++ JsMap.keys _ _ b)%list.
Proof. apply map_app. Qed.

Lemma set_new {V} (k : string) (v : V) (m : JsMap.t string V) :
  ~ In k (JsMap.keys _ _ m) ->
  JsMap.set _ _ String.eqb k v m = (m ++ [(k, v)])%list.
Proof.
intro H. apply (MapFacts.set_fresh _ _ _). 
now apply (MapFacts.get_not_key _ _ _ eqb_spec').
Qed.

(** With teams that all differ, every game appends its two teams. *)
Lemma collect_fresh (games : list Game)
    (teams : JsMap.t string unit) (infos : JsMap.t string GameInfo) :
  JsMap.keys _ _ infos = JsMap.keys _ _ teams ->
  NoDup (JsMap.keys _ _ teams ++ flat_map teamsOf games) ->
  fold_left addGame games (teams, infos)
  = ((teams ++ flat_map (fun g => [(teamA g, tt); (teamB g, tt)]) games)%list,
     (infos ++ flat_map infoOf games)%list).
Proof.
revert teams infos. induction games as [|g rest IH]; intros teams infos Hk Hnd.
- cbn. now rewrite !app_nil_r.
- cbn [fold_left flat_map teamsOf app] in *.
  assert (Ha : ~ In (teamA g) (JsMap.keys _ _ teams)).
  { intro Hin. apply (ListFacts.NoDup_app_disjoint _ _ _ Hnd Hin). now left. }
  assert (Hb : ~ In (teamB g) (JsMap.keys _ _ teams)).
  { intro Hin. apply (ListFacts.NoDup_app_disjoint _ _ _ Hnd Hin). right. now left. }
  assert (Hab : teamA g <> teamB g).
  { apply NoDup_app_remove_l in Hnd. inversion Hnd as [|? ? Hx _]; subst.
    intro E. apply Hx. left. now symmetry. }
  unfold addGame at 2.
  rewrite (set_new (teamA g) tt teams Ha).
  rewrite (set_new (teamB g) tt).
  2:{ rewrite keys_app. intro Hin. apply in_app_or in Hin as [Hin|[Hin|[]]];
        [now apply Hb | now apply Hab]. }
  rewrite (set_new (teamA g) _ infos) by now rewrite Hk.
  rewrite (set_new (teamB g) _).
  2:{ rewrite keys_app, Hk. intro Hin. apply in_app_or in Hin as [Hin|[Hin|[]]];
        [now apply Hb | now apply Hab]. }
  rewrite IH.
  + unfold infoOf at 2. now rewrite <- !app_assoc.
  + rewrite !keys_app, Hk. reflexivity.
  + rewrite !keys_app, <- !app_assoc. exact Hnd.
Qed.

Lemma get_own_entries {V} (f : string -> V -> string * string * string)
    (before entries : JsMap.t string V) :
  NoDup (JsMap.keys _ _ before ++ JsMap.keys _ _ entries) ->
  flat_map (fun k =>
              match JsMap.get _ _ String.eqb k (before ++ entries)%list with
              | Some v => [f k v]
              | None => []
              end)
           (JsMap.keys _ _ entries)
  = map (fun kv => f (fst kv) (snd kv)) entries.
Proof.
revert before. induction entries as [|[k v] rest IH]; intros before Hnd;
  [reflexivity|].
cbn [JsMap.keys map fst snd flat_map].
rewrite (MapFacts.get_app _ _ _).
rewrite (MapFacts.get_not_key _ _ _ eqb_spec' k before).
2:{ intro Hin. apply (ListFacts.NoDup_app_disjoint _ _ _ Hnd Hin). now left. }
cbn [JsMap.get]. rewrite String.eqb_refl. cbn [app]. f_equal.
specialize (IH (before ++ [(k, v)])%list).
rewrite <- app_assoc in IH. cbn [app] in IH. apply IH.
rewrite keys_app, <- app_assoc. exact Hnd.
Qed.

Lemma targets_of_entries (games : list Game) :
  map (fun kv : string * GameInfo => (fst kv, opponent (snd kv), infoTime (snd kv)))
      (flat_map infoOf games)
  = flat_map targetsOf games.
Proof.
induction games as [|g rest IH]; [reflexivity|].
cbn [flat_map]. rewrite map_app, IH. reflexivity.
Qed.

Lemma keys_entries (games : list Game) :
  JsMap.keys _ _ (flat_map infoOf games) = flat_map teamsOf games
  /\ JsMap.keys _ _ (flat_map (fun g => [(teamA g, tt); (teamB g, tt)]) games)
     = flat_map teamsOf games.
Proof.
unfold JsMap.keys. induction games as [|g rest [IH1 IH2]]; [now split|].
cbn [flat_map]. rewrite !map_app, IH1, IH2. now split.
Qed.

End TodayFacts.

(** ** The defense sheet *)

Module ReaderFacts.
Import Props Reader Sheet.

Lemma nonEmpty_neq (s : string) : Scraper.nonEmpty s = true -> s <> EmptyString.
Proof. destruct s; [discriminate | discriminate]. Qed.

Lemma parseRow_wellFormed (c : Columns) (row : list string) (d : DefenseData.t) :
  parseRow c row = Some d -> wellFormed d.
Proof.
unfold parseRow. destruct (Nat.leb _ _); [discriminate|].
destruct (Scraper.nonEmpty (cell row (teamIdx c))) eqn:E1; [|discriminate].
destruct (Scraper.nonEmpty (cell row (opponentIdx c))) eqn:E2; [|discriminate].
destruct (Scraper.nonEmpty (cell row (positionIdx c))) eqn:E3; [|discriminate].
destruct (Scraper.nonEmpty (cell row (rankIdx c))) eqn:E4; [|discriminate].
cbn [negb orb]. intros [= <-]. unfold wellFormed, cell in *.
cbn [DefenseData.team DefenseData.opponent DefenseData.gameTime
     DefenseData.position DefenseData.rank].
rewrite !JsFacts.trim_idem.
repeat split; now apply nonEmpty_neq.
Qed.

Lemma parseRows_In (c : Columns) (rows : list (list string)) (d : DefenseData.t) :
  In d (parseRows c rows) -> exists row, In row rows /\ parseRow c row = Some d.
Proof.
induction rows as [|row rest IH]; [contradiction|].
cbn [parseRows]. destruct (parseRow c row) as [d0|] eqn:E.
- intros [<- | H].
  + exists row. split; [now left | exact E].
  + destruct (IH H) as (r & Hr & Er). exists r. split; [now right | exact Er].
- intro H. destruct (IH H) as (r & Hr & Er). exists r. split; [now right | exact Er].
Qed.

Lemma columns_of_upload_header :
  columns Upload.header = mkColumns 0 1 2 3 4.
Proof. reflexivity. Qed.

End ReaderFacts.

(** ** The props of the Underdog scraper *)

Module UnderdogPropsFacts.
Import Obj Props Scraper UnderdogProps KeptProp.

Lemma filterValid_In (props kept : list Normalized) (p : Normalized) :
  filterValid props = Ok kept -> In p kept ->
  In p props /\ isValid p = Ok true.
Proof.
revert kept. induction props as [|q rest IH]; intros kept H Hin.
- injection H as <-. contradiction.
- cbn [filterValid] in H.
  destruct (isValid q) as [keep|] eqn:Eq; [|discriminate].
  destruct (filterValid rest) as [kept'|]; [|discriminate].
  injection H as <-. destruct keep.
  + destruct Hin as [<- | Hin]; [split; [now left | exact Eq]|].
    destruct (IH _ eq_refl Hin) as [H1 H2]. split; [now right | exact H2].
  + destruct (IH _ eq_refl Hin) as [H1 H2]. split; [now right | exact H2].
Qed.

Lemma uniquePropsFrom_In (index : nat) (self rest : list Normalized) (p : Normalized) :
  In p (uniqueFrom index self rest) -> In p rest.
Proof.
revert index. induction rest as [|q rest IH]; intros index H; [contradiction|].
cbn [uniqueFrom] in H.
destruct (findIndexFrom 0 (sameProp q) self) as [i|].
- destruct (Nat.eqb index i).
  + destruct H as [<- | H]; [now left | right; now apply (IH _ H)].
  + right. now apply (IH _ H).
- right. now apply (IH _ H).
Qed.

Lemma findIndexFrom_prefix (test : Normalized -> bool)
    (before after : list Normalized) (start : nat) :
  findIndexFrom start test (before ++ after)%list
  = Some (start + List.length before) ->
  Forall (fun p => test p = false) before.
Proof.
revert start. induction before as [|q before IH]; intros start H; [constructor|].
cbn [app findIndexFrom List.length] in H.
destruct (test q) eqn:E.
- injection H as H. lia.
- constructor; [exact E|]. apply (IH (S start)). rewrite H. f_equal. lia.
Qed.

(** A kept prop is the first of its kind: nothing before it in the list
    is the same prop, and so nothing kept before it either. *)
Lemma uniqueFrom_first (before rest : list Normalized) :
  ForallOrdPairs (fun p q => sameProp q p = false)
    (uniqueFrom (List.length before) (before ++ rest)%list rest)
  /\ Forall (fun q => Forall (fun p => sameProp q p = false) before)
       (uniqueFrom (List.length before) (before ++ rest)%list rest).
Proof.
revert before. induction rest as [|q rest IH]; intros before.
- split; constructor.
- cbn [uniqueFrom].
  specialize (IH (before ++ [q])%list).
  rewrite <- app_assoc, length_app in IH. cbn [app List.length] in IH.
  replace (List.length before + 1) with (S (List.length before)) in IH by lia.
  destruct IH as [IH1 IH2].
  assert (Hweak : Forall (fun q0 => Forall (fun p => sameProp q0 p = false) before)
                    (uniqueFrom (S (List.length before)) (before ++ q :: rest)%list rest)).
  { eapply Forall_impl; [|exact IH2]. intros a Ha.
    apply Forall_app in Ha. tauto. }
  destruct (findIndexFrom 0 (sameProp q) (before ++ q :: rest)%list) as [i|] eqn:Ei;
    [|now split].
  destruct (Nat.eqb_spec (List.length before) i) as [<- | _]; [|now split].
  split.
  + constructor; [|exact IH1].
    eapply Forall_impl; [|exact IH2]. intros a Ha.
    apply Forall_app in Ha as [_ Ha]. now inversion Ha.
  + constructor; [|exact Hweak].
    now apply (findIndexFrom_prefix _ before (q :: rest) 0).
Qed.

Lemma filterValid_throws (before rest : list Normalized) (p : Normalized) :
  isValid p = Throws -> filterValid (before ++ p :: rest)%list = Throws.
Proof.
intro H. induction before as [|q before IH]; cbn [app filterValid].
- now rewrite H.
- destruct (isValid q); [now rewrite IH | reflexivity].
Qed.

Lemma normalize_opponent (prop : UnderdogProp.t) :
  exists o, opponent (normalize prop) = VString o.
Proof.
unfold normalize. cbn [opponent].
destruct (nonEmpty (UnderdogProp.opponent prop)); [|now eexists].
exact (UnderdogFacts.normalizeTeamName_string (UnderdogProp.opponent prop)).
Qed.

Lemma truthy_string (s : string) : truthy (VString s) = true -> s <> EmptyString.
Proof. destruct s; [discriminate | discriminate]. Qed.

Lemma isValid_valid (prop : UnderdogProp.t) :
  isValid (normalize prop) = Ok true -> valid (normalize prop).
Proof.
destruct (normalize_opponent prop) as (o & Ho).
destruct (UnderdogFacts.normalizeTeamName_string (UnderdogProp.team prop))
  as (t & Ht).
unfold isValid, valid. rewrite Ho.
change (team (normalize prop))
  with (Underdog.normalizeTeamName (UnderdogProp.team prop)).
rewrite Ht.
destruct (nonEmpty (playerName (normalize prop))) eqn:E1; [|discriminate].
destruct (truthy (VString t)) eqn:E2; [|discriminate].
destruct (truthy (stat (normalize prop))) eqn:E3; [|discriminate].
destruct (PrimFloat.leb (line (normalize prop)) 0) eqn:E4; [discriminate|].
cbn [negb orb].
destruct (stat (normalize prop)) as [|s|name]; try discriminate.
destruct (isAllowedStat (Js.toLowerCase s)) eqn:E5; [|discriminate].
cbn [negb].
destruct (truthy (VString o) && strictEq (VString o) (VString t)) eqn:E6;
  [discriminate|].
intros _. split; [now apply ReaderFacts.nonEmpty_neq|].
split; [exists t; split; [reflexivity | now apply truthy_string]|].
split; [now exists s|].
split; [|reflexivity].
destruct o as [|c o]; [now left|]. right.
exists (String c o). split; [reflexivity|]. split; [discriminate|].
cbn [truthy andb] in E6. intro H. rewrite H in E6.
cbn [strictEq] in E6. now rewrite String.eqb_refl in E6.
Qed.

End UnderdogPropsFacts.

(** ** The text strategy *)

Module TextScanFacts.
Import Js Scraper TextScan TrimFacts Ordinal.

Lemma stripLiteral_spec (pat s m rest : string) :
  stripLiteral pat s = Some (m, rest) ->
  toLowerCase m = toLowerCase pat /\ s = m ++ rest.
Proof.
revert s m rest. induction pat as [|p pat IH]; intros s m rest H; simpl in H.
- injection H as <- <-. now split.
- destruct s as [|c s']; [discriminate|].
  destruct (Ascii.eqb_spec (toLowerChar p) (toLowerChar c)) as [E|]; [|discriminate].
  destruct (stripLiteral pat s') as [[m' rest']|] eqn:E'; [|discriminate].
  injection H as <- <-. destruct (IH _ _ _ E') as [H1 H2].
  split.
  + unfold toLowerCase in *. simpl. now rewrite H1, E.
  + simpl. now rewrite H2.
Qed.

Lemma existsb_eqb_In (x : string) (l : list string) :
  existsb (String.eqb x) l = true -> In x l.
Proof.
intro H. apply existsb_exists in H as [y [Hin Hy]].
apply String.eqb_eq in Hy. now subst.
Qed.

Lemma stripSuffix_spec (s suffix rest : string) :
  stripSuffix s = Some (suffix, rest) ->
  In (toLowerCase suffix) ordinalSuffixes /\ s = suffix ++ rest /\
  exists a b, suffix = String a (String b EmptyString).
Proof.
unfold stripSuffix. destruct s as [|a [|b r]]; try discriminate.
destruct (existsb _ _) eqn:E; [|discriminate].
intro H. injection H as <- <-. split; [|split].
- now apply existsb_eqb_In.
- reflexivity.
- now exists a, b.
Qed.

Lemma spanDigits_digits (s d rest : string) :
  spanDigits s = (d, rest) -> allChars isDigit d = true /\ s = d ++ rest.
Proof.
revert d rest. induction s as [|c r IH]; intros d rest H; simpl in H.
- injection H as <- <-. now split.
- destruct (isDigit c) eqn:E.
  + destruct (spanDigits r) as [d' rest'] eqn:E'. injection H as <- <-.
    destruct (IH _ _ eq_refl) as [H1 H2]. simpl. rewrite E, H1. split; [reflexivity|].
    now rewrite H2.
  + injection H as <- <-. now split.
Qed.

Lemma matchAt_spec (stat s g1 g2 : string) (len : nat) :
  matchAt stat s = Some (g1, g2, len) ->
  toLowerCase g1 = toLowerCase stat /\ isOrdinal g2.
Proof.
unfold matchAt.
destruct (stripLiteral stat s) as [[m afterStat]|] eqn:E1; [|discriminate].
destruct afterStat as [|c r]; [discriminate|].
destruct (isSpace c); [|discriminate].
destruct (spanDigits _) as [digits afterDigits] eqn:E2.
destruct digits as [|d ds]; [discriminate|].
destruct (stripSuffix afterDigits) as [[suffix rest]|] eqn:E3; [|discriminate].
intro H. injection H as <- <- _.
apply stripLiteral_spec in E1 as [H1 _].
apply spanDigits_digits in E2 as [H2 _].
apply stripSuffix_spec in E3 as [H3 _].
split; [exact H1|]. exists (String d ds), suffix. repeat split; try assumption. discriminate.
Qed.

Lemma isSpace_digit (c : ascii) : isDigit c = true -> isSpace c = false.
Proof. destruct c as [[] [] [] [] [] [] [] []]; intro H; try reflexivity; discriminate H. Qed.

Lemma suffix_last (suffix : string) :
  In (toLowerCase suffix) ordinalSuffixes ->
  exists a b, suffix = String a (String b EmptyString) /\ isSpace b = false.
Proof.
intro H. destruct suffix as [|a [|b [|c r]]];
  try (simpl in H; repeat destruct H as [H|H]; try discriminate H; now destruct H).
exists a, b. split; [reflexivity|].
assert (Hb : In (toLowerChar b) ["h"; "t"; "d"]%char).
{ simpl in H. unfold toLowerCase in H. simpl in H.
  repeat destruct H as [H|H]; try (now destruct H);
    injection H as _ Hb; rewrite <- Hb; simpl; auto. }
rewrite <- isSpace_toLowerChar. simpl in Hb.
repeat destruct Hb as [Hb|Hb]; try (now destruct Hb); now rewrite <- Hb.
Qed.

Lemma append_snoc (a : string) (x y : ascii) :
  a ++ String x (String y EmptyString) = (a ++ String x EmptyString) ++ String y EmptyString.
Proof. induction a as [|c a IH]; simpl; [reflexivity | now rewrite IH]. Qed.

Lemma trim_isOrdinal (rank : string) : isOrdinal rank -> trim rank = rank.
Proof.
intros [digits [suffix [-> [Hne [Hd Hs]]]]].
apply suffix_last in Hs as [a [b [-> Hb]]].
destruct digits as [|d ds]; [contradiction|].
simpl in Hd. apply andb_prop in Hd as [Hd _].
unfold trim. simpl. rewrite (isSpace_digit _ Hd).
change (String d (ds ++ String a (String b ""))) with (String d ds ++ String a (String b "")).
rewrite append_snoc. now apply trimEnd_snoc.
Qed.

Lemma toLowerCase_app (a b : string) :
  toLowerCase (a ++ b) = toLowerCase a ++ toLowerCase b.
Proof. apply StringFacts.mapChars_app. Qed.

Lemma prefix_refl (s : string) : prefix s s = true.
Proof.
induction s as [|c r IH]; simpl; [reflexivity|].
destruct (ascii_dec c c); [exact IH | contradiction].
Qed.

Lemma hasOrdinalSuffix_isOrdinal (rank : string) :
  isOrdinal rank -> hasOrdinalSuffix rank = true.
Proof.
intros [digits [suffix [-> [_ [_ Hs]]]]].
unfold hasOrdinalSuffix. cbv zeta. rewrite toLowerCase_app.
simpl in Hs.
destruct Hs as [H|[H|[H|[H|[]]]]];
  pose proof (StringFacts.includes_app (toLowerCase digits) (toLowerCase suffix) (toLowerCase suffix) (prefix_refl _)) as Hi;
  rewrite <- H in Hi at 2; rewrite Hi; repeat rewrite orb_true_r; reflexivity.
Qed.

Lemma statCategories_trimmed :
  Forall (fun stat => trim (toLowerCase stat) = toLowerCase stat) statCategories.
Proof. repeat constructor. Qed.

Lemma scan_In (stat : string) (r : Row.t) (s : string) (skip : nat) :
  trim (toLowerCase stat) = toLowerCase stat ->
  In r (scan stat skip s) ->
  toLowerCase (Row.position r) = toLowerCase stat /\ isOrdinal (Row.rank r).
Proof.
intro Hstat. revert skip. induction s as [|c rest IH]; intros skip H; [destruct H|].
simpl in H. destruct skip as [|k]; [|now apply IH in H].
destruct (matchAt stat (String c rest)) as [[[g1 g2] len]|] eqn:E; [|now apply IH in H].
apply matchAt_spec in E as [H1 H2].
destruct (nonEmpty (trim g1) && nonEmpty (trim g2)); [|now apply IH in H].
destruct H as [<-|H]; [|now apply IH in H].
simpl. split.
- now rewrite <- trim_toLowerCase, H1.
- now rewrite (trim_isOrdinal _ H2).
Qed.

Lemma textStrategy_In (containerText : string) (r : Row.t) :
  In r (textStrategy containerText) ->
  namesCategory (Row.position r) /\ isOrdinal (Row.rank r).
Proof.
unfold textStrategy. intro H. apply in_flat_map in H as [stat [Hin H]].
pose proof statCategories_trimmed as Ht. rewrite Forall_forall in Ht.
apply (scan_In _ _ _ _ (Ht _ Hin)) in H as [H1 H2].
split; [|exact H2]. now exists stat.
Qed.

End TextScanFacts.

(** ** Game times *)

Module GameTimeFacts.
Import Js GameTime Clock.

Section Format.
Variable parseDate : string -> option (nat * nat).

Lemma checkTwelve_ok :
  checkTwelve parseDate "PM" "PM" = true /\ checkTwelve parseDate "PM" "pm" = true /\
  checkTwelve parseDate "AM" "AM" = true /\ checkTwelve parseDate "AM" "am" = true.
Proof. repeat split; vm_compute; reflexivity. Qed.

Lemma checkTwentyFour_ok : checkTwentyFour parseDate = true.
Proof. vm_compute. reflexivity. Qed.

Lemma forallb_seq (f : nat -> bool) (a n x : nat) :
  forallb f (seq a n) = true -> a <= x < a + n -> f x = true.
Proof.
intros H Hx. rewrite forallb_forall in H. apply H, in_seq. lia.
Qed.

Lemma twelveHour_format (period shown : string) (h m : nat) :
  checkTwelve parseDate period shown = true ->
  1 <= h <= 12 -> m < 60 ->
  formatGameTimeForSheets parseDate (twelveHour shown h m) = clock (hoursOf period h) m.
Proof.
intros H Hh Hm. unfold checkTwelve in H.
apply (forallb_seq _ _ _ h) in H; [|lia].
apply (forallb_seq _ _ _ m) in H; [|lia].
now apply String.eqb_eq in H.
Qed.

Lemma timeMatch_no_digit (s : string) : hasDigit s = false -> timeMatch s = None.
Proof.
induction s as [|c r IH]; [reflexivity|]. unfold hasDigit. simpl.
intro H. apply orb_false_elim in H as [H1 H2]. rewrite H1. now apply IH.
Qed.

Lemma nonEmpty_trim (s : string) :
  Scraper.nonEmpty (trim s) = true -> Scraper.nonEmpty s = true.
Proof. destruct s; [discriminate | reflexivity]. Qed.


End Format.
End GameTimeFacts.

(** * The claims of the specification *)

Module Claims.
Import Js Obj Scraper Attempts Props Canon Join Tiers.

(** ** Extraction engine *)

(** C1: the specification keeps only records whose rank decodes into
    [24,32].  The position passes and the pass without position filter
    do filter their rows with [isRankInRange]; the inline fallback
    extraction does not.  On a page whose Defense panel shows the single
    row "Hits | 5th", every filtered pass retains nothing, the fallback
    extraction runs, and the engine returns the record of rank "5th". *)
Theorem fallback_extraction_returns_rank_outside_band
    (textStrategy cardStrategy divStrategy : StaticPage.Container -> list Row.t) :
  let r := run StaticPage.Page
             (StaticPage.scrapeDefenseData textStrategy cardStrategy divStrategy
                "BOS" "TOR" "7:00 PM")
             [["Hits"; "5th"]] in
  records StaticPage.Page r = [Scraper.DefenseData.mk "BOS" "TOR" "7:00 PM" "Hits" "5th"]
  /\ isRankInRange "5th" = false
  /\ trace StaticPage.Page r
     = [PositionExtract "LW"; PositionExtract "RW"; PositionExtract "C";
        PositionExtract "D"; PositionExtract "G";
        UnfilteredExtract; FallbackExtract].
Proof. repeat split. Qed.

(** C2, as stated, fails: the rank text "21" does not become "21st". *)
Lemma normalizeRank_21_is_not_21st : normalizeRank "21" <> "21st".
Proof. discriminate. Qed.

(** C2, amended: a rank text that has digits and none of "th", "st",
    "nd", "rd" gets "th" appended to its first run of digits, whatever the
    number is. *)
Theorem normalizeRank_appends_th (rankText : string) :
  hasDigit rankText = true ->
  hasOrdinalSuffix rankText = false ->
  exists pre m post,
    rankText = pre ++ m ++ post
    /\ hasDigit pre = false
    /\ allChars isDigit m = true
    /\ m <> EmptyString
    /\ startsWith isDigit post = false
    /\ normalizeRank rankText = pre ++ m ++ "th" ++ post.
Proof.
  intros Hd Hs.
  destruct (ScraperFacts.matchDigits_hasDigit _ Hd) as (pre & m & post & E).
  exists pre, m, post.
  destruct (ScraperFacts.matchDigits_spec _ _ _ _ E) as (H1 & H2 & H3 & H4 & H5).
  repeat split; try assumption.
  unfold normalizeRank. now rewrite Hs, Hd, E.
Qed.

Lemma normalizeRank_appends_th_witness :
  exists pre m post,
    "21" = pre ++ m ++ post
    /\ hasDigit pre = false
    /\ allChars isDigit m = true
    /\ m <> EmptyString
    /\ startsWith isDigit post = false
    /\ normalizeRank "21" = pre ++ m ++ "th" ++ post.
Proof. apply (normalizeRank_appends_th "21"); reflexivity. Defined.

(** The six rank texts of the specification. *)
Example normalizeRank_examples :
  normalizeRank "24" = "24th" /\ normalizeRank "21" = "21th"
  /\ normalizeRank "22" = "22th" /\ normalizeRank "23" = "23th"
  /\ normalizeRank "11" = "11th" /\ normalizeRank "13" = "13th".
Proof. repeat split. Qed.

(** C9, as stated, fails: on a page with an empty Defense table the
    position passes push nothing, and the run then makes two extraction
    attempts outside the position passes, not one. *)
Lemma empty_page_gets_two_extra_attempts :
  snd (run StaticPage.Page (StaticPage.positionPasses StaticPage.none) [])
    = Ok []
  /\ extraAttempts
       (trace StaticPage.Page
          (run StaticPage.Page
             (StaticPage.scrapeDefenseData StaticPage.none StaticPage.none
                StaticPage.none "BOS" "TOR" "7:00 PM") []))
     <> 1.
Proof. split; [reflexivity | vm_compute; discriminate]. Qed.

(** C9, amended: once the page is prepared, the trace of a run is the
    trace of the five position passes, which holds position extractions
    only, followed by nothing if they have pushed a row; otherwise by the
    extraction without position filter and then, if that one returns
    without a row of the band 24-32, the waits succeed and the page is
    still open, by the inline fallback extraction; nothing else. *)
Theorem extraction_attempts_after_position_passes
    (Page Container : Type)
    (prepare : Page -> Page * outcome unit)
    (activatePosition : string -> Page -> Page * outcome bool)
    (locateContainer : Page -> Page * outcome (option Container))
    (settle : Page -> Page * outcome unit)
    (isClosed : Page -> bool)
    (locateFallbackContainer : Page -> Page * outcome (option Container))
    (debugProbe : Page -> Page * outcome unit)
    (tableOf : Container -> option (list (list string)))
    (textStrategy cardStrategy divStrategy : Container -> list Row.t)
    (team opponent gameTime : string)
    (page p1 : Page) (w2 : Page * list Event) (rows : list Row.t) :
  prepare page = (p1, Ok tt) ->
  positionPasses Page Container activatePosition locateContainer tableOf
    textStrategy positions [] (p1, []) = (w2, Ok rows) ->
  Forall (fun e => isPositionExtract e = true) (snd w2)
  /\ Forall inBand rows
  /\ trace Page
       (run Page
          (scrapeDefenseData Page Container prepare activatePosition
             locateContainer settle isClosed locateFallbackContainer
             debugProbe tableOf textStrategy cardStrategy divStrategy
             team opponent gameTime)
          page)
     = (snd w2
        ++ afterPasses Page Container locateContainer settle isClosed
             tableOf textStrategy w2 rows)%list.
Proof.
  intros Hprep Hpass.
  destruct (ScraperFacts.passes_spec Page Container activatePosition
              locateContainer tableOf textStrategy positions [] (p1, []))
    as (w & rs & E & Hband & Hpos); [constructor | constructor |].
  rewrite Hpass in E. injection E as <- <-.
  repeat split; try assumption.
  now apply ScraperFacts.scrape_trace with (p1 := p1).
Qed.

Lemma extraction_attempts_after_position_passes_witness :
  Forall (fun e => isPositionExtract e = true)
    [PositionExtract "LW"; PositionExtract "RW"; PositionExtract "C";
     PositionExtract "D"; PositionExtract "G"]
  /\ Forall inBand []
  /\ trace StaticPage.Page
       (run StaticPage.Page
          (StaticPage.scrapeDefenseData StaticPage.none StaticPage.none
             StaticPage.none "BOS" "TOR" "7:00 PM") [])
     = [PositionExtract "LW"; PositionExtract "RW"; PositionExtract "C";
        PositionExtract "D"; PositionExtract "G";
        UnfilteredExtract; FallbackExtract].
Proof.
  exact (extraction_attempts_after_position_passes
           StaticPage.Page StaticPage.Container
           (StaticPage.succeed tt) (fun _ => StaticPage.succeed true)
           StaticPage.locate (StaticPage.succeed tt) (fun _ => false)
           StaticPage.locate (StaticPage.succeed tt) (fun c => Some c)
           StaticPage.none StaticPage.none StaticPage.none
           "BOS" "TOR" "7:00 PM" [] []
           ([], [PositionExtract "LW"; PositionExtract "RW";
                 PositionExtract "C"; PositionExtract "D";
                 PositionExtract "G"])
           [] eq_refl eq_refl).
Defined.

(** ** Canonicalizers *)

(** C7: the team canonicalizers always return a string, and a second
    application leaves it unchanged; the stat canonicalizer returns a
    value for every input, and a second application leaves it
    unchanged. *)
Theorem canonicalizers_idempotent :
  (forall x, exists y,
      normalizeTeamName x = VString y /\ normalizeTeamName y = VString y)
  /\ (forall x, exists y,
         normalizeTeamForMatching x = VString y
         /\ normalizeTeamForMatching y = VString y)
  /\ (forall x : string,
         normalizeStatType (normalizeStatType (VString x))
         = normalizeStatType (VString x))
  /\ (forall v : value,
         normalizeStatType (normalizeStatType v) = normalizeStatType v).
Proof.
  repeat split.
  - apply CanonFacts.normalizeTeamName_idem.
  - apply CanonFacts.normalizeTeamForMatching_idem.
  - intro x. apply CanonFacts.normalizeStatType_idem.
  - apply CanonFacts.normalizeStatType_idem.
Qed.

(** C8, as stated, fails: "sog" and "SOG" differ in letter case only,
    and " SOG " and "SOG" in surrounding white space only, yet the stat
    canonicalizer gives them different results. *)
Lemma normalizeStatType_is_case_sensitive :
  (toLowerCase (trim "sog") = toLowerCase (trim "SOG")
   /\ normalizeStatType (VString "sog") <> normalizeStatType (VString "SOG"))
  /\ (trim " SOG " = trim "SOG"
      /\ normalizeStatType (VString " SOG ") <> normalizeStatType (VString "SOG")).
Proof. repeat split; discriminate. Qed.

(** C8, amended: the lookup of the stat canonicalizer is exact.  An input
    that is a key of the table gives the category of that key; any other
    string, unless it names a member of [Object.prototype], is returned
    as it is. *)
Theorem normalizeStatType_exact_lookup (statType expected : string) :
  In (statType, expected) statMap
  \/ (~ In statType (map fst statMap)
      /\ ~ In statType objectPrototype
      /\ expected = statType) ->
  normalizeStatType (VString statType) = VString expected.
Proof.
  unfold normalizeStatType, Obj.get. cbn [toPropertyKey].
  intros [Hin | (Hkey & Hproto & ->)].
  - rewrite (CanonFacts.own_first _ _ _ CanonFacts.statMap_keys_distinct Hin).
    pose proof CanonFacts.statMap_values as Hv. rewrite Forall_forall in Hv.
    destruct (Hv _ Hin) as [Hne _]. cbn [snd] in Hne.
    unfold Obj.logicalOr. simpl. destruct expected; [discriminate Hne | reflexivity].
  - rewrite (CanonFacts.own_None _ _ Hkey), (CanonFacts.not_inherited _ Hproto).
    reflexivity.
Qed.

Lemma normalizeStatType_exact_lookup_witness :
  normalizeStatType (VString "sog") = VString "sog".
Proof.
  apply (normalizeStatType_exact_lookup "sog" "sog").
  right. repeat split.
  - simpl. intro H.
    repeat (destruct H as [H|H]; [discriminate H|]). exact H.
  - simpl. intro H.
    repeat (destruct H as [H|H]; [discriminate H|]). exact H.
Defined.

(** ** Join engine *)

(** C3, as stated, fails: with the records "Blocks 30th" and "SOG 25th"
    of the opponent, in this order, and the prop statistic "Shots", no
    record is an exact or a partial match and both are alias matches; the
    first of them in the order of the list has rank "30th", the code
    returns "25th". *)
Lemma alias_tier_is_not_in_list_order :
  find (exact "TOR" "Shots") [Scenario.blocks30; Scenario.sog25] = None
  /\ find (partial "TOR" "Shots") [Scenario.blocks30; Scenario.sog25] = None
  /\ lookupByListOrder "TOR" "Shots" [Scenario.blocks30; Scenario.sog25]
     = Some "30th"
  /\ findDefenseStrength [Scenario.blocks30; Scenario.sog25] "BOS" "TOR" "Shots"
     <> lookupByListOrder "TOR" "Shots" [Scenario.blocks30; Scenario.sog25].
Proof. repeat split; vm_compute; (reflexivity || discriminate). Qed.

(** C3, amended: for a prop with an opponent and a statistic, the lookup
    is the first of these that has a candidate: the exact matches, the
    partial matches, then the alias groups in the order of the table
    (prop statistic against the aliases of the group, record against the
    group), then the alias groups again for the reverse check; within a
    tier or a group the first candidate in the order of the list is
    taken, and without any candidate the result is null. *)
Theorem findDefenseStrength_tier_order
    (defenseData : list DefenseData.t) (team opponent statCategory : string) :
  opponent <> EmptyString ->
  statCategory <> EmptyString ->
  findDefenseStrength defenseData team opponent statCategory
  = lookupByGroupOrder opponent statCategory defenseData.
Proof.
intros Ho Hs. unfold findDefenseStrength.
rewrite (JoinFacts.nonEmpty_true _ Ho), (JoinFacts.nonEmpty_true _ Hs).
cbn [negb orb].
unfold lookupByGroupOrder, firstCandidate, exact, partial.
(* the tiers of the code range over the records of the opponent *)
rewrite <- !JoinFacts.find_filter.
rewrite <- JoinFacts.aliasLoop_byGroup, <- JoinFacts.reverseLoop_byGroup.
generalize (filter (sameOpponent (normalizeTeamForMatching opponent)) defenseData)
  as opponentMatches.
intros [|d ds].
- (* no record of the opponent: the early return *)
  now rewrite JoinFacts.aliasLoop_nil, JoinFacts.reverseLoop_nil.
- set (normalizedStat := normalizeStatForMatching statCategory).
  destruct (find (isExact normalizedStat) (d :: ds)); [reflexivity|].
  destruct (find (isPartial normalizedStat) (d :: ds)); [reflexivity|].
  cbn [option_map firstOf].
  destruct (aliasLoop normalizedStat (d :: ds) statAliases); reflexivity.
Qed.

Lemma findDefenseStrength_tier_order_witness :
  findDefenseStrength [Scenario.blocks30; Scenario.sog25] "BOS" "TOR" "Shots"
  = lookupByGroupOrder "TOR" "Shots" [Scenario.blocks30; Scenario.sog25].
Proof.
  apply (findDefenseStrength_tier_order
           [Scenario.blocks30; Scenario.sog25] "BOS" "TOR" "Shots");
    discriminate.
Defined.

(** C4, as stated, fails: against the record of team TOR about its
    opponent BOS the prop of BOS against TOR gets "NA", since the join
    compares the opponent of the prop with the opponent of the record. *)
Lemma scenario_as_stated_gives_NA :
  map MergedProp.defenseStrength
    (mergePrizePicksProps [Scenario.prop] [Scenario.recordAsStated])
  <> ["25th"].
Proof. discriminate. Qed.

(** C4, amended: against the record about the opponent TOR the prop gets
    "25th"; the record is neither an exact nor a partial match, and is
    the candidate of the alias group "shots on goal". *)
Theorem scenario_resolved_by_alias_group :
  map MergedProp.defenseStrength
    (mergePrizePicksProps [Scenario.prop] [Scenario.recordOfOpponent])
  = ["25th"]
  /\ find (exact "TOR" "SOG") [Scenario.recordOfOpponent] = None
  /\ find (partial "TOR" "SOG") [Scenario.recordOfOpponent] = None
  /\ find (forwardIn "TOR" "SOG"
             ("shots on goal",
              ["sog"; "shots"; "shot"; "shots on goal"; "shot on goal"]))
       [Scenario.recordOfOpponent]
     = Some Scenario.recordOfOpponent
  /\ map MergedProp.defenseStrength
       (mergePrizePicksProps [Scenario.prop] [Scenario.recordAsStated])
     = ["NA"].
Proof. repeat split. Qed.

(** C5: a merge returns one record per prop, in the order of the props,
    each with the player, team, opponent, statistic and line of its prop;
    the inputs of the functions are values and cannot change. *)
Theorem merge_one_record_per_prop_in_order
    (prizePicks : list PrizePicksProp.t) (underdog : list UnderdogProp.t)
    (defenseData : list DefenseData.t) :
  map Scenario.copied (mergePrizePicksProps prizePicks defenseData)
  = map Scenario.ofPrizePicks prizePicks
  /\ map Scenario.copied (mergeUnderdogProps underdog defenseData)
     = map Scenario.ofUnderdog underdog
  /\ List.length (mergePrizePicksProps prizePicks defenseData)
     = List.length prizePicks
  /\ List.length (mergeUnderdogProps underdog defenseData)
     = List.length underdog.
Proof.
  unfold mergePrizePicksProps, mergeUnderdogProps.
  rewrite !map_map, !length_map. repeat split.
Qed.

(** C6: a prop without opponent gets "NA" whatever the defense records
    are, and every prop gets "NA" when there are no defense records. *)
Theorem no_opponent_or_no_records_gives_NA :
  (forall defenseData team statCategory,
      findDefenseStrength defenseData team "" statCategory = None)
  /\ (forall defenseData playerName team statCategory line projectionId,
         MergedProp.defenseStrength
           (mergePrizePicksProp defenseData
              (PrizePicksProp.mk playerName team "" statCategory line
                 projectionId))
         = "NA")
  /\ (forall defenseData playerName team position stat line gameTime,
         MergedProp.defenseStrength
           (mergeUnderdogProp defenseData
              (UnderdogProp.mk playerName team "" position stat line gameTime))
         = "NA")
  /\ (forall prizePicks,
         map MergedProp.defenseStrength (mergePrizePicksProps prizePicks [])
         = repeat "NA" (List.length prizePicks))
  /\ (forall underdog,
         map MergedProp.defenseStrength (mergeUnderdogProps underdog [])
         = repeat "NA" (List.length underdog)).
Proof.
  assert (Hnil : forall team opponent statCategory,
             findDefenseStrength [] team opponent statCategory = None).
  { intros team opponent statCategory. unfold findDefenseStrength.
    now destruct (_ || _). }
  repeat split; try reflexivity.
  - intro prizePicks. unfold mergePrizePicksProps. rewrite map_map.
    induction prizePicks as [|p ps IH]; [reflexivity|].
    cbn [map List.length repeat]. rewrite IH. f_equal.
    unfold mergePrizePicksProp. cbn [MergedProp.defenseStrength].
    now rewrite Hnil.
  - intro underdog. unfold mergeUnderdogProps. rewrite map_map.
    induction underdog as [|p ps IH]; [reflexivity|].
    cbn [map List.length repeat]. rewrite IH. f_equal.
    unfold mergeUnderdogProp. cbn [MergedProp.defenseStrength].
    now rewrite Hnil.
Qed.

(** C10: a merged record whose defense strength is not "NA" carries the
    rank of a defense record of the list whose normalized opponent is the
    normalized opponent of the prop. *)
Theorem matched_rank_comes_from_same_opponent
    (prizePicks : list PrizePicksProp.t) (underdog : list UnderdogProp.t)
    (defenseData : list DefenseData.t) (m : MergedProp.t) :
  In m (mergePrizePicksProps prizePicks defenseData
        ++ mergeUnderdogProps underdog defenseData)%list ->
  MergedProp.defenseStrength m <> "NA" ->
  exists d,
    In d defenseData
    /\ DefenseData.rank d = MergedProp.defenseStrength m
    /\ normalizeTeamForMatching (DefenseData.opponent d)
       = normalizeTeamForMatching (MergedProp.opponent m).
Proof.
  intros Hin Hna. apply in_app_or in Hin as [Hin|Hin];
    apply in_map_iff in Hin as (p & <- & _);
    cbn [MergedProp.defenseStrength MergedProp.opponent
         mergePrizePicksProp mergeUnderdogProp] in *;
    apply JoinFacts.orNA_rank in Hna;
    now apply JoinFacts.findDefenseStrength_In in Hna.
Qed.

Lemma matched_rank_comes_from_same_opponent_witness :
  exists d,
    In d [Scenario.recordAsStated; Scenario.recordOfOpponent]
    /\ DefenseData.rank d = "25th"
    /\ normalizeTeamForMatching (DefenseData.opponent d)
       = normalizeTeamForMatching "TOR".
Proof.
  apply (matched_rank_comes_from_same_opponent
           [Scenario.prop] []
           [Scenario.recordAsStated; Scenario.recordOfOpponent]
           (mergePrizePicksProp
              [Scenario.recordAsStated; Scenario.recordOfOpponent]
              Scenario.prop)).
  - left. reflexivity.
  - vm_compute. discriminate.
Defined.

End Claims.

(** * Further properties of the program *)

Module Extras.
Import Js Obj Scraper Attempts Canon Join.

(** ** Rows of the extraction *)

(** X1: the removal of duplicates returns rows of its input whose keys
    are pairwise different, keeps a row for every key of the input, and
    changes nothing when it is applied a second time. *)
Theorem uniqueResults_one_row_per_key (results : list Row.t) :
  NoDup (map rowKey (uniqueResults results))
  /\ incl (uniqueResults results) results
  /\ incl (map rowKey results) (map rowKey (uniqueResults results))
  /\ uniqueResults (uniqueResults results) = uniqueResults results.
Proof.
unfold uniqueResults. repeat split.
- apply RowFacts.uniqueFrom_NoDup.
- intros r H. now apply RowFacts.uniqueFrom_In in H.
- intros k H. apply in_map_iff in H as (r & <- & Hr).
  destruct (RowFacts.uniqueFrom_complete [] results r Hr) as [[]|H]; exact H.
- apply RowFacts.uniqueFrom_fixed; [apply RowFacts.uniqueFrom_NoDup|].
  intros r _ [].
Qed.

(** X2: the table strategy accepts a row with two cells or more exactly
    when its rank cell is valid: the test of the stat cell never rejects,
    and accepting position abbreviations makes no difference.  An
    accepted row has a position and a rank that are not empty, and its
    rank is the normalized rank cell. *)
Theorem tableRow_accepts_by_rank_only
    (withPositions : bool) (cell0 cell1 : string) (rest : list string) :
  let rankText := trim cell1 in
  if nonEmpty rankText && (hasDigit rankText || hasRankWord rankText)
  then exists position,
         tableRow withPositions (cell0 :: cell1 :: rest)
         = Some (Row.mk position (normalizeRank rankText))
         /\ nonEmpty position = true
         /\ nonEmpty (normalizeRank rankText) = true
  else tableRow withPositions (cell0 :: cell1 :: rest) = None.
Proof.
cbv zeta. unfold tableRow.
assert (Hstat : (match matchedStat (trim cell0) with
                 | Some s => nonEmpty s
                 | None => false
                 end
                 || (withPositions && isPosition (trim cell0))
                 || nonEmpty (trim cell0)) = true).
{ destruct (trim cell0) as [|c r]; [reflexivity|]. apply orb_true_r. }
rewrite Hstat. cbn [andb].
destruct (nonEmpty (trim cell1)) eqn:E1; [|reflexivity].
destruct (hasDigit (trim cell1) || hasRankWord (trim cell1)); [|reflexivity].
cbn [andb]. eexists. split; [reflexivity|]. split.
- destruct (matchedStat (trim cell0)) as [s|] eqn:Em.
  + rewrite (RowFacts.matchedStat_nonEmpty _ _ Em).
    exact (RowFacts.matchedStat_nonEmpty _ _ Em).
  + destruct (trim cell0); [discriminate Em | reflexivity].
- now apply RowFacts.normalizeRank_nonEmpty.
Qed.

(** X3: a row of the table whose stat cell is blank and whose rank cell
    is valid is accepted under the first stat category, "Shots on
    Goal". *)
Theorem tableRow_blank_stat_cell
    (withPositions : bool) (cell0 cell1 : string) (rest : list string)
    (r : Row.t) :
  trim cell0 = EmptyString ->
  tableRow withPositions (cell0 :: cell1 :: rest) = Some r ->
  r = Row.mk "Shots on Goal" (normalizeRank (trim cell1)).
Proof.
intros H0. unfold tableRow. rewrite H0.
change (matchedStat "") with (Some "Shots on Goal").
cbn [nonEmpty orb andb].
destruct (_ && _); [|discriminate]. now intros [= <-].
Qed.

Lemma tableRow_blank_stat_cell_witness :
  Row.mk "Shots on Goal" "25th"
  = Row.mk "Shots on Goal" (normalizeRank (trim " 25 ")).
Proof.
apply (tableRow_blank_stat_cell false "  " " 25 " []
         (Row.mk "Shots on Goal" "25th")); reflexivity.
Defined.

(** X4: the rank normalisation of the table strategy is idempotent, and
    it does not move a rank into or out of the band 24-32. *)
Theorem normalizeRank_idempotent_keeps_band (rankText : string) :
  normalizeRank (normalizeRank rankText) = normalizeRank rankText
  /\ isRankInRange (normalizeRank rankText) = isRankInRange rankText.
Proof.
split; [apply RankFacts.normalizeRank_idem
       | apply RankFacts.isRankInRange_normalizeRank].
Qed.

(** X5: every row of the text strategy has a position that is a stat
    category up to the case of its letters, and a rank that is a run of
    digits followed by "th", "st", "nd" or "rd" in any case; the rank
    normalisation of the table strategy leaves such a rank as it is. *)
Theorem textStrategy_rows (containerText : string) :
  Forall (fun r =>
            Ordinal.namesCategory (Row.position r)
            /\ Ordinal.isOrdinal (Row.rank r)
            /\ normalizeRank (Row.rank r) = Row.rank r)
         (TextScan.textStrategy containerText).
Proof.
apply Forall_forall. intros r H.
apply TextScanFacts.textStrategy_In in H as [H1 H2].
repeat split; try assumption.
unfold normalizeRank.
now rewrite (TextScanFacts.hasOrdinalSuffix_isOrdinal _ H2).
Qed.

(** ** The extraction engine *)

Section Engine.
Variable Page : Type.
Variable Container : Type.
Variable prepare : Page -> Page * outcome unit.
Variable activatePosition : string -> Page -> Page * outcome bool.
Variable locateContainer : Page -> Page * outcome (option Container).
Variable settle : Page -> Page * outcome unit.
Variable isClosed : Page -> bool.
Variable locateFallbackContainer : Page -> Page * outcome (option Container).
Variable debugProbe : Page -> Page * outcome unit.
Variable tableOf : Container -> option (list (list string)).
Variables textStrategy cardStrategy divStrategy : Container -> list Row.t.

Let passes : list string -> list Row.t -> M Page (list Row.t) :=
  positionPasses Page Container activatePosition locateContainer tableOf
    textStrategy.
Let unfiltered : list Row.t -> M Page (list Row.t) :=
  unfilteredPass Page Container locateContainer tableOf textStrategy.
Let fallback : list Row.t -> M Page (list Row.t) :=
  fallbackPass Page Container locateFallbackContainer tableOf textStrategy
    cardStrategy divStrategy.
Let scrape : string -> string -> string -> M Page (list DefenseData.t) :=
  scrapeDefenseData Page Container prepare activatePosition locateContainer
    settle isClosed locateFallbackContainer debugProbe tableOf textStrategy
    cardStrategy divStrategy.

(** X6: the promise of [scrapeDefenseData] is always fulfilled, whatever
    the page operations do; every record it returns carries the team, the
    opponent and the game time of the call; and every record has a rank
    of the band 24-32 unless the fallback extraction has run. *)
Theorem scrapeDefenseData_resolves_with_tagged_records
    (team opponent gameTime : string) (page : Page) :
  exists w l,
    run Page (scrape team opponent gameTime) page = (w, Ok l)
    /\ Forall (Records.tagged team opponent gameTime) l
    /\ (~ In FallbackExtract (snd w) -> Forall Records.rankInBand l).
Proof.
unfold run, scrape, scrapeDefenseData, tryCatch.
unfold bind at 1.
destruct (call Page prepare (page, [])) as [w1 [u1|]] eqn:E1;
  [|eexists _, []; now repeat split].
pose proof (ScraperFacts.call_trace _ _ _ _ _ E1) as T1. cbn [snd] in T1.
unfold bind at 1. fold passes.
destruct (ScraperFacts.passes_spec Page Container activatePosition
            locateContainer tableOf textStrategy positions [] w1)
  as (w2 & rows & E2 & Hband & _); [constructor | rewrite T1; constructor |].
fold passes in E2. rewrite E2.
assert (Hkeep : forall w (r0 : Row.t) rs, Forall inBand (r0 :: rs) ->
          exists w' l,
            match
              bind Page (call Page settle)
                (fun _ => bind Page (pageClosed Page isClosed)
                   (fun closed =>
                      if closed then ret Page []
                      else bind Page (fallback (r0 :: rs))
                             (fun allDefenseRows =>
                                match allDefenseRows with
                                | [] => bind Page (call Page debugProbe)
                                          (fun _ => ret Page [])
                                | _ :: _ =>
                                    ret Page
                                      (map (toDefenseData team opponent gameTime)
                                         allDefenseRows)
                                end))) w
            with
            | (w', Throws) => ret Page [] w'
            | r => r
            end = (w', Ok l)
            /\ Forall (Records.tagged team opponent gameTime) l
            /\ Forall Records.rankInBand l).
{ intros w r0 rs Hb. unfold bind at 1.
  destruct (call Page settle w) as [w4 [u|]];
    [|eexists _, []; now repeat split].
  unfold bind at 1, pageClosed at 1.
  destruct (isClosed (fst w4)); [eexists _, []; now repeat split|].
  unfold bind, fallback, fallbackPass, ret.
  eexists _, _. split; [reflexivity|]. split.
  - apply EngineFacts.toDefenseData_tagged.
  - now apply EngineFacts.toDefenseData_inBand. }
destruct rows as [|r0 rs].
- unfold bind at 1. fold unfiltered.
  destruct (unfiltered [] w2) as [w3 [rows3|]] eqn:E3;
    [|eexists _, []; now repeat split].
  pose proof E3 as Hb3. apply ScraperFacts.unfiltered_inBand in Hb3.
  destruct rows3 as [|r3 rs3].
  + unfold bind at 1.
    destruct (call Page settle w3) as [w4 [u|]] eqn:E4;
      [|eexists _, []; now repeat split].
    unfold bind at 1, pageClosed at 1.
    destruct (isClosed (fst w4)); [eexists _, []; now repeat split|].
    unfold bind at 1. fold fallback.
    destruct (fallback [] w4) as [w5 [rows5|]] eqn:E5;
      pose proof E5 as T5; apply ScraperFacts.fallback_trace in T5;
      [|eexists _, []; now repeat split].
    destruct rows5 as [|r5 rs5].
    * unfold bind at 1.
      destruct (call Page debugProbe w5) as [w6 [u6|]];
        eexists _, []; now repeat split.
    * unfold ret. eexists _, _. split; [reflexivity|]. split.
      -- apply EngineFacts.toDefenseData_tagged.
      -- intro Hno. exfalso. apply Hno. rewrite T5.
         apply in_or_app. right. now left.
  + destruct (Hkeep w3 r3 rs3 Hb3) as (w' & l & El & Ht & Hr).
    exists w', l. repeat split; [exact El | exact Ht | intros _; exact Hr].
- unfold bind at 1. unfold unfilteredPass at 1, ret at 1.
  destruct (Hkeep w2 r0 rs Hband) as (w' & l & El & Ht & Hr).
  exists w', l. repeat split; [exact El | exact Ht | intros _; exact Hr].
Qed.

End Engine.

(** ** Game times *)

(** X7: a time of a 12-hour clock written "H:MM AM" or "H:MM PM", with
    the period in upper or in lower case, is formatted as the time of the
    day "HH:MM:00": 12 AM is hour 0, 12 PM is hour 12, the other PM hours
    get 12 added. *)
Theorem formatGameTime_twelve_hour
    (parseDate : string -> option (nat * nat)) (h m : nat) :
  1 <= h <= 12 -> m < 60 ->
  GameTime.formatGameTimeForSheets parseDate (Clock.twelveHour "PM" h m)
  = Clock.clock (if Nat.eqb h 12 then 12 else h + 12) m
  /\ GameTime.formatGameTimeForSheets parseDate (Clock.twelveHour "pm" h m)
     = Clock.clock (if Nat.eqb h 12 then 12 else h + 12) m
  /\ GameTime.formatGameTimeForSheets parseDate (Clock.twelveHour "AM" h m)
     = Clock.clock (if Nat.eqb h 12 then 0 else h) m
  /\ GameTime.formatGameTimeForSheets parseDate (Clock.twelveHour "am" h m)
     = Clock.clock (if Nat.eqb h 12 then 0 else h) m.
Proof.
intros Hh Hm.
destruct (GameTimeFacts.checkTwelve_ok parseDate) as (H1 & H2 & H3 & H4).
repeat split.
- exact (GameTimeFacts.twelveHour_format parseDate "PM" "PM" h m H1 Hh Hm).
- exact (GameTimeFacts.twelveHour_format parseDate "PM" "pm" h m H2 Hh Hm).
- exact (GameTimeFacts.twelveHour_format parseDate "AM" "AM" h m H3 Hh Hm).
- exact (GameTimeFacts.twelveHour_format parseDate "AM" "am" h m H4 Hh Hm).
Qed.

Lemma formatGameTime_twelve_hour_witness :
  GameTime.formatGameTimeForSheets (fun _ => None) "7:05 PM" = "19:05:00"
  /\ GameTime.formatGameTimeForSheets (fun _ => None) "7:05 pm" = "19:05:00"
  /\ GameTime.formatGameTimeForSheets (fun _ => None) "7:05 AM" = "07:05:00"
  /\ GameTime.formatGameTimeForSheets (fun _ => None) "7:05 am" = "07:05:00".
Proof. apply (formatGameTime_twelve_hour (fun _ => None) 7 5); lia. Defined.

(** X8: a time of a 24-hour clock written "H:MM" or "HH:MM" is formatted
    as "HH:MM:00" with the same hour and minute. *)
Theorem formatGameTime_twenty_four_hour
    (parseDate : string -> option (nat * nat)) (h m : nat) :
  h < 24 -> m < 60 ->
  GameTime.formatGameTimeForSheets parseDate
    (GameTime.toString h ++ ":" ++ GameTime.pad2 m) = Clock.clock h m
  /\ GameTime.formatGameTimeForSheets parseDate
       (GameTime.pad2 h ++ ":" ++ GameTime.pad2 m) = Clock.clock h m.
Proof.
intros Hh Hm. pose proof (GameTimeFacts.checkTwentyFour_ok parseDate) as H.
unfold Clock.checkTwentyFour in H.
apply (GameTimeFacts.forallb_seq _ _ _ h) in H; [|lia].
apply (GameTimeFacts.forallb_seq _ _ _ m) in H; [|lia].
apply andb_prop in H as [H1 H2].
now apply String.eqb_eq in H1, H2.
Qed.

Lemma formatGameTime_twenty_four_hour_witness :
  GameTime.formatGameTimeForSheets (fun _ => None) "9:30" = "09:30:00"
  /\ GameTime.formatGameTimeForSheets (fun _ => None) "09:30" = "09:30:00".
Proof. apply (formatGameTime_twenty_four_hour (fun _ => None) 9 30); lia. Defined.

(** X9: a game time that, once trimmed, has no digit, no "T" and no "-"
    is returned trimmed and otherwise as it is; in particular a blank game
    time gives the empty string. *)
Theorem formatGameTime_passes_other_text_through
    (parseDate : string -> option (nat * nat)) (gameTime : string) :
  hasDigit (trim gameTime) = false ->
  includes (trim gameTime) "T" = false ->
  includes (trim gameTime) "-" = false ->
  GameTime.formatGameTimeForSheets parseDate gameTime = trim gameTime.
Proof.
intros Hd HT Hm. unfold GameTime.formatGameTimeForSheets.
destruct (nonEmpty (trim gameTime)) eqn:E.
- rewrite (GameTimeFacts.nonEmpty_trim _ E). cbn [negb orb]. rewrite HT, Hm.
  cbn [orb]. now rewrite GameTimeFacts.timeMatch_no_digit.
- rewrite orb_true_r. destruct (trim gameTime); [reflexivity | discriminate].
Qed.

Lemma formatGameTime_passes_other_text_through_witness :
  GameTime.formatGameTimeForSheets (fun _ => Some (19, 0)) " postponed "
  = trim " postponed ".
Proof.
apply (formatGameTime_passes_other_text_through
         (fun _ => Some (19, 0)) " postponed "); reflexivity.
Defined.

(** ** The teams of the day and the defense sheet *)

(** X10: when the teams of the games of the day are all different, the
    rounds of the team loop of [main] are, game after game, the first team
    with the second as its opponent and then the second team with the
    first as its opponent, both with the time of the game. *)
Theorem scrapeTargets_of_distinct_teams (todayGames : list Today.Game) :
  NoDup (flat_map Slate.teamsOf todayGames) ->
  Today.scrapeTargets todayGames = flat_map Slate.targetsOf todayGames.
Proof.
intro Hnd.
unfold Today.scrapeTargets, Today.teamsArray, Today.teamGameInfo,
  Today.collect, JsMap.empty.
rewrite (TodayFacts.collect_fresh todayGames [] [] eq_refl Hnd).
cbn [fst snd app].
destruct (TodayFacts.keys_entries todayGames) as [K1 K2]. rewrite K2, <- K1.
rewrite <- TodayFacts.targets_of_entries.
assert (H : NoDup (JsMap.keys string Today.GameInfo []
                   ++ JsMap.keys string Today.GameInfo
                        (flat_map Slate.infoOf todayGames))).
{ cbn [JsMap.keys map app].
  fold (JsMap.keys string Today.GameInfo (flat_map Slate.infoOf todayGames)).
  now rewrite K1. }
exact (TodayFacts.get_own_entries
         (fun k v => (k, Today.opponent v, Today.infoTime v)) []
         (flat_map Slate.infoOf todayGames) H).
Qed.

Lemma scrapeTargets_of_distinct_teams_witness :
  Today.scrapeTargets
    [Today.mkGame "BOS" "TOR" "7:00 PM"; Today.mkGame "NYR" "MTL" "7:30 PM"]
  = [ ("BOS", "TOR", "7:00 PM"); ("TOR", "BOS", "7:00 PM");
      ("NYR", "MTL", "7:30 PM"); ("MTL", "NYR", "7:30 PM") ].
Proof.
apply (scrapeTargets_of_distinct_teams
         [Today.mkGame "BOS" "TOR" "7:00 PM"; Today.mkGame "NYR" "MTL" "7:30 PM"]).
simpl. repeat constructor; simpl; intuition discriminate.
Defined.

(** X11: the reader applied to the header and to the rows that the upload
    writes (as written, before the spreadsheet interprets them) finds the
    columns 0 to 4 and returns, in order, the records whose team,
    opponent, stat and rank are not blank, with every field trimmed and
    the game time formatted. *)
Theorem reader_reads_uploaded_rows
    (formatGameTimeForSheets : string -> string)
    (defenseData : list Scraper.DefenseData.t) :
  Reader.defenseData Upload.header
    (Upload.values formatGameTimeForSheets defenseData)
  = map (Sheet.readBack formatGameTimeForSheets)
      (filter Sheet.notBlank defenseData).
Proof.
unfold Reader.defenseData, Upload.values.
rewrite ReaderFacts.columns_of_upload_header.
induction defenseData as [|data rest IH]; [reflexivity|].
cbn [map Reader.parseRows filter].
unfold Reader.parseRow at 1, Reader.cell, Sheet.notBlank.
cbn [List.length Nat.leb Nat.max Reader.teamIdx Reader.opponentIdx
     Reader.gameTimeIdx Reader.positionIdx Reader.rankIdx nth].
destruct (nonEmpty (trim (Scraper.DefenseData.team data)));
  [|exact IH].
destruct (nonEmpty (trim (Scraper.DefenseData.opponent data)));
  [|exact IH].
destruct (nonEmpty (trim (Scraper.DefenseData.stat data)));
  [|exact IH].
destruct (nonEmpty (trim (Scraper.DefenseData.rank data)));
  [|exact IH].
cbn [negb orb andb map]. now rewrite IH.
Qed.

(** X12: whatever the header row and the rows of the sheet are, every
    record the reader returns has a team, an opponent, a position and a
    rank that are not empty, and all its fields are trimmed. *)
Theorem reader_records_are_well_formed
    (headers : list string) (rows : list (list string)) :
  Forall Sheet.wellFormed (Reader.defenseData headers rows).
Proof.
apply Forall_forall. intros d H. unfold Reader.defenseData in H.
apply ReaderFacts.parseRows_In in H as (row & _ & H).
now apply ReaderFacts.parseRow_wellFormed in H.
Qed.

(** ** Canonicalizers *)

(** X13: the three team canonicalizers (of the PrizePicks scraper, of the
    Underdog scraper and of the join) do not see the case of the letters
    of a team name nor the white space around it. *)
Theorem team_canonicalizers_ignore_case_and_margins (team : string) :
  (Canon.normalizeTeamName (toLowerCase team) = Canon.normalizeTeamName team
   /\ Canon.normalizeTeamName (toUpperCase team) = Canon.normalizeTeamName team
   /\ Canon.normalizeTeamName (trim team) = Canon.normalizeTeamName team)
  /\ (Underdog.normalizeTeamName (toLowerCase team)
      = Underdog.normalizeTeamName team
      /\ Underdog.normalizeTeamName (toUpperCase team)
         = Underdog.normalizeTeamName team
      /\ Underdog.normalizeTeamName (trim team) = Underdog.normalizeTeamName team)
  /\ (normalizeTeamForMatching (toLowerCase team) = normalizeTeamForMatching team
      /\ normalizeTeamForMatching (toUpperCase team)
         = normalizeTeamForMatching team
      /\ normalizeTeamForMatching (trim team) = normalizeTeamForMatching team).
Proof.
split; [|split].
- exact (CaseFacts.canonWith_insensitive Canon.teamMap team).
- exact (CaseFacts.canonWith_insensitive Underdog.teamMap team).
- exact (CaseFacts.canonWith_insensitive teamVariations team).
Qed.

(** X14: a normalized statistic is made of lower-case letters, digits,
    underscores and spaces only, has no white space at either end, and is
    the same for statistics that differ in the case of their letters. *)
Theorem normalizeStatForMatching_normal_form (stat : string) :
  allChars NormalForm.isNormalChar (normalizeStatForMatching stat) = true
  /\ trim (normalizeStatForMatching stat) = normalizeStatForMatching stat
  /\ normalizeStatForMatching (toUpperCase stat) = normalizeStatForMatching stat
  /\ normalizeStatForMatching (toLowerCase stat) = normalizeStatForMatching stat.
Proof.
split; [apply NormFacts.normalizeStatForMatching_chars|].
unfold normalizeStatForMatching.
rewrite JsFacts.trim_idem, StringFacts.toLowerCase_toUpperCase,
  CaseFacts.toLowerCase_idem.
now repeat split.
Qed.

(** X15: the Underdog canonicalizer of team names always returns a
    string, which it maps to itself and which the team canonicalizer of
    the join maps to itself as well. *)
Theorem underdog_team_names_are_stable (teamName : string) :
  exists canonical,
    Underdog.normalizeTeamName teamName = VString canonical
    /\ Underdog.normalizeTeamName canonical = VString canonical
    /\ normalizeTeamForMatching canonical = VString canonical.
Proof.
destruct (CanonFacts.canonWith_idem Underdog.teamMap
            UnderdogFacts.underdogTeamMap_canonical teamName)
  as (y & Hy & Hyy).
exists y. split; [exact Hy|]. split; [exact Hyy|].
unfold canonWith in Hy. rewrite CanonFacts.get_upper_key in Hy.
destruct (own Underdog.teamMap (trim (toUpperCase teamName))) as [v|] eqn:E.
- (* a value of the table of the Underdog scraper *)
  apply CanonFacts.own_In in E.
  pose proof UnderdogFacts.underdogTeamMap_canonical as Hc.
  rewrite Forall_forall in Hc.
  destruct (Hc _ E) as (Hne & _). cbn [snd] in Hne.
  pose proof UnderdogFacts.teamMap_values_match as Hv.
  rewrite Forall_forall in Hv.
  specialize (Hv _ E). cbn [snd] in Hv.
  assert (y = v) as ->.
  { unfold logicalOr in Hy. simpl in Hy.
    destruct v; [discriminate Hne | now injection Hy]. }
  exact Hv.
- (* a name the table does not have: the table of the join has it
     neither *)
  injection Hy as <-.
  unfold normalizeTeamForMatching.
  rewrite JsFacts.upper_trim_fixed, CanonFacts.get_upper_key.
  destruct (own teamVariations (trim (toUpperCase teamName))) as [v|] eqn:Ev;
    [|reflexivity].
  now apply UnderdogFacts.teamVariations_keys in Ev.
Qed.

(** X16: the team canonicalizers of the Underdog scraper and of the
    PrizePicks scraper give different results exactly for the names that,
    upper-cased and trimmed, are "NJ", "SJ", "TB", "VEG", "WAS" or
    "WIN". *)
Theorem team_canonicalizers_differ_on_six_names (teamName : string) :
  In (trim (toUpperCase teamName)) ["NJ"; "SJ"; "TB"; "VEG"; "WAS"; "WIN"]
  <-> Underdog.normalizeTeamName teamName <> Canon.normalizeTeamName teamName.
Proof.
unfold Underdog.normalizeTeamName, Canon.normalizeTeamName. cbv zeta.
set (upper := trim (toUpperCase teamName)). split.
- intro H. simpl in H.
  repeat (destruct H as [<- | H]; [vm_compute; discriminate|]).
  contradiction.
- intro H.
  destruct (in_dec string_dec upper ["NJ"; "SJ"; "TB"; "VEG"; "WAS"; "WIN"])
    as [Hin | Hout]; [exact Hin|].
  exfalso. apply H. unfold get.
  now rewrite (UnderdogFacts.teamMap_agree _ Hout).
Qed.

(** X17: the stat canonicalizer of the Underdog scraper is the one of
    the PrizePicks scraper applied to the trimmed stat, except for the
    stat "Fantasy Score", which only the Underdog scraper maps to
    "Points". *)
Theorem stat_canonicalizers_differ_on_fantasy_score (statType : string) :
  trim statType = "Fantasy Score"
  <-> Underdog.normalizeStatType statType
      <> Canon.normalizeStatType (VString (trim statType)).
Proof.
unfold Underdog.normalizeStatType, Canon.normalizeStatType. cbv zeta.
cbn [toPropertyKey]. set (normalized := trim statType). split.
- intros ->. vm_compute. discriminate.
- intro H. destruct (string_dec normalized "Fantasy Score") as [E | Hne];
    [exact E|].
  exfalso. apply H. unfold get.
  now rewrite (UnderdogFacts.statMap_agree _ Hne).
Qed.

(** ** The join engine *)

(** X18: the lookup of the join sees the defense records, the opponent
    and the statistic through their normal forms only, and does not read
    the team of the prop: with lists of records that agree pairwise on
    the normalized opponent, the normalized position and the rank, and
    with opponents and statistics of the same normal forms, it gives the
    same result. *)
Theorem findDefenseStrength_reads_normal_forms
    (ds ds' : list Props.DefenseData.t) (team team' o o' s s' : string) :
  Forall2 NormalForm.sameForJoin ds ds' ->
  o <> EmptyString -> o' <> EmptyString ->
  s <> EmptyString -> s' <> EmptyString ->
  normalizeTeamForMatching o = normalizeTeamForMatching o' ->
  normalizeStatForMatching s = normalizeStatForMatching s' ->
  findDefenseStrength ds team o s = findDefenseStrength ds' team' o' s'.
Proof.
intros H Ho Ho' Hs Hs' Eo Es. unfold findDefenseStrength.
rewrite (JoinFacts.nonEmpty_true _ Ho), (JoinFacts.nonEmpty_true _ Ho'),
  (JoinFacts.nonEmpty_true _ Hs), (JoinFacts.nonEmpty_true _ Hs').
cbn [negb orb]. rewrite <- Eo, <- Es.
set (no := normalizeTeamForMatching o). set (ns := normalizeStatForMatching s).
assert (Hm : Forall2 NormalForm.sameForJoin
               (filter (sameOpponent no) ds) (filter (sameOpponent no) ds')).
{ apply MoreJoinFacts.filter_related; [|exact H].
  intros x y (Hxy & _). unfold sameOpponent. now rewrite Hxy. }
revert Hm. generalize (filter (sameOpponent no) ds) as m.
generalize (filter (sameOpponent no) ds') as m'.
intros m' m Hm. destruct Hm as [|x y m m' Hxy Hrest]; [reflexivity|].
assert (Hall : Forall2 NormalForm.sameForJoin (x :: m) (y :: m'))
  by now constructor.
pose proof (MoreJoinFacts.find_related NormalForm.sameForJoin _ _ _
              (MoreJoinFacts.isExact_related ns) Hall) as H1.
destruct (find (isExact ns) (x :: m)), (find (isExact ns) (y :: m'));
  try contradiction; [now rewrite (MoreJoinFacts.sameForJoin_rank _ _ H1)|].
pose proof (MoreJoinFacts.find_related NormalForm.sameForJoin _ _ _
              (MoreJoinFacts.isPartial_related ns) Hall) as H2.
destruct (find (isPartial ns) (x :: m)), (find (isPartial ns) (y :: m'));
  try contradiction; [now rewrite (MoreJoinFacts.sameForJoin_rank _ _ H2)|].
now rewrite (MoreJoinFacts.aliasLoop_related ns _ _ statAliases Hall),
  (MoreJoinFacts.reverseLoop_related ns _ _ statAliases Hall).
Qed.

Lemma findDefenseStrength_reads_normal_forms_witness :
  findDefenseStrength
    [Props.DefenseData.mk "BOS" "TOR" "7:00 PM" "Shots on Goal" "25th"]
    "BOS" "TOR" "SOG"
  = findDefenseStrength
      [Props.DefenseData.mk "" " tor " "" "SHOTS  ON GOAL!" "25th"]
      "NYR" "tor" " sog ".
Proof.
apply (findDefenseStrength_reads_normal_forms
         [Props.DefenseData.mk "BOS" "TOR" "7:00 PM" "Shots on Goal" "25th"]
         [Props.DefenseData.mk "" " tor " "" "SHOTS  ON GOAL!" "25th"]
         "BOS" "NYR" "TOR" "tor" "SOG" " sog ");
  try discriminate; try reflexivity.
repeat constructor.
Defined.

(** X19: the records about other opponents have no influence on the
    lookup: they can be dropped from the list, together with or without
    any other records one chooses to keep. *)
Theorem findDefenseStrength_ignores_other_opponents
    (keep : Props.DefenseData.t -> bool) (ds : list Props.DefenseData.t)
    (team o s : string) :
  findDefenseStrength
    (filter (fun d => keep d || sameOpponent (normalizeTeamForMatching o) d) ds)
    team o s
  = findDefenseStrength ds team o s.
Proof.
apply MoreJoinFacts.findDefenseStrength_filter. intros d ->. apply orb_true_r.
Qed.

(** X20: the reverse alias check, the last tier of the lookup, never
    decides: for a prop with an opponent and a statistic the lookup is the
    first candidate of the exact matches, else of the partial matches,
    else of the alias groups in the order of the table, else null. *)
Theorem reverse_alias_check_never_decides
    (defenseData : list Props.DefenseData.t)
    (team opponent statCategory : string) :
  opponent <> EmptyString ->
  statCategory <> EmptyString ->
  findDefenseStrength defenseData team opponent statCategory
  = Tiers.firstOf
      (Tiers.firstCandidate (Tiers.exact opponent statCategory) defenseData)
      (Tiers.firstOf
         (Tiers.firstCandidate (Tiers.partial opponent statCategory)
            defenseData)
         (Tiers.byGroup (Tiers.forwardIn opponent statCategory) statAliases
            defenseData)).
Proof.
intros Ho Hs.
pose proof (JoinFacts.reverse_adds_nothing opponent statCategory statAliases
              defenseData) as Hrev.
revert Hrev. unfold findDefenseStrength.
rewrite (JoinFacts.nonEmpty_true _ Ho), (JoinFacts.nonEmpty_true _ Hs).
cbn [negb orb].
unfold Tiers.firstCandidate, Tiers.exact, Tiers.partial.
rewrite <- !JoinFacts.find_filter.
rewrite <- JoinFacts.aliasLoop_byGroup, <- JoinFacts.reverseLoop_byGroup.
generalize (filter (sameOpponent (normalizeTeamForMatching opponent))
              defenseData) as opponentMatches.
intros [|d ds] Hrev.
- now rewrite JoinFacts.aliasLoop_nil.
- set (normalizedStat := normalizeStatForMatching statCategory) in *.
  destruct (find (isExact normalizedStat) (d :: ds)); [reflexivity|].
  destruct (find (isPartial normalizedStat) (d :: ds)); [reflexivity|].
  cbn [option_map Tiers.firstOf].
  destruct (aliasLoop normalizedStat (d :: ds) statAliases); [reflexivity|].
  now apply Hrev.
Qed.

Lemma reverse_alias_check_never_decides_witness :
  findDefenseStrength [Scenario.recordOfOpponent] "BOS" "TOR" "SOG"
  = Tiers.firstOf
      (Tiers.firstCandidate (Tiers.exact "TOR" "SOG")
         [Scenario.recordOfOpponent])
      (Tiers.firstOf
         (Tiers.firstCandidate (Tiers.partial "TOR" "SOG")
            [Scenario.recordOfOpponent])
         (Tiers.byGroup (Tiers.forwardIn "TOR" "SOG") statAliases
            [Scenario.recordOfOpponent])).
Proof.
apply (reverse_alias_check_never_decides
         [Scenario.recordOfOpponent] "BOS" "TOR" "SOG"); discriminate.
Defined.

(** X21: a statistic that is not empty but normalizes to the empty
    string, such as "+/-", matches whatever the records say: the lookup
    returns the rank of the first record of the opponent whose normalized
    position is empty, and else the rank of the first record of the
    opponent. *)
Theorem blank_statistic_matches_first_record
    (ds : list Props.DefenseData.t) (team o s : string)
    (d : Props.DefenseData.t) :
  o <> EmptyString -> s <> EmptyString ->
  normalizeStatForMatching s = EmptyString ->
  find (sameOpponent (normalizeTeamForMatching o)) ds = Some d ->
  findDefenseStrength ds team o s
  = Some (Props.DefenseData.rank
            (match find (fun e => sameOpponent (normalizeTeamForMatching o) e
                                  && isExact EmptyString e) ds with
             | Some e => e
             | None => d
             end)).
Proof.
intros Ho Hs Es Hd. unfold findDefenseStrength.
rewrite (JoinFacts.nonEmpty_true _ Ho), (JoinFacts.nonEmpty_true _ Hs).
cbn [negb orb]. rewrite Es.
rewrite <- JoinFacts.find_filter.
destruct (MoreJoinFacts.filter_head _ _ _ Hd) as [rest ->].
destruct (find (isExact "") (d :: rest)); [reflexivity|].
cbn [find]. unfold isPartial at 1. now rewrite MoreJoinFacts.includes_nil.
Qed.

Lemma blank_statistic_matches_first_record_witness :
  findDefenseStrength
    [Scenario.recordAsStated; Scenario.recordOfOpponent] "BOS" "TOR" "+/-"
  = Some "25th".
Proof.
apply (blank_statistic_matches_first_record
         [Scenario.recordAsStated; Scenario.recordOfOpponent]
         "BOS" "TOR" "+/-" Scenario.recordOfOpponent);
  try discriminate; reflexivity.
Defined.

(** ** The schedule *)

(** X22: in the schedule made of games whose normalized team names are
    all different and not empty, each team of a game is looked up to the
    other team of that game. *)
Theorem schedule_lookup_is_symmetric
    (games : list Schedule.GameMatchup) (game : Schedule.GameMatchup) :
  NoDup (flat_map Slate.names games) ->
  In game games ->
  truthy (Underdog.normalizeTeamName (Schedule.teamA game)) = true ->
  truthy (Underdog.normalizeTeamName (Schedule.teamB game)) = true ->
  Schedule.getOpponentFromSchedule (Schedule.teamA game)
    (Schedule.matchupMap games)
  = Some (Underdog.normalizeTeamName (Schedule.teamB game))
  /\ Schedule.getOpponentFromSchedule (Schedule.teamB game)
       (Schedule.matchupMap games)
     = Some (Underdog.normalizeTeamName (Schedule.teamA game)).
Proof.
intros Hnd Hin Ha Hb.
destruct (ScheduleFacts.fold_lookup games (JsMap.empty _ _) game Hnd Hin Ha Hb)
  as [H1 H2].
unfold Schedule.getOpponentFromSchedule, Schedule.matchupMap.
rewrite H1, H2, Ha, Hb.
destruct (Schedule.teamA game); [discriminate Ha|].
destruct (Schedule.teamB game); [discriminate Hb|].
now split.
Qed.

Lemma schedule_lookup_is_symmetric_witness :
  Schedule.getOpponentFromSchedule "Bos"
    (Schedule.matchupMap
       [Schedule.mkGame "Bos" "Tor" "7:00 PM"; Schedule.mkGame "NJ" "LA" "8:00 PM"])
  = Some (VString "TOR")
  /\ Schedule.getOpponentFromSchedule "Tor"
       (Schedule.matchupMap
          [Schedule.mkGame "Bos" "Tor" "7:00 PM";
           Schedule.mkGame "NJ" "LA" "8:00 PM"])
     = Some (VString "BOS").
Proof.
apply (schedule_lookup_is_symmetric
         [Schedule.mkGame "Bos" "Tor" "7:00 PM"; Schedule.mkGame "NJ" "LA" "8:00 PM"]
         (Schedule.mkGame "Bos" "Tor" "7:00 PM")).
- vm_compute. repeat constructor; simpl; intuition discriminate.
- left. reflexivity.
- reflexivity.
- reflexivity.
Defined.

(** X23: a team whose normalized name is the name of no game of the day
    has no opponent in the schedule: the lookup gives null. *)
Theorem schedule_lookup_of_absent_team
    (games : list Schedule.GameMatchup) (team : string) :
  ~ In (Underdog.normalizeTeamName team) (flat_map Slate.names games) ->
  Schedule.getOpponentFromSchedule team (Schedule.matchupMap games) = None.
Proof.
intro H. unfold Schedule.getOpponentFromSchedule, Schedule.matchupMap.
rewrite (ScheduleFacts.fold_other _ games (JsMap.empty _ _) H).
now destruct (negb (nonEmpty team)).
Qed.

Lemma schedule_lookup_of_absent_team_witness :
  Schedule.getOpponentFromSchedule "MTL"
    (Schedule.matchupMap [Schedule.mkGame "Bos" "Tor" "7:00 PM"])
  = None.
Proof.
apply (schedule_lookup_of_absent_team
         [Schedule.mkGame "Bos" "Tor" "7:00 PM"] "MTL").
vm_compute. intuition discriminate.
Defined.

(** ** The props of the Underdog scraper *)

(** X24: when the normalisation of the extracted props does not throw,
    every prop it returns is the normal form of an extracted prop, has a
    player name, a team that is a string and not empty, a stat that is a
    string of the allow-list, a line that is not at most 0, and an
    opponent that is empty or a string different from the team. *)
Theorem underdog_kept_props_are_valid
    (props : list Props.UnderdogProp.t)
    (kept : list UnderdogProps.Normalized) :
  UnderdogProps.normalizedProps props = Ok kept ->
  Forall (fun p => In p (map UnderdogProps.normalize props) /\ KeptProp.valid p)
         kept.
Proof.
unfold UnderdogProps.normalizedProps.
destruct (UnderdogProps.filterValid (map UnderdogProps.normalize props))
  as [kept0|] eqn:E; [|discriminate].
intros [= <-]. apply Forall_forall. intros p Hp.
unfold UnderdogProps.uniqueProps in Hp.
apply UnderdogPropsFacts.uniquePropsFrom_In in Hp.
destruct (UnderdogPropsFacts.filterValid_In _ _ _ E Hp) as [Hin Hv].
split; [exact Hin|].
apply in_map_iff in Hin as (prop & <- & _).
now apply UnderdogPropsFacts.isValid_valid.
Qed.

Lemma underdog_kept_props_are_valid_witness :
  Forall (fun p =>
            In p (map UnderdogProps.normalize
                    [Props.UnderdogProp.mk "Player" "tor" "Bos" None " SOG "
                       2.5%float None])
            /\ KeptProp.valid p)
    [UnderdogProps.mkNormalized "Player" (VString "TOR") (VString "BOS") None
       (VString "Shots on Goal") 2.5%float None].
Proof.
apply (underdog_kept_props_are_valid
         [Props.UnderdogProp.mk "Player" "tor" "Bos" None " SOG " 2.5%float None]).
vm_compute. reflexivity.
Defined.

(** X25: a prop with a player name, a team and a line that is not at
    most 0, and whose trimmed stat is the name of a member of
    [Object.prototype] (such as "constructor"), makes the normalisation
    throw, wherever the prop stands in the list. *)
Theorem underdog_props_throw_on_inherited_stat
    (before rest : list Props.UnderdogProp.t) (prop : Props.UnderdogProp.t) :
  Props.UnderdogProp.playerName prop <> EmptyString ->
  truthy (Underdog.normalizeTeamName (Props.UnderdogProp.team prop)) = true ->
  PrimFloat.leb (Props.UnderdogProp.line prop) 0%float = false ->
  In (trim (Props.UnderdogProp.stat prop)) objectPrototype ->
  UnderdogProps.normalizedProps (before ++ prop :: rest)%list = Throws.
Proof.
intros Hname Hteam Hline Hstat. unfold UnderdogProps.normalizedProps.
rewrite map_app. cbn [map].
rewrite UnderdogPropsFacts.filterValid_throws; [reflexivity|].
unfold UnderdogProps.isValid, UnderdogProps.normalize.
cbn [UnderdogProps.playerName UnderdogProps.team UnderdogProps.stat
     UnderdogProps.line UnderdogProps.opponent].
rewrite (JoinFacts.nonEmpty_true _ Hname), Hteam, Hline.
unfold Underdog.normalizeStatType. cbv zeta.
simpl in Hstat.
repeat (destruct Hstat as [<- | Hstat]; [reflexivity|]).
contradiction.
Qed.

Lemma underdog_props_throw_on_inherited_stat_witness :
  UnderdogProps.normalizedProps
    ([Props.UnderdogProp.mk "Player" "TOR" "BOS" None "Hits" 2.5%float None]
     ++ Props.UnderdogProp.mk "Player" "TOR" "BOS" None "constructor"
          1.5%float None
     :: [])%list
  = Throws.
Proof.
apply (underdog_props_throw_on_inherited_stat
         [Props.UnderdogProp.mk "Player" "TOR" "BOS" None "Hits" 2.5%float None]
         []
         (Props.UnderdogProp.mk "Player" "TOR" "BOS" None "constructor"
            1.5%float None)).
- discriminate.
- reflexivity.
- reflexivity.
- simpl. tauto.
Defined.

(** X26: the removal of duplicate props returns props of its input, and
    no returned prop is the same prop (same player, team and stat, lines
    less than 0.01 apart) as a prop returned before it. *)
Theorem underdog_unique_props_are_first_of_their_kind
    (normalizedProps : list UnderdogProps.Normalized) :
  incl (UnderdogProps.uniqueProps normalizedProps) normalizedProps
  /\ ForallOrdPairs (fun p q => UnderdogProps.sameProp q p = false)
       (UnderdogProps.uniqueProps normalizedProps).
Proof.
split.
- intros p H. now apply UnderdogPropsFacts.uniquePropsFrom_In in H.
- exact (proj1 (UnderdogPropsFacts.uniqueFrom_first [] normalizedProps)).
Qed.

End Extras.
